(** * BigQ-Opt: a shallow embedding of the cost-optimization dashboard

    The development follows the layout of the repository:

    - [PyStr]      Python string operations used by the error classifiers
                   ([str.lower], [x in s], slicing [s[:n]]);
    - [Effects]    a small state-and-exception monad for the code that calls
                   external providers inside [try]/[except];
    - [Config]     the cost constants of [config.py];
    - [AIOptimizer]  [services/ai_optimizer_service.py]: error classification
                   and the retry loop with exponential backoff;
    - [BigQuery]   [services/bigquery_service.py]: the dry-run wrapper;
    - [SqlOptimization]  [modules/sql_optimization.py]: the per-pair work unit
                   and the loop that drains the completed pairs;
    - [StorageOptimization], [MLAutoscaling]: the result aggregators;
    - [StorageSimulator]  [simulators/storage_simulator.py];
    - [Spec], [Scenarios]  the vocabulary of the properties and the concrete
                   providers and inputs they are run on;
    - the properties, one module of facts per source file.

    Conventions.  Python [int] is [Z].  Python [float] is modelled by exact
    rational arithmetic ([Q]); the rounding of IEEE-754 doubles is not
    modelled, so equalities between floats are stated with [Qeq].  Python
    [str] is modelled by [string] (a sequence of 8-bit characters);
    [str.lower] acts on the ASCII letters.  *)

From Stdlib Require Import ZArith QArith Qround Bool List String Ascii Lia.
From Stdlib Require Import Permutation DecimalString Lqa.
Import ListNotations.

Local Open Scope string_scope.
Local Open Scope Z_scope.

(* ================================================================== *)
(** * Python strings *)
(* ================================================================== *)

Module PyStr.

  (** [c.lower()] on one character: the letters A..Z are moved to a..z. *)
Definition lower_ascii (c : ascii) : ascii :=
    let n := nat_of_ascii c in
    if (Nat.leb 65 n && Nat.leb n 90)%bool then ascii_of_nat (n + 32) else c.

  (** [s.lower()] *)
Fixpoint lower (s : string) : string :=
    match s with
    | EmptyString => EmptyString
    | String c s' => String (lower_ascii c) (lower s')
    end.

  (** [needle in hay]: [needle] occurs as a contiguous substring. *)
Fixpoint contains (needle hay : string) : bool :=
    match hay with
    | EmptyString => prefix needle EmptyString
    | String _ hay' => (prefix needle hay || contains needle hay')%bool
    end.

  (** [s[:n]] *)
Definition take (n : nat) (s : string) : string := substring 0 n s.

(** [s[n:]] *)
Fixpoint skip (n : nat) (s : string) : string :=
  match n, s with
  | O, _ => s
  | S _, EmptyString => EmptyString
  | S n', String _ s' => skip n' s'
  end.

(** [s[:-n]], for [n > 0] *)
Definition drop_last (n : nat) (s : string) : string :=
  take (String.length s - n) s.

(** [s.startswith(p)] *)
Definition startswith (p s : string) : bool := prefix p s.

(** [s.endswith(p)]: some tail of [s] is [p]. *)
Fixpoint endswith (p s : string) : bool :=
  ((s =? p)%string
   || match s with
      | EmptyString => false
      | String _ s' => endswith p s'
      end)%bool.

(** [c.isspace()] for an ASCII character: tab, line feed, vertical tab,
    form feed, carriage return, the four separators 28..31, and space. *)
Definition isspace (c : ascii) : bool :=
  let n := nat_of_ascii c in
  ((Nat.leb 9 n && Nat.leb n 13) || (Nat.leb 28 n && Nat.leb n 32))%bool.

(** [s.lstrip()] *)
Fixpoint lstrip (s : string) : string :=
  match s with
  | EmptyString => EmptyString
  | String c s' => if isspace c then lstrip s' else s
  end.

(** [s.rstrip()] *)
Fixpoint rstrip (s : string) : string :=
  match s with
  | EmptyString => EmptyString
  | String c s' =>
      match rstrip s' with
      | EmptyString => if isspace c then EmptyString
                       else String c EmptyString
      | r => String c r
      end
  end.

(** [s.strip()] *)
Definition strip (s : string) : string := rstrip (lstrip s).

End PyStr.

(* ================================================================== *)
(** * Effects: state and exceptions *)
(* ================================================================== *)

Module Effects.

  (** The outcome of running a Python call: it returns a value or raises an
      exception, of which only [str(e)] is ever inspected by this code. *)
Inductive outcome (A : Type) : Type :=
  | Returned (a : A)
  | Raised (msg : string).
Arguments Returned {A} a.
Arguments Raised {A} msg.

  (** A computation over a world of type [W]. *)
Definition Eff (W A : Type) : Type := W -> outcome A * W.

Definition ret {W A} (a : A) : Eff W A := fun w => (Returned a, w).

Definition bind {W A B} (m : Eff W A) (k : A -> Eff W B) : Eff W B :=
    fun w =>
      match m w with
      | (Returned a, w') => k a w'
      | (Raised e, w') => (Raised e, w')
      end.

  (** [raise Exception(msg)] *)
Definition raise {W A} (msg : string) : Eff W A := fun w => (Raised msg, w).

  (** [try: body  except Exception as e: handler(str(e))] *)
Definition try_except {W A} (body : Eff W A) (handler : string -> Eff W A)
    : Eff W A :=
    fun w =>
      match body w with
      | (Returned a, w') => (Returned a, w')
      | (Raised e, w') => handler e w'
      end.

Declare Scope eff_scope.
Delimit Scope eff_scope with eff.
Notation "x <- m ;; k" := (bind m (fun x => k))
    (at level 61, m at next level, right associativity) : eff_scope.
Notation "m ;;; k" := (bind m (fun _ => k))
    (at level 61, right associativity) : eff_scope.

End Effects.
Import Effects.

(** [range(n)] as the list 0, 1, ..., n-1 (empty when [n <= 0]). *)
Definition range (n : Z) : list Z := map Z.of_nat (seq 0 (Z.to_nat n)).

(* ================================================================== *)
(** * config.py *)
(* ================================================================== *)

Module Config.

Local Open Scope Q_scope.

  (** Cost constants (USD) *)
Definition BIGQUERY_COST_PER_TB : Q := 50.

  (** GCS storage costs per GB per month *)
Definition GCS_STANDARD_COST_PER_GB : Q := 20 # 1000.
Definition GCS_NEARLINE_COST_PER_GB : Q := 10 # 1000.
Definition GCS_COLDLINE_COST_PER_GB : Q := 4 # 1000.
Definition GCS_ARCHIVE_COST_PER_GB : Q := 12 # 10000.

(** The class attributes read from the environment: [os.getenv] gives
    [None] or a text, and [AI_PROVIDER] has the default "gemini". *)
Record Settings : Type := mkSettings {
  BIGQUERY_PROJECT_ID : option string;
  AI_PROVIDER : string;
  GEMINI_API_KEY : option string;
  OPENAI_API_KEY : option string
}.

(** [not v] for a value of [os.getenv]: true for [None] and for the empty
    text. *)
Definition unset (v : option string) : bool :=
  match v with
  | None => true
  | Some EmptyString => true
  | Some (String _ _) => false
  end.

(** [Config.validate()] *)
Definition validate (cls : Settings) : list string :=
  let errors : list string := [] in
  let errors :=
    if unset (BIGQUERY_PROJECT_ID cls)
    then (errors ++ ["GCP_PROJECT_ID is not set"])%list else errors in
  let errors :=
    if ((AI_PROVIDER cls =? "gemini")%string && unset (GEMINI_API_KEY cls))%bool
    then (errors
          ++ ["GEMINI_API_KEY is required when using Gemini provider"])%list
    else errors in
  let errors :=
    if ((AI_PROVIDER cls =? "openai")%string && unset (OPENAI_API_KEY cls))%bool
    then (errors
          ++ ["OPENAI_API_KEY is required when using OpenAI provider"])%list
    else errors in
  let errors :=
    if negb ((AI_PROVIDER cls =? "gemini")%string
             || (AI_PROVIDER cls =? "openai")%string)%bool
    then (errors
          ++ ["AI_PROVIDER must be either 'gemini' or 'openai'"])%list
    else errors in
  errors.

End Config.

(* ================================================================== *)
(** * services/ai_optimizer_service.py *)
(* ================================================================== *)

Module AIOptimizer.

Import PyStr.

  (** The values taken by the ["error_type"] entry. *)
Inductive error_type : Type :=
  | unknown | rate_limit | authentication | timeout | invalid_response.

  (** The dictionary returned by [handle_ai_error]. *)
Record ErrorInfo : Type := mkErrorInfo {
    error_type_of : error_type;
    user_message : string;
    should_retry : bool;
    original_error : string
  }.

  (** [AIErrorHandler.handle_ai_error(error, retry_count)], with
      [error_message = str(error)]. *)
Definition handle_ai_error (error_message : string) (retry_count : Z)
    : ErrorInfo :=
    if (contains "rate limit" (lower error_message)
        || contains "quota" (lower error_message))%bool then
      mkErrorInfo rate_limit
        "API rate limit exceeded. Retrying with exponential backoff..."
        (0 <? retry_count) error_message
    else if (contains "api key" (lower error_message)
             || contains "authentication" (lower error_message))%bool then
      mkErrorInfo authentication
        "Invalid API key or authentication failed"
        false error_message
    else if contains "timeout" (lower error_message) then
      mkErrorInfo timeout
        "Request timed out. Retrying..."
        (0 <? retry_count) error_message
    else if (contains "json" (lower error_message)
             || contains "parse" (lower error_message))%bool then
      mkErrorInfo invalid_response
        "Failed to parse AI response. The response format was invalid."
        false error_message
    else
      mkErrorInfo unknown error_message false error_message.

  (** The kind an exception text is classified as. *)
Definition classify (error_message : string) : error_type :=
    error_type_of (handle_ai_error error_message 3).

  (** [self.provider], after the constructor has rejected every other
      value with [ValueError]. *)
Inductive provider : Type := gemini | openai.

Section Construction.

    (** The client libraries, which the constructor calls with the key it
        was given and which may raise: [genai.configure(api_key=...)]
        followed by [genai.GenerativeModel(...)], and [OpenAI(api_key=...)]. *)
Variable GenerativeModel : option string -> outcome unit.
Variable OpenAI : option string -> outcome unit.

    (** [AIOptimizerService.__init__(api_key, provider)]: the value of
        [self.provider] once the client is built, the exception of the
        client library, or the [ValueError] of the last branch. *)
Definition __init__ (api_key : option string) (provider_name : string)
  : outcome provider :=
  let self_provider := lower provider_name in
  if (self_provider =? "gemini")%string then
    match GenerativeModel api_key with
    | Returned _ => Returned gemini
    | Raised e => Raised e
    end
  else if (self_provider =? "openai")%string then
    match OpenAI api_key with
    | Returned _ => Returned openai
    | Raised e => Raised e
    end
  else Raised ("Unsupported AI provider: " ++ provider_name
               ++ ". Use 'gemini' or 'openai'").

End Construction.

  (** What the retry loop can observe of the outside: how many provider
      calls were made, and the arguments of [time.sleep] in order. *)
Record World : Type := mkWorld {
    calls : nat;
    sleeps : list Z
  }.

Section Service.

    (** The text-generation call of the configured client:
        [client p prompt n] is what the [n]-th call made in this world
        does ([generate_content(prompt).text] for [gemini],
        [chat.completions.create(...).choices[0].message.content] for
        [openai]). *)
Variable client : provider -> string -> nat -> outcome string.

Definition generate (p : provider) (prompt : string) : Eff World string :=
      fun w => (client p prompt (calls w), mkWorld (S (calls w)) (sleeps w)).

    (** [time.sleep(secs)] *)
Definition sleep (secs : Z) : Eff World unit :=
      fun w => (Returned tt, mkWorld (calls w) (sleeps w ++ [secs])).

    (** The body of [for attempt in range(max_retries)], over the
        attempts still to run. *)
Fixpoint retry_loop (p : provider) (prompt : string) (max_retries : Z)
      (attempts : list Z) : Eff World string :=
      match attempts with
      | [] => raise "Failed to get AI response after all retries"
      | attempt :: rest =>
          try_except
            (generate p prompt)
            (fun e =>
               let error_info :=
                 handle_ai_error e (max_retries - attempt - 1) in
               if (negb (should_retry error_info)
                   || (attempt =? max_retries - 1))%bool then
                 raise (user_message error_info ++ ": "
                        ++ original_error error_info)
               else
                 (sleep (2 ^ attempt) ;;;
                  retry_loop p prompt max_retries rest)%eff)
      end.

    (** [AIOptimizerService._call_ai_with_retry(prompt, max_retries)] *)
Definition _call_ai_with_retry (p : provider) (prompt : string)
      (max_retries : Z) : Eff World string :=
      retry_loop p prompt max_retries (range max_retries).

End Service.

End AIOptimizer.

(* ================================================================== *)
(** * services/bigquery_service.py *)
(* ================================================================== *)

Module BigQuery.

Local Open Scope Q_scope.

  (** The dictionary returned by [dry_run_query]. *)
Record DryRunResult : Type := mkDryRunResult {
    total_bytes_processed : Z;
    estimated_cost_usd : Q;
    success : bool;
    error : option string
  }.

  (** The world seen by the dry-run wrapper: the query texts handed to the
      provider so far, oldest first. *)
Definition World : Type := list string.

Section Service.

    (** [client.query(query, job_config).total_bytes_processed] with
        [dry_run=True]: the provider answers with a byte count or raises. *)
Variable provider_query : string -> outcome Z.

Definition query_job (query : string) : Eff World Z :=
      fun w => (provider_query query, (w ++ [query])%list).

    (** [BigQueryService.dry_run_query(query)].  This is the decorated body;
        [st.cache_data] only replays an earlier return value for the same
        query text. *)
Definition dry_run_query (query : string) : Eff World DryRunResult :=
      try_except
        (bytes_processed <- query_job query ;;
         let cost_usd :=
           (inject_Z bytes_processed / inject_Z (1024 ^ 4)) * 5 in
         ret (mkDryRunResult bytes_processed cost_usd true None))%eff
        (fun e => ret (mkDryRunResult 0%Z 0 false (Some e))).

End Service.

(** The values taken by the ["error_type"] entry of
    [handle_dry_run_error]. *)
Inductive dry_run_error_type : Type :=
| syntax | not_found | permission | quota | unknown_error.

(** The dictionary returned by [handle_dry_run_error]. *)
Record DryRunError : Type := mkDryRunError {
  error_type : dry_run_error_type;
  user_message : string
}.

(** [BigQueryErrorHandler.handle_dry_run_error(error)], with
    [error_message = str(error)]. *)
Definition handle_dry_run_error (error_message : string) : DryRunError :=
  if (PyStr.contains "Syntax error" error_message
      || PyStr.contains "syntax" (PyStr.lower error_message))%bool then
    mkDryRunError syntax
      "Invalid SQL syntax. Please check your query for errors."
  else if (PyStr.contains "Not found" error_message
           || PyStr.contains "not found" (PyStr.lower error_message))%bool
  then
    mkDryRunError not_found
      "Table or dataset not found. Please verify the dataset and table names."
  else if (PyStr.contains "Permission denied" error_message
           || PyStr.contains "permission" (PyStr.lower error_message))%bool
  then
    mkDryRunError permission
      "Insufficient permissions to access this resource. Please check your credentials."
  else if (PyStr.contains "Quota exceeded" error_message
           || PyStr.contains "quota" (PyStr.lower error_message))%bool then
    mkDryRunError quota
      "BigQuery quota exceeded. Please try again later or increase your quota."
  else
    mkDryRunError unknown_error
      ("An error occurred: " ++ error_message)%string.

End BigQuery.

(* ================================================================== *)
(** * modules/sql_optimization.py *)
(* ================================================================== *)

(** The entries of [optimized_queries] built in step 2 of the workflow. *)
Module QueryData.
Record t : Type := mk {
    query_id : string;
    original_query : string;
    optimized_query : string;
    optimizations_applied : list string
  }.
End QueryData.

(** [models.data_models.SQLOptimizationResult]; the [timestamp] field
    ([datetime.now()] at construction) is read by no code under study and is
    left out. *)
Module SQLOptimizationResult.
Record t : Type := mk {
    query_id : string;
    original_query : string;
    optimized_query : string;
    bytes_before : Z;
    bytes_after : Z;
    cost_before_usd : Q;
    cost_after_usd : Q;
    savings_percent : Q;
    optimizations_applied : list string
  }.
End SQLOptimizationResult.

Module SqlOptimization.

Import PyStr BigQuery.
Local Open Scope Q_scope.

  (** The second component of the tuple returned by
      [_process_query_pair_parallel]: a dictionary with the keys
      [query_id], [error], or with [query_id], [before_result],
      [after_result]. *)
Inductive PairData : Type :=
  | Failed (query_id : string) (error : string)
  | Measured (query_id : string) (before_result after_result : DryRunResult).

  (** The test written three times in [_process_query_pair_parallel]. *)
Definition auth_markers (error_msg : string) : bool :=
    (contains "401" error_msg
     || contains "UNAUTHENTICATED" error_msg
     || contains "authentication" (lower error_msg))%bool.

  (** [r.get('error', 'Unknown error')] followed by the first [in] test on
      it: the key is always present, and a [None] value makes [in] raise
      [TypeError]. *)
Definition error_text (r : DryRunResult) : Eff World string :=
    match error r with
    | Some msg => ret msg
    | None => raise "argument of type 'NoneType' is not iterable"
    end.

Section Workflow.

Variable provider_query : string -> outcome Z.

    (** [_process_query_pair_parallel(query_id, original_query,
        optimized_query, bigquery_service)] *)
Definition _process_query_pair_parallel
      (query_id original_query optimized_query : string)
      : Eff World (bool * PairData) :=
      try_except
        (before_result <- dry_run_query provider_query original_query ;;
         if negb (success before_result) then
           (error_msg <- error_text before_result ;;
            if auth_markers error_msg then
              ret (false,
                   Failed query_id "Authentication error - check credentials")
            else
              ret (false,
                   Failed query_id
                     ("Original query failed: " ++ take 150 error_msg)%string))
         else
           (after_result <- dry_run_query provider_query optimized_query ;;
            if negb (success after_result) then
              (error_msg <- error_text after_result ;;
               if auth_markers error_msg then
                 ret (false,
                      Failed query_id
                        "Authentication error - check credentials")
               else
                 ret (false,
                      Failed query_id
                        ("Optimized query failed: "
                         ++ take 150 error_msg)%string))
            else
              ret (true, Measured query_id before_result after_result)))%eff
        (fun error_str =>
           if auth_markers error_str then
             ret (false,
                  Failed query_id "Authentication error - check credentials")
           else
             ret (false, Failed query_id (take 150 error_str))).

    (** What the loop over [as_completed] shows on the page, message by
        message: each event carries the values its f-string interpolates,
        [st_info] the text that follows the leading symbol. *)
Inductive ui_event : Type :=
    | st_success (query_id : string) (savings_percent : Q)
    | st_warning (query_id : string) (error : string)
    | st_warning_processing (query_id : string) (exception : string)
    | st_info (text : string).

    (** The variables of the loop over [as_completed(future_to_query)]. *)
Record Loop : Type := mkLoop {
      results : list SQLOptimizationResult.t;
      page : list ui_event;
      completed : Z
    }.

    (** One iteration: [query_data = future_to_query[future]] and
        [future.result()]. *)
Definition drain_step (l : Loop)
      (item : QueryData.t * outcome (bool * PairData)) : Loop :=
      let (query_data, future_result) := item in
      let completed' := (completed l + 1)%Z in
      match future_result with
      | Returned (true, Measured _ before_result after_result) =>
          let bytes_before := total_bytes_processed before_result in
          let bytes_after := total_bytes_processed after_result in
          let cost_before := estimated_cost_usd before_result in
          let cost_after := estimated_cost_usd after_result in
          let savings_percent :=
            if (0 <? bytes_before)%Z then
              (inject_Z (bytes_before - bytes_after) / inject_Z bytes_before)
              * 100
            else 0 in
          let result :=
            SQLOptimizationResult.mk
              (QueryData.query_id query_data)
              (QueryData.original_query query_data)
              (QueryData.optimized_query query_data)
              bytes_before bytes_after cost_before cost_after
              savings_percent
              (QueryData.optimizations_applied query_data) in
          mkLoop (results l ++ [result])
                 (page l ++ [st_success (QueryData.query_id query_data)
                                        savings_percent])
                 completed'
      | Returned (false, Failed query_id error) =>
          mkLoop (results l)
                 (page l ++ [st_warning query_id error;
                             st_info "Continuing with remaining queries"])
                 completed'
      | Returned (true, Failed _ _) =>
          mkLoop (results l)
                 (page l ++ [st_warning_processing
                               (QueryData.query_id query_data)
                               "'before_result'";
                             st_info "Continuing with remaining queries..."])
                 completed'
      | Returned (false, Measured _ _ _) =>
          mkLoop (results l)
                 (page l ++ [st_warning_processing
                               (QueryData.query_id query_data) "'error'";
                             st_info "Continuing with remaining queries..."])
                 completed'
      | Raised e =>
          mkLoop (results l)
                 (page l ++ [st_warning_processing
                               (QueryData.query_id query_data) (take 100 e);
                             st_info "Continuing with remaining queries..."])
                 completed'
      end.

Definition drain
      (finished : list (QueryData.t * outcome (bool * PairData))) : Loop :=
      fold_left drain_step finished (mkLoop [] [] 0%Z).

    (** The future submitted for one entry of [optimized_queries]: the work
        unit run by a pool worker, together with the queries that worker
        handed to the provider. *)
Definition submit (q : QueryData.t)
      : outcome (bool * PairData) * World :=
      _process_query_pair_parallel
        (QueryData.query_id q) (QueryData.original_query q)
        (QueryData.optimized_query q) [].

Definition future_to_query (optimized_queries : list QueryData.t)
      : list (QueryData.t * outcome (bool * PairData)) :=
      map (fun q => (q, fst (submit q))) optimized_queries.

    (** [as_completed] hands the futures over in completion order: some
        rearrangement of the submitted ones. *)
Definition as_completed (optimized_queries : list QueryData.t)
      (finished : list (QueryData.t * outcome (bool * PairData))) : Prop :=
      Permutation (future_to_query optimized_queries) finished.

End Workflow.

End SqlOptimization.

(* ================================================================== *)
(** * Python dictionaries with string keys, as association lists *)
(* ================================================================== *)

Module PyDict.

(** [d.get(key, default)] *)
Fixpoint get {V : Type} (d : list (string * V)) (key : string) (default : V)
  : V :=
  match d with
  | [] => default
  | (k, v) :: d' => if (k =? key)%string then v else get d' key default
  end.

End PyDict.

(* ================================================================== *)
(** * modules/storage_optimization.py *)
(* ================================================================== *)

(** A bucket metadata dictionary, as built by
    [StorageSimulator.generate_bucket_metadata]; [last_accessed] is a
    [datetime], counted in microseconds. *)
Module Bucket.
Record t : Type := mk {
  name : string;
  size_gb : Q;
  last_accessed : Z;
  region : string;
  storage_class : string
}.
End Bucket.

(** One suggestion returned by [AIOptimizerService.analyze_storage], which
    has checked that the four keys are present. *)
Module StorageSuggestion.
Record t : Type := mk {
  bucket_name : string;
  issue : string;
  suggestion : string;
  estimated_savings_percent : Q
}.
End StorageSuggestion.

(** [models.data_models.StorageOptimizationResult] *)
Module StorageOptimizationResult.
Record t : Type := mk {
  bucket_name : string;
  current_size_gb : Q;
  current_storage_class : string;
  last_accessed : Z;
  issue : string;
  suggestion : string;
  estimated_savings_percent : Q;
  estimated_savings_usd : Q;
  action_type : string
}.
End StorageOptimizationResult.

Module StorageOptimization.

Import PyStr.
Local Open Scope Q_scope.

(** The [storage_costs] dictionary. *)
Definition storage_costs : list (string * Q) :=
  [ ("STANDARD", Config.GCS_STANDARD_COST_PER_GB);
    ("NEARLINE", Config.GCS_NEARLINE_COST_PER_GB);
    ("COLDLINE", Config.GCS_COLDLINE_COST_PER_GB);
    ("ARCHIVE", Config.GCS_ARCHIVE_COST_PER_GB) ].

(** [next((b for b in bucket_metadata if b['name'] == bucket_name), None)] *)
Definition bucket_info (bucket_metadata : list Bucket.t)
  (bucket_name : string) : option Bucket.t :=
  find (fun b => (Bucket.name b =? bucket_name)%string) bucket_metadata.

(** [current_monthly_cost] of a bucket. *)
Definition current_monthly_cost (b : Bucket.t) : Q :=
  let current_cost_per_gb :=
    PyDict.get storage_costs (Bucket.storage_class b)
      Config.GCS_STANDARD_COST_PER_GB in
  Bucket.size_gb b * current_cost_per_gb.

(** The [if]/[elif] chain on [suggestion_lower]. *)
Definition action_type_of (suggestion : string) : string :=
  let suggestion_lower := lower suggestion in
  if (contains "delete" suggestion_lower
      || contains "remove" suggestion_lower)%bool then "delete"
  else if contains "compress" suggestion_lower then "compress"
  else if contains "lifecycle" suggestion_lower then "lifecycle"
  else "move".

(** The body of [for suggestion in optimization_suggestions]. *)
Definition process_suggestion (bucket_metadata : list Bucket.t)
  (results : list StorageOptimizationResult.t)
  (suggestion : StorageSuggestion.t) : list StorageOptimizationResult.t :=
  let bucket_name := StorageSuggestion.bucket_name suggestion in
  match bucket_info bucket_metadata bucket_name with
  | Some b =>
      let size_gb := Bucket.size_gb b in
      let current_storage_class := Bucket.storage_class b in
      let savings_percent :=
        StorageSuggestion.estimated_savings_percent suggestion in
      let estimated_savings_usd :=
        current_monthly_cost b * (savings_percent / 100) in
      let result :=
        StorageOptimizationResult.mk
          bucket_name size_gb current_storage_class
          (Bucket.last_accessed b)
          (StorageSuggestion.issue suggestion)
          (StorageSuggestion.suggestion suggestion)
          savings_percent estimated_savings_usd
          (action_type_of (StorageSuggestion.suggestion suggestion)) in
      (results ++ [result])%list
  | None => results
  end.

(** "Process suggestions into result objects" in
    [_run_storage_optimization_workflow]. *)
Definition process_suggestions (bucket_metadata : list Bucket.t)
  (optimization_suggestions : list StorageSuggestion.t)
  : list StorageOptimizationResult.t :=
  fold_left (process_suggestion bucket_metadata) optimization_suggestions [].

End StorageOptimization.

(* ================================================================== *)
(** * modules/ml_autoscaling.py *)
(* ================================================================== *)

(** A training job dictionary, as built by
    [MLJobSimulator.generate_training_jobs]. *)
Module TrainingJob.
Record t : Type := mk {
  job_name : string;
  gpu_hours : Q;
  cpu_hours : Q;
  peak_nodes : Z;
  accelerator_type : string;
  training_duration_hours : Q;
  estimated_cost : Q
}.
End TrainingJob.

(** One suggestion returned by [AIOptimizerService.optimize_ml_jobs], which
    has checked that the five keys are present.  Of the two configuration
    dictionaries the workflow reads the string entries only. *)
Module MLSuggestion.
Record t : Type := mk {
  job_name : string;
  current_config : list (string * string);
  suggested_config : list (string * string);
  optimization_type : string;
  estimated_savings_percent : Q
}.
End MLSuggestion.

(** [models.data_models.MLOptimizationResult] *)
Module MLOptimizationResult.
Record t : Type := mk {
  job_name : string;
  current_accelerator : string;
  suggested_accelerator : string;
  current_cost : Q;
  suggested_cost : Q;
  optimization_type : string;
  estimated_savings_percent : Q;
  implementation_notes : string
}.
End MLOptimizationResult.

Module MLAutoscaling.

Import PyStr.
Local Open Scope Q_scope.

(** [_generate_implementation_notes(optimization_type, current_config,
    suggested_config)] *)
Definition _generate_implementation_notes (optimization_type : string)
  (current_config suggested_config : list (string * string)) : string :=
  let notes : list string := [] in
  let notes :=
    if contains "spot" (lower optimization_type) then
      (notes ++
       ["Enable spot/preemptible VMs in Vertex AI training configuration";
        "Implement checkpointing to handle potential interruptions"])%list
    else notes in
  let notes :=
    if (contains "downgrade" (lower optimization_type)
        || contains "machine_type" (lower optimization_type))%bool then
      let current_acc :=
        PyDict.get current_config "accelerator_type" "Unknown" in
      let suggested_acc :=
        PyDict.get suggested_config "accelerator_type" "Unknown" in
      (notes ++
       [("Change accelerator from " ++ current_acc ++ " to "
         ++ suggested_acc)%string;
        "Test model performance with new accelerator type"])%list
    else notes in
  let notes :=
    if contains "autoscaling" (lower optimization_type) then
      (notes ++
       ["Configure autoscaling policies in Vertex AI";
        "Set appropriate min/max node counts"])%list
    else notes in
  let notes :=
    if contains "caching" (lower optimization_type) then
      (notes ++
       ["Enable Vertex AI caching for preprocessing steps";
        "Cache feature engineering pipelines"])%list
    else notes in
  let notes :=
    match notes with
    | [] => ["Review AI suggestions and implement recommended changes"]
    | _ => notes
    end in
  String.concat " | " notes.

(** [next((j for j in ml_job_metadata if j['job_name'] == job_name), None)] *)
Definition job_info (ml_job_metadata : list TrainingJob.t)
  (job_name : string) : option TrainingJob.t :=
  find (fun j => (TrainingJob.job_name j =? job_name)%string) ml_job_metadata.

(** The body of [for suggestion in ai_suggestions]. *)
Definition process_suggestion (ml_job_metadata : list TrainingJob.t)
  (results : list MLOptimizationResult.t) (suggestion : MLSuggestion.t)
  : list MLOptimizationResult.t :=
  let job_name := MLSuggestion.job_name suggestion in
  let current_config := MLSuggestion.current_config suggestion in
  let suggested_config := MLSuggestion.suggested_config suggestion in
  let optimization_type := MLSuggestion.optimization_type suggestion in
  let estimated_savings_percent :=
    MLSuggestion.estimated_savings_percent suggestion in
  match job_info ml_job_metadata job_name with
  | Some j =>
      let current_cost := TrainingJob.estimated_cost j in
      let suggested_cost :=
        current_cost * (1 - estimated_savings_percent / 100) in
      let implementation_notes :=
        _generate_implementation_notes optimization_type current_config
          suggested_config in
      let result :=
        MLOptimizationResult.mk
          job_name
          (PyDict.get current_config "accelerator_type" "Unknown")
          (PyDict.get suggested_config "accelerator_type" "Unknown")
          current_cost suggested_cost optimization_type
          estimated_savings_percent implementation_notes in
      (results ++ [result])%list
  | None => results
  end.

(** "Process AI suggestions into result objects" in
    [_run_ml_optimization_workflow]. *)
Definition process_suggestions (ml_job_metadata : list TrainingJob.t)
  (ai_suggestions : list MLSuggestion.t) : list MLOptimizationResult.t :=
  fold_left (process_suggestion ml_job_metadata) ai_suggestions [].

End MLAutoscaling.

(* ================================================================== *)
(** * simulators/storage_simulator.py *)
(* ================================================================== *)

Module StorageSimulator.

Local Open Scope Q_scope.

(** The surroundings of the generator: the [random] module's source and the
    wall clock.  The operations are the two primitives every function of
    [random] is built on, and [datetime.now()]; the laws are their library
    contracts.  [clock w] is the wall clock in world [w], in microseconds;
    it never runs backwards. *)
Class Env (W : Type) : Type := {
  _randbelow : Z -> W -> Z * W;
  random : W -> Q * W;
  datetime_now : W -> Z * W;
  clock : W -> Z;
  _randbelow_range :
    forall n w, (0 < n)%Z -> (0 <= fst (_randbelow n w) < n)%Z;
  random_range : forall w, 0 <= fst (random w) /\ fst (random w) < 1;
  _randbelow_clock : forall n w, (clock w <= clock (snd (_randbelow n w)))%Z;
  random_clock : forall w, (clock w <= clock (snd (random w)))%Z;
  datetime_now_clock :
    forall w, (clock w <= fst (datetime_now w)
               /\ fst (datetime_now w) <= clock (snd (datetime_now w)))%Z
}.

(** [str(n)] for an integer. *)
Definition str (n : Z) : string :=
  NilZero.string_of_int (Z.to_int n).

(** [timedelta(days=1)], in microseconds. *)
Definition one_day : Z := 86400 * 1000000.

(** [round(x)] of the rational [x]: to the nearest integer, ties to even. *)
Definition round_half_even (x : Q) : Z :=
  let f := Qfloor x in
  match Qcompare (x - inject_Z f) (1 # 2) with
  | Lt => f
  | Gt => (f + 1)%Z
  | Eq => if Z.even f then f else (f + 1)%Z
  end.

(** [round(x, 2)] *)
Definition round2 (x : Q) : Q := inject_Z (round_half_even (x * 100)) / 100.

Definition STORAGE_CLASSES : list string :=
  ["STANDARD"; "NEARLINE"; "COLDLINE"; "ARCHIVE"].

Definition REGIONS : list string :=
  ["us-central1"; "us-east1"; "us-west1"; "us-west2";
   "europe-west1"; "europe-west2"; "asia-east1"; "asia-southeast1"].

Definition BUCKET_PREFIXES : list string :=
  ["prod-data"; "dev-logs"; "analytics"; "backups"; "ml-datasets";
   "user-uploads"; "archive"; "temp-storage"; "reports"; "media-assets"].

Section Generator.

Context {W : Type} `{Env W}.

(** [random.random()] *)
Definition py_random : Eff W Q :=
  fun w => let (x, w') := random w in (Returned x, w').

(** [random.choice(seq)] *)
Definition choice {A : Type} (seq : list A) : Eff W A :=
  match seq with
  | [] => raise "Cannot choose from an empty sequence"
  | d :: _ =>
      fun w =>
        let (i, w') := _randbelow (Z.of_nat (List.length seq)) w in
        (Returned (nth (Z.to_nat i) seq d), w')
  end.

(** [random.randint(a, b)], that is [randrange(a, b+1)]. *)
Definition randint (a b : Z) : Eff W Z :=
  let width := (b + 1 - a)%Z in
  if (0 <? width)%Z then
    fun w => let (i, w') := _randbelow width w in (Returned (a + i)%Z, w')
  else raise "empty range in randrange".

(** [random.uniform(a, b)] *)
Definition uniform (a b : Q) : Eff W Q :=
  (x <- py_random ;; ret (a + (b - a) * x))%eff.

(** [datetime.now()] *)
Definition now : Eff W Z :=
  fun w => let (t, w') := datetime_now w in (Returned t, w').

(** The body of [for i in range(count)] up to the [append]. *)
Definition generate_bucket : Eff W Bucket.t :=
  (prefix <- choice BUCKET_PREFIXES ;;
   suffix <- randint 1000 9999 ;;
   let bucket_name := (prefix ++ "-" ++ str suffix)%string in
   size_distribution <- py_random ;;
   size_gb <-
     (if Qlt_le_dec size_distribution (5 # 10) then
        x <- uniform 1 100 ;; ret (round2 x)
      else if Qlt_le_dec size_distribution (8 # 10) then
        x <- uniform 100 1000 ;; ret (round2 x)
      else
        x <- uniform 1000 10000 ;; ret (round2 x)) ;;
   days_ago <- randint 1 365 ;;
   t <- now ;;
   let last_accessed := (t - days_ago * one_day)%Z in
   storage_class <-
     (if (days_ago <? 30)%Z then
        choice ["STANDARD"; "NEARLINE"]
      else if (days_ago <? 90)%Z then
        choice ["STANDARD"; "NEARLINE"; "COLDLINE"]
      else
        choice ["NEARLINE"; "COLDLINE"; "ARCHIVE"]) ;;
   region <- choice REGIONS ;;
   ret (Bucket.mk bucket_name size_gb last_accessed region storage_class))%eff.

(** The loop [for i in range(count)], over the indices still to run. *)
Fixpoint generate_loop (indices : list Z) (buckets : list Bucket.t)
  : Eff W (list Bucket.t) :=
  match indices with
  | [] => ret buckets
  | _ :: rest =>
      (b <- generate_bucket ;; generate_loop rest (buckets ++ [b])%list)%eff
  end.

(** [StorageSimulator.generate_bucket_metadata(count)] *)
Definition generate_bucket_metadata (count : Z) : Eff W (list Bucket.t) :=
  generate_loop (range count) [].

End Generator.

(** A seeded source for running the generator: a linear congruential
    generator and a clock that advances by one microsecond per reading. *)
Record Seeded : Type := mkSeeded {
  seed : Z;
  wall : Z
}.

Definition lcg (s : Z) : Z := ((s * 1103515245 + 12345) mod 2147483648)%Z.

Definition seeded_randbelow (n : Z) (w : Seeded) : Z * Seeded :=
  ((lcg (seed w) mod n)%Z, mkSeeded (lcg (seed w)) (wall w)).

Definition seeded_random (w : Seeded) : Q * Seeded :=
  (Qmake (lcg (seed w)) 2147483648, mkSeeded (lcg (seed w)) (wall w)).

Definition seeded_now (w : Seeded) : Z * Seeded :=
  (wall w, mkSeeded (seed w) (wall w + 1)).

End StorageSimulator.

(* ================================================================== *)
(** * JSON values, as [json.loads] builds them *)
(* ================================================================== *)

Module Json.

#[warnings="-register-all"] Inductive value : Type :=
| JNull
| JBool (b : bool)
| JInt (n : Z)
| JFloat (x : Q)
| JString (s : string)
| JList (items : list value)
| JObject (members : list (string * value)).

(** [key in v] for a text [key]: membership among the keys of a [dict],
    equality with an element of a [list], occurrence in a [str], and
    [TypeError] for the values that are not containers. *)
Definition contains_key (key : string) (v : value) : outcome bool :=
  match v with
  | JObject members =>
      Returned (existsb (fun kv => (fst kv =? key)%string) members)
  | JList items =>
      Returned (existsb (fun x => match x with
                                  | JString s => (s =? key)%string
                                  | _ => false
                                  end) items)
  | JString s => Returned (PyStr.contains key s)
  | JNull => Raised "argument of type 'NoneType' is not iterable"
  | JBool _ => Raised "argument of type 'bool' is not iterable"
  | JInt _ => Raised "argument of type 'int' is not iterable"
  | JFloat _ => Raised "argument of type 'float' is not iterable"
  end.

End Json.

(* ================================================================== *)
(** * services/ai_optimizer_service.py: parsing and validating replies *)
(* ================================================================== *)

Module AIResponses.

Import PyStr AIOptimizer Json.

(** The first lines of [_parse_json_response]: "Remove markdown code blocks
    if present". *)
Definition strip_fences (response_text : string) : string :=
  let text := strip response_text in
  let text :=
    if startswith "```json" text then skip 7 text
    else if startswith "```" text then skip 3 text
    else text in
  let text := if endswith "```" text then drop_last 3 text else text in
  strip text.

Section Service.

(** The provider's client, as in [AIOptimizer], and [json.loads], which
    returns a value or raises [JSONDecodeError] with some message. *)
Variable client : provider -> string -> nat -> outcome string.
Variable json_loads : string -> outcome value.

(** [AIOptimizerService._parse_json_response(response_text)] *)
Definition _parse_json_response (response_text : string)
  : Eff World value :=
  let text := strip_fences response_text in
  try_except
    (fun w => (json_loads text, w))
    (fun e =>
       raise ("Failed to parse JSON response: " ++ e ++ ". Response: "
              ++ take 200 text)).

(** [for key in required_keys: if key not in v: raise Exception(missing
    key)] *)
Fixpoint require_keys (missing : string -> string)
  (required_keys : list string) (v : value) : Eff World unit :=
  match required_keys with
  | [] => ret tt
  | key :: rest =>
      match contains_key key v with
      | Raised e => raise e
      | Returned false => raise (missing key)
      | Returned true => require_keys missing rest v
      end
  end.

(** [for suggestion in result: for key in required_keys: ...] *)
Fixpoint require_keys_each (missing : string -> string)
  (required_keys : list string) (result : list value) : Eff World unit :=
  match result with
  | [] => ret tt
  | suggestion :: rest =>
      (require_keys missing required_keys suggestion ;;;
       require_keys_each missing required_keys rest)%eff
  end.

(** [AIOptimizerService.optimize_sql_query(query, dataset_info)], from the
    prompt on; [prompt] is the text built from the two arguments. *)
Definition optimize_sql_query (p : provider) (prompt : string)
  : Eff World value :=
  try_except
    (response_text <- _call_ai_with_retry client p prompt 3 ;;
     result <- _parse_json_response response_text ;;
     require_keys
       (fun key => "Missing required key in AI response: " ++ key)
       ["optimized_query"; "optimizations_applied"; "explanation"]
       result ;;;
     ret result)%eff
    (fun e => raise ("Failed to optimize SQL query: " ++ e)).

(** [AIOptimizerService.analyze_storage(buckets)], from the prompt on;
    [prompt] is the text built around [json.dumps(buckets)]. *)
Definition analyze_storage (p : provider) (prompt : string)
  : Eff World value :=
  try_except
    (response_text <- _call_ai_with_retry client p prompt 3 ;;
     result <- _parse_json_response response_text ;;
     match result with
     | JList items =>
         require_keys_each
           (fun key => "Missing required key in suggestion: " ++ key)
           ["bucket_name"; "issue"; "suggestion";
            "estimated_savings_percent"]
           items ;;;
         ret result
     | _ => raise "AI response must be a list of optimization suggestions"
     end)%eff
    (fun e => raise ("Failed to analyze storage: " ++ e)).

(** [AIOptimizerService.optimize_schedule(schedules)], from the prompt
    on. *)
Definition optimize_schedule (p : provider) (prompt : string)
  : Eff World value :=
  try_except
    (response_text <- _call_ai_with_retry client p prompt 3 ;;
     result <- _parse_json_response response_text ;;
     require_keys
       (fun key => "Missing required key in AI response: " ++ key)
       ["redundant_queries"; "frequency_adjustments";
        "merge_opportunities"; "materialized_view_candidates";
        "estimated_savings"]
       result ;;;
     ret result)%eff
    (fun e => raise ("Failed to optimize schedules: " ++ e)).

(** [AIOptimizerService.optimize_ml_jobs(jobs)], from the prompt on. *)
Definition optimize_ml_jobs (p : provider) (prompt : string)
  : Eff World value :=
  try_except
    (response_text <- _call_ai_with_retry client p prompt 3 ;;
     result <- _parse_json_response response_text ;;
     match result with
     | JList items =>
         require_keys_each
           (fun key => "Missing required key in suggestion: " ++ key)
           ["job_name"; "current_config"; "suggested_config";
            "optimization_type"; "estimated_savings_percent"]
           items ;;;
         ret result
     | _ => raise "AI response must be a list of optimization suggestions"
     end)%eff
    (fun e => raise ("Failed to optimize ML jobs: " ++ e)).

End Service.

End AIResponses.

(* ================================================================== *)
(** * modules/query_scheduling.py *)
(* ================================================================== *)

(** A scheduled query dictionary, as built by
    [ScheduleSimulator.generate_scheduled_queries]. *)
Module Schedule.
Record t : Type := mk {
  name : string;
  cron : string;
  cost_mb : Q;
  purpose : string;
  frequency : string
}.
End Schedule.

(** An entry of ["frequency_adjustments"]. *)
Module FrequencyAdjustment.
Record t : Type := mk {
  query_name : string;
  current_frequency : string;
  suggested_frequency : string;
  reasoning : string
}.
End FrequencyAdjustment.

(** An entry of ["merge_opportunities"]; the key ["queries"] may be
    absent. *)
Module MergeOpportunity.
Record t : Type := mk {
  queries : option (list string);
  reasoning : string
}.
End MergeOpportunity.

(** The dictionary returned by [AIOptimizerService.optimize_schedule],
    which has checked that the five keys are present. *)
Module ScheduleAnalysis.
Record t : Type := mk {
  redundant_queries : list string;
  frequency_adjustments : list FrequencyAdjustment.t;
  merge_opportunities : list MergeOpportunity.t;
  materialized_view_candidates : list string;
  estimated_savings : Q
}.
End ScheduleAnalysis.

(** [models.data_models.ScheduleOptimizationResult] *)
Module ScheduleOptimizationResult.
Record t : Type := mk {
  query_name : string;
  current_cron : string;
  suggested_cron : string;
  current_daily_cost : Q;
  suggested_daily_cost : Q;
  optimization_type : string;
  reasoning : string;
  estimated_savings_percent : Q
}.
End ScheduleOptimizationResult.

Module QueryScheduling.

Local Open Scope Q_scope.

(** [next((s for s in schedule_metadata if s['name'] == query_name),
    None)] *)
Definition schedule_info (schedule_metadata : list Schedule.t)
  (query_name : string) : option Schedule.t :=
  find (fun s => (Schedule.name s =? query_name)%string) schedule_metadata.

(** The dictionary of runs per day by current frequency, read with
    [.get(frequency, 1)]. *)
Definition runs_per_day (frequency : string) : Q :=
  PyDict.get [("hourly", 24); ("daily", 1); ("weekly", 1 / 7)] frequency 1.

(** The dictionary of runs per day by suggested frequency, read with
    [.get(suggested_frequency, 1)]. *)
Definition suggested_runs_per_day (suggested_frequency : string) : Q :=
  PyDict.get
    [("hourly", 24); ("daily", 1); ("weekly", 1 / 7); ("twice_daily", 2);
     ("every_6_hours", 4)]
    suggested_frequency 1.

(** [suggested_cron_map.get(suggested_frequency, '0 0 * * *')] *)
Definition suggested_cron_map (suggested_frequency : string) : string :=
  PyDict.get
    [("hourly", "0 * * * *"); ("daily", "0 0 * * *");
     ("weekly", "0 0 * * 0"); ("twice_daily", "0 0,12 * * *");
     ("every_6_hours", "0 */6 * * *")]
    suggested_frequency "0 0 * * *".

(** [(cost_mb / 1024) * Config.BIGQUERY_COST_PER_TB * runs_per_day] *)
Definition daily_cost (cost_mb runs : Q) : Q :=
  (cost_mb / 1024) * Config.BIGQUERY_COST_PER_TB * runs.

(** The body of [for adjustment in
    ai_analysis.get('frequency_adjustments', [])]. *)
Definition process_adjustment (schedule_metadata : list Schedule.t)
  (results : list ScheduleOptimizationResult.t)
  (adjustment : FrequencyAdjustment.t)
  : list ScheduleOptimizationResult.t :=
  let query_name := FrequencyAdjustment.query_name adjustment in
  match schedule_info schedule_metadata query_name with
  | Some s =>
      let cost_mb := Schedule.cost_mb s in
      let frequency := Schedule.frequency s in
      let current_daily_cost := daily_cost cost_mb (runs_per_day frequency) in
      let suggested_frequency :=
        FrequencyAdjustment.suggested_frequency adjustment in
      let suggested_daily_cost :=
        daily_cost cost_mb (suggested_runs_per_day suggested_frequency) in
      let savings_percent :=
        if Qlt_le_dec 0 current_daily_cost
        then (current_daily_cost - suggested_daily_cost)
             / current_daily_cost * 100
        else 0 in
      let suggested_cron := suggested_cron_map suggested_frequency in
      let result :=
        ScheduleOptimizationResult.mk
          query_name (Schedule.cron s) suggested_cron
          current_daily_cost suggested_daily_cost "reduce_frequency"
          (FrequencyAdjustment.reasoning adjustment) savings_percent in
      (results ++ [result])%list
  | None => results
  end.

(** The inner loop [for q_name in queries], which adds up the daily cost
    of the queries that are found. *)
Definition add_cost (schedule_metadata : list Schedule.t)
  (combined_cost : Q) (q_name : string) : Q :=
  match schedule_info schedule_metadata q_name with
  | Some s =>
      combined_cost
      + daily_cost (Schedule.cost_mb s) (runs_per_day (Schedule.frequency s))
  | None => combined_cost
  end.

(** The body of [for merge in ai_analysis.get('merge_opportunities',
    [])]. *)
Definition process_merge (schedule_metadata : list Schedule.t)
  (results : list ScheduleOptimizationResult.t)
  (merge : MergeOpportunity.t) : list ScheduleOptimizationResult.t :=
  let queries :=
    match MergeOpportunity.queries merge with
    | Some qs => qs
    | None => []
    end in
  if (2 <=? Z.of_nat (List.length queries))%Z then
    let query_name :=
      ("Merge: " ++ String.concat ", " (firstn 2 queries))%string in
    let combined_cost := fold_left (add_cost schedule_metadata) queries 0 in
    let suggested_cost := combined_cost * (6 # 10) in
    let savings_percent :=
      if Qlt_le_dec 0 combined_cost
      then (combined_cost - suggested_cost) / combined_cost * 100
      else 0 in
    let result :=
      ScheduleOptimizationResult.mk
        query_name "Multiple schedules" "Merged schedule"
        combined_cost suggested_cost "merge"
        (MergeOpportunity.reasoning merge) savings_percent in
    (results ++ [result])%list
  else results.

(** The body of [for mv_candidate in
    ai_analysis.get('materialized_view_candidates', [])]. *)
Definition process_candidate (schedule_metadata : list Schedule.t)
  (results : list ScheduleOptimizationResult.t) (mv_candidate : string)
  : list ScheduleOptimizationResult.t :=
  match schedule_info schedule_metadata mv_candidate with
  | Some s =>
      let current_daily_cost :=
        daily_cost (Schedule.cost_mb s)
          (runs_per_day (Schedule.frequency s)) in
      let suggested_daily_cost := current_daily_cost * (2 # 10) in
      let savings_percent := 80 in
      let result :=
        ScheduleOptimizationResult.mk
          mv_candidate (Schedule.cron s) "Materialized View (auto-refresh)"
          current_daily_cost suggested_daily_cost "materialized_view"
          "Convert to materialized view to eliminate repeated computation"
          savings_percent in
      (results ++ [result])%list
  | None => results
  end.

(** "Process AI analysis into result objects" in
    [_run_schedule_optimization_workflow]: the three loops in turn. *)
Definition process_analysis (schedule_metadata : list Schedule.t)
  (ai_analysis : ScheduleAnalysis.t) : list ScheduleOptimizationResult.t :=
  let results : list ScheduleOptimizationResult.t := [] in
  let results :=
    fold_left (process_adjustment schedule_metadata)
      (ScheduleAnalysis.frequency_adjustments ai_analysis) results in
  let results :=
    fold_left (process_merge schedule_metadata)
      (ScheduleAnalysis.merge_opportunities ai_analysis) results in
  let results :=
    fold_left (process_candidate schedule_metadata)
      (ScheduleAnalysis.materialized_view_candidates ai_analysis) results in
  results.

End QueryScheduling.

(* ================================================================== *)
(** * Vocabulary of the properties *)
(* ================================================================== *)

Module Spec.

Import SqlOptimization.
Local Open Scope Q_scope.

(** What one completed future adds to [results] and to the page. *)
Definition item_results (item : QueryData.t * outcome (bool * PairData))
  : list SQLOptimizationResult.t :=
  results (drain_step (mkLoop [] [] 0%Z) item).

Definition item_page (item : QueryData.t * outcome (bool * PairData))
  : list ui_event :=
  page (drain_step (mkLoop [] [] 0%Z) item).

(** The attempts still to run when [a] attempts are behind. *)
Definition attempts_from (a d : nat) : list Z := map Z.of_nat (seq a d).

(** The four keys [analyze_storage] asks of every suggestion. *)
Definition storage_keys : list string :=
  ["bucket_name"; "issue"; "suggestion"; "estimated_savings_percent"].

(** Whether a schedule of that name is in the metadata, and whether a merge
    opportunity names at least two queries. *)
Definition scheduled (schedule_metadata : list Schedule.t) (n : string)
  : bool :=
  match QueryScheduling.schedule_info schedule_metadata n with
  | Some _ => true
  | None => false
  end.

Definition mergeable (merge : MergeOpportunity.t) : bool :=
  match MergeOpportunity.queries merge with
  | Some qs => (2 <=? Z.of_nat (List.length qs))%Z
  | None => false
  end.



(** Both aggregators have one shape: for each suggestion, look up the first
    metadata record of that name and append a result built from the two. *)
Section Matching.

Context {M S R : Type}.
Variables (name_of : M -> string) (ref_of : S -> string)
          (build : M -> S -> R).

Definition lookup (metadata : list M) (n : string) : option M :=
  find (fun m => (name_of m =? n)%string) metadata.

Definition known (metadata : list M) (n : string) : bool :=
  existsb (fun m => (name_of m =? n)%string) metadata.

Definition aggregate_step (metadata : list M) (results : list R) (s : S)
  : list R :=
  match lookup metadata (ref_of s) with
  | Some m => (results ++ [build m s])%list
  | None => results
  end.

Definition aggregate (metadata : list M) (suggestions : list S) : list R :=
  fold_left (aggregate_step metadata) suggestions [].

End Matching.

(** The record built for a suggestion and its bucket. *)
Definition storage_result (b : Bucket.t) (s : StorageSuggestion.t)
  : StorageOptimizationResult.t :=
  StorageOptimizationResult.mk
    (StorageSuggestion.bucket_name s) (Bucket.size_gb b)
    (Bucket.storage_class b) (Bucket.last_accessed b)
    (StorageSuggestion.issue s) (StorageSuggestion.suggestion s)
    (StorageSuggestion.estimated_savings_percent s)
    (StorageOptimization.current_monthly_cost b
     * (StorageSuggestion.estimated_savings_percent s / 100))
    (StorageOptimization.action_type_of (StorageSuggestion.suggestion s)).

(** The record built for a suggestion and its training job. *)
Definition ml_result (j : TrainingJob.t) (s : MLSuggestion.t)
  : MLOptimizationResult.t :=
  MLOptimizationResult.mk
    (MLSuggestion.job_name s)
    (PyDict.get (MLSuggestion.current_config s) "accelerator_type" "Unknown")
    (PyDict.get (MLSuggestion.suggested_config s) "accelerator_type"
       "Unknown")
    (TrainingJob.estimated_cost j)
    (TrainingJob.estimated_cost j
     * (1 - MLSuggestion.estimated_savings_percent s / 100))
    (MLSuggestion.optimization_type s)
    (MLSuggestion.estimated_savings_percent s)
    (MLAutoscaling._generate_implementation_notes
       (MLSuggestion.optimization_type s) (MLSuggestion.current_config s)
       (MLSuggestion.suggested_config s)).

(** [m] returns from world [w], the clock does not run backwards, and the
    value and the final world satisfy [P]. *)
Definition returns {W : Type} `{StorageSimulator.Env W} {A : Type}
  (m : Eff W A) (w : W) (P : A -> W -> Prop) : Prop :=
  exists a w',
    m w = (Returned a, w')
    /\ (StorageSimulator.clock w <= StorageSimulator.clock w')%Z
    /\ P a w'.

(** A bucket stamped by a reading [t] of the clock between [lo] and [hi]:
    its size is positive, its tier is one of the four, it was last accessed
    [days_ago] whole days before [t], and a bucket 90 or more days old is
    not in the STANDARD tier. *)
Definition stamped (lo hi : Z) (b : Bucket.t) : Prop :=
  0 < Bucket.size_gb b
  /\ In (Bucket.storage_class b) StorageSimulator.STORAGE_CLASSES
  /\ exists t days_ago : Z,
       (lo <= t <= hi)%Z
       /\ (1 <= days_ago <= 365)%Z
       /\ Bucket.last_accessed b
          = (t - days_ago * StorageSimulator.one_day)%Z
       /\ ((90 <= days_ago)%Z ->
           Bucket.storage_class b <> "STANDARD"%string).

(** The fields of a bucket that are drawn independently of the clock: a
    name made of a listed prefix and a four-digit number, a listed region,
    and a size between 1 and 10000 GB with two decimals. *)
Definition in_range (b : Bucket.t) : Prop :=
  (exists prefix suffix,
      In prefix StorageSimulator.BUCKET_PREFIXES
      /\ (1000 <= suffix <= 9999)%Z
      /\ Bucket.name b
         = (prefix ++ "-" ++ StorageSimulator.str suffix)%string)
  /\ In (Bucket.region b) StorageSimulator.REGIONS
  /\ 1 <= Bucket.size_gb b
  /\ Bucket.size_gb b <= 10000
  /\ exists hundredths : Z, Bucket.size_gb b = inject_Z hundredths / 100.

(** The tier of a bucket against its age in days when it was stamped, by a
    reading [t] of the clock between [lo] and [hi]. *)
Definition aged (lo hi : Z) (b : Bucket.t) : Prop :=
  exists t days_ago : Z,
    (lo <= t <= hi)%Z
    /\ (1 <= days_ago <= 365)%Z
    /\ Bucket.last_accessed b = (t - days_ago * StorageSimulator.one_day)%Z
    /\ ((days_ago < 30)%Z ->
        In (Bucket.storage_class b) ["STANDARD"; "NEARLINE"]%string)
    /\ ((30 <= days_ago < 90)%Z ->
        In (Bucket.storage_class b)
           ["STANDARD"; "NEARLINE"; "COLDLINE"]%string)
    /\ ((90 <= days_ago)%Z ->
        In (Bucket.storage_class b)
           ["NEARLINE"; "COLDLINE"; "ARCHIVE"]%string).

End Spec.

(* ================================================================== *)
(** * Scenarios: concrete providers and inputs *)
(* ================================================================== *)

Module Scenarios.

Import BigQuery SqlOptimization.
Local Open Scope Q_scope.

(** A text-generation client that is rate limited twice, then answers. *)
Definition rate_limited_twice (p : AIOptimizer.provider) (prompt : string)
  (n : nat) : outcome string :=
  match n with
  | 0%nat => Raised "429: Rate limit reached"
  | 1%nat => Raised "Quota exceeded for model"
  | _ => Returned "[]"
  end.

(** A text-generation client that rejects the API key. *)
Definition bad_key (p : AIOptimizer.provider) (prompt : string) (n : nat)
  : outcome string :=
  Raised "400 API key not valid. Please pass a valid API key.".

(** A text-generation client that always times out. *)
Definition always_timeout (p : AIOptimizer.provider) (prompt : string)
  (n : nat) : outcome string :=
  Raised "Deadline exceeded: timeout".

(** A text-generation client that fails with an error of no known kind. *)
Definition server_error (p : AIOptimizer.provider) (prompt : string)
  (n : nat) : outcome string :=
  Raised "500 Internal error".

(** The line feed, and a reply wrapped in a markdown fence. *)
Definition newline : string := String (ascii_of_nat 10) EmptyString.

Definition fenced (payload : string) : string :=
  "```json" ++ newline ++ payload ++ newline ++ "```".

(** A parser that knows two texts: a list with one complete suggestion and
    one without its savings, and an object that wraps a list. *)
Definition two_replies (text : string) : outcome Json.value :=
  if (text =? "[{...}, {...}]")%string then
    Returned
      (Json.JList
         [ Json.JObject
             [ ("bucket_name", Json.JString "prod-data-1001");
               ("issue", Json.JString "rarely read");
               ("suggestion", Json.JString "Move to NEARLINE");
               ("estimated_savings_percent", Json.JFloat 50) ];
           Json.JObject
             [ ("bucket_name", Json.JString "dev-logs-2002");
               ("issue", Json.JString "old logs");
               ("suggestion", Json.JString "Delete old logs") ] ])
  else if (text =? "{...}")%string then
    Returned (Json.JObject [("suggestions", Json.JList [])])
  else if (text =? "[...]")%string then
    Returned
      (Json.JList
         [ Json.JString
             "bucket_name, issue, suggestion, estimated_savings_percent" ])
  else Raised "Expecting value: line 1 column 1 (char 0)".

(** Clients that answer at once with a fixed reply. *)
Definition replies (text : string) (p : AIOptimizer.provider)
  (prompt : string) (n : nat) : outcome string :=
  Returned text.



(** Settings with a provider name in capitals. *)
Definition capital_settings : Config.Settings :=
  Config.mkSettings (Some "my-project") "GEMINI" (Some "key-1") None.

Definition good_settings : Config.Settings :=
  Config.mkSettings (Some "my-project") "openai" None (Some "key-2").

(** A client library that refuses to be built without a key. *)
Definition needs_key (api_key : option string) : outcome unit :=
  if Config.unset api_key then Raised "The api_key client option must be set"
  else Returned tt.

(** A provider whose dry run reports one tebibyte for every query. *)
Definition one_tebibyte (query : string) : outcome Z :=
  Returned (2 ^ 40)%Z.

(** A provider that finds no table. *)
Definition table_not_found (query : string) : outcome Z :=
  Raised "404 Not found: Table t".

(** A batch of five pairs in which the third original query is broken. *)
Definition broken_third (query : string) : outcome Z :=
  if (query =? "SELECT * FROM missing")%string
  then Raised "404 Not found: Table missing"
  else Returned (Z.of_nat (String.length query) * 1048576)%Z.

Definition batch_pair (n : string) (original : string) : QueryData.t :=
  QueryData.mk ("Query " ++ n) original (original ++ " LIMIT 10")
    ["Added LIMIT"].

Definition five_pairs : list QueryData.t :=
  [ batch_pair "1" "SELECT * FROM a";
    batch_pair "2" "SELECT * FROM b";
    batch_pair "3" "SELECT * FROM missing";
    batch_pair "4" "SELECT * FROM d";
    batch_pair "5" "SELECT * FROM e" ].

(** A pair whose optimized query scans more bytes than the original. *)
Definition regressed_pair : QueryData.t * outcome (bool * PairData) :=
  (QueryData.mk "Query 1" "SELECT id FROM t" "SELECT * FROM t" [],
   Returned
     (true,
      Measured "Query 1"
        (mkDryRunResult 1000 ((inject_Z 1000 / inject_Z (1024 ^ 4)) * 5)
           true None)
        (mkDryRunResult 1500 ((inject_Z 1500 / inject_Z (1024 ^ 4)) * 5)
           true None))).

(** A provider that accepts the original queries and rejects the
    optimized ones, which end in LIMIT 10, for lack of credentials. *)
Definition rejects_optimized (query : string) : outcome Z :=
  if PyStr.contains "LIMIT 10" query
  then Raised "401 Request had invalid credentials"
  else Returned 4096%Z.

(** A provider for which the original query scans nothing and the
    optimized one scans a kibibyte. *)
Definition free_original (query : string) : outcome Z :=
  if (query =? "SELECT 1")%string then Returned 0%Z else Returned 1024%Z.

Definition three_buckets : list Bucket.t :=
  [ Bucket.mk "prod-data-1001" 500 1700000000000000 "us-east1" "STANDARD";
    Bucket.mk "dev-logs-2002" 80 1690000000000000 "us-west1" "NEARLINE";
    Bucket.mk "archive-3003" 2000 1680000000000000 "us-east1" "ARCHIVE" ].

Definition two_suggestions : list StorageSuggestion.t :=
  [ StorageSuggestion.mk "prod-data-1001" "rarely read"
      "Move to NEARLINE" 50;
    StorageSuggestion.mk "dev-logs-2002" "old logs"
      "Delete logs older than 90 days" 25 ].

(** Metadata with two buckets of one name and a bucket of an unknown tier. *)
Definition odd_buckets : list Bucket.t :=
  [ Bucket.mk "backups-4004" 100 1700000000000000 "us-east1" "COLDLINE";
    Bucket.mk "backups-4004" 900 1690000000000000 "us-west1" "STANDARD";
    Bucket.mk "media-assets-5005" 250 1680000000000000 "asia-east1"
      "MULTI_REGIONAL" ].

Definition odd_suggestions : list StorageSuggestion.t :=
  [ StorageSuggestion.mk "media-assets-5005" "legacy tier"
      "Compress and remove stale renditions" 40;
    StorageSuggestion.mk "backups-4004" "cold data"
      "Add a lifecycle rule to archive backups" 100 ].

(** A suggestion that promises more than everything. *)
Definition overpromised : list MLSuggestion.t :=
  [ MLSuggestion.mk "fraud_detection_training_2"
      [("accelerator_type", "T4")] [] "preemptible" 150 ].

Definition three_jobs : list TrainingJob.t :=
  [ TrainingJob.mk "nlp_transformer_training_1" 40 80 4 "A100" 10 146.8;
    TrainingJob.mk "fraud_detection_training_2" 10 20 2 "T4" 5 3.5;
    TrainingJob.mk "customer_churn_training_3" 20 40 2 "V100" 10 49.6 ].

Definition two_ml_suggestions : list MLSuggestion.t :=
  [ MLSuggestion.mk "nlp_transformer_training_1"
      [("accelerator_type", "A100")] [("accelerator_type", "V100")]
      "spot_vm_and_downgrade" 60;
    MLSuggestion.mk "customer_churn_training_3"
      [("accelerator_type", "V100")] [("accelerator_type", "T4")]
      "machine_type" 30 ].

End Scenarios.

(* ================================================================== *)
(** * Properties *)
(* ================================================================== *)

(** ** Strings *)

Module PyStrFacts.

Import PyStr.

Example lower_mixed_case : lower "429 Rate LIMIT" = "429 rate limit".
Proof. reflexivity. Qed.

Example contains_inside : contains "quota" "Daily quota exceeded" = true.
Proof. reflexivity. Qed.

Example contains_is_case_sensitive :
  contains "unauthenticated" "16 UNAUTHENTICATED" = false.
Proof. reflexivity. Qed.

Example contains_empty_needle : contains "" "" = true.
Proof. reflexivity. Qed.

Example take_short : take 150 "boom" = "boom".
Proof. reflexivity. Qed.

Example take_long : take 4 "Syntax error" = "Synt".
Proof. reflexivity. Qed.

Lemma prefix_append (needle a b : string) :
  prefix needle a = true -> prefix needle (a ++ b) = true.
Proof.
  revert a; induction needle as [|c needle IH]; intros [|d a]; simpl;
    try discriminate.
  - intros _; destruct b; reflexivity.
  - reflexivity.
  - destruct (ascii_dec c d); [apply IH | discriminate].
Qed.

Lemma contains_append_l (needle a b : string) :
  contains needle a = true -> contains needle (a ++ b) = true.
Proof.
  induction a as [|d a IH].
  - destruct needle; simpl; [intros _ | discriminate].
    destruct b; reflexivity.
  - cbn [contains]. intros Hc. apply orb_true_iff in Hc.
    change ((String d a ++ b)%string) with (String d (a ++ b)).
    cbn [contains]. apply orb_true_iff. destruct Hc as [Hp | Hc].
    + left. apply (prefix_append needle (String d a) b Hp).
    + right. apply IH, Hc.
Qed.

End PyStrFacts.

(** ** The range of a loop *)

Lemma range_cons (n : Z) :
  1 <= n -> range n = 0 :: map Z.of_nat (seq 1 (Z.to_nat (n - 1))).
Proof.
  intros Hn. unfold range.
  replace (Z.to_nat n) with (S (Z.to_nat (n - 1))) by lia.
  reflexivity.
Qed.

Lemma range_length (n : Z) : 0 <= n -> Z.of_nat (List.length (range n)) = n.
Proof.
  intros Hn. unfold range. rewrite length_map, length_seq. lia.
Qed.

(** ** Error classification and retry *)

Module AIOptimizerFacts.

Import PyStr AIOptimizer Scenarios.

(** Splits the goal along the [if]/[elif] chain of [handle_ai_error]. *)
Ltac classify_cases e :=
  unfold classify, handle_ai_error in *;
  destruct (contains "rate limit" (lower e) || contains "quota" (lower e))%bool
    eqn:Hrate;
  [| destruct (contains "api key" (lower e)
               || contains "authentication" (lower e))%bool eqn:Hauth;
     [| destruct (contains "timeout" (lower e)) eqn:Htime;
        [| destruct (contains "json" (lower e)
                     || contains "parse" (lower e))%bool eqn:Hjson ] ] ];
  cbn [error_type_of should_retry user_message original_error] in *.

Lemma error_type_of_retry_count (e : string) (n m : Z) :
  error_type_of (handle_ai_error e n) = error_type_of (handle_ai_error e m).
Proof. classify_cases e; reflexivity. Qed.

Lemma original_error_is_text (e : string) (n : Z) :
  original_error (handle_ai_error e n) = e.
Proof. classify_cases e; reflexivity. Qed.

Lemma should_retry_rate_limit (e : string) (n : Z) :
  classify e = rate_limit ->
  should_retry (handle_ai_error e n) = (0 <? n).
Proof. classify_cases e; intros; try discriminate; reflexivity. Qed.

Lemma should_retry_kinds (e : string) (n : Z) :
  should_retry (handle_ai_error e n) = true ->
  classify e = rate_limit \/ classify e = timeout.
Proof. classify_cases e; intros; try discriminate; auto. Qed.

Lemma never_retried (e : string) (n : Z) :
  classify e = authentication \/ classify e = invalid_response ->
  should_retry (handle_ai_error e n) = false.
Proof. classify_cases e; intros [|]; try discriminate; reflexivity. Qed.

Lemma authentication_user_message (e : string) (n : Z) :
  classify e = authentication ->
  user_message (handle_ai_error e n)
  = "Invalid API key or authentication failed".
Proof. classify_cases e; intros; try discriminate; reflexivity. Qed.

(** One failed attempt that is not retried ends the loop at once. *)
Lemma retry_loop_fatal client p prompt max_retries attempt rest e w :
  client p prompt (calls w) = Raised e ->
  should_retry (handle_ai_error e (max_retries - attempt - 1)) = false ->
  retry_loop client p prompt max_retries (attempt :: rest) w
  = (Raised (user_message (handle_ai_error e (max_retries - attempt - 1))
             ++ ": " ++ e),
     mkWorld (S (calls w)) (sleeps w)).
Proof.
  intros Hcall Hno. cbn [retry_loop]. unfold try_except, generate.
  rewrite Hcall, Hno. cbn [negb orb]. unfold raise.
  now rewrite original_error_is_text.
Qed.

(** One failed attempt that is retried sleeps [2 ^ attempt] seconds and
    goes on with the next attempt. *)
Lemma retry_loop_backoff client p prompt max_retries attempt rest e w :
  client p prompt (calls w) = Raised e ->
  should_retry (handle_ai_error e (max_retries - attempt - 1)) = true ->
  attempt <> max_retries - 1 ->
  retry_loop client p prompt max_retries (attempt :: rest) w
  = retry_loop client p prompt max_retries rest
      (mkWorld (S (calls w)) (sleeps w ++ [2 ^ attempt])).
Proof.
  intros Hcall Hyes Hlast. cbn [retry_loop]. unfold try_except, generate.
  rewrite Hcall, Hyes. apply Z.eqb_neq in Hlast. rewrite Hlast.
  reflexivity.
Qed.

Lemma retry_loop_success client p prompt max_retries attempt rest text w :
  client p prompt (calls w) = Returned text ->
  retry_loop client p prompt max_retries (attempt :: rest) w
  = (Returned text, mkWorld (S (calls w)) (sleeps w)).
Proof.
  intros Hcall. cbn [retry_loop]. unfold try_except, generate.
  now rewrite Hcall.
Qed.

(** C3.  Two failures in a row classified [rate_limit], then a success:
    with the default budget of three attempts, [_call_ai_with_retry] makes
    three provider calls, sleeps exactly twice, 1 second then 2 seconds, and
    returns the text of the third attempt. *)
Theorem retry_two_rate_limits_then_success
  client p prompt (e1 e2 text : string) (w : World) :
  classify e1 = rate_limit ->
  classify e2 = rate_limit ->
  client p prompt (calls w) = Raised e1 ->
  client p prompt (S (calls w)) = Raised e2 ->
  client p prompt (S (S (calls w))) = Returned text ->
  _call_ai_with_retry client p prompt 3 w
  = (Returned text, mkWorld (3 + calls w) (sleeps w ++ [1; 2])).
Proof.
  intros K1 K2 H1 H2 H3. unfold _call_ai_with_retry.
  change (range 3) with [0; 1; 2].
  rewrite (retry_loop_backoff _ _ _ _ _ _ e1); try assumption;
    [| now rewrite should_retry_rate_limit | lia].
  rewrite (retry_loop_backoff _ _ _ _ _ _ e2); try assumption;
    [| now rewrite should_retry_rate_limit | lia].
  rewrite (retry_loop_success _ _ _ _ _ _ text) by assumption.
  cbn [calls sleeps]. rewrite <- app_assoc. reflexivity.
Qed.

Lemma retry_two_rate_limits_then_success_witness :
  _call_ai_with_retry rate_limited_twice gemini "prompt" 3 (mkWorld 0 [])
  = (Returned "[]", mkWorld 3 [1; 2]).
Proof.
  apply (retry_two_rate_limits_then_success rate_limited_twice gemini
           "prompt" "429: Rate limit reached" "Quota exceeded for model"
           "[]" (mkWorld 0 []));
    reflexivity.
Defined.

(** C4.  A first failure classified [authentication] is fatal: whatever the
    budget (at least one attempt), [_call_ai_with_retry] makes that one
    provider call, never sleeps, and raises an error whose message contains
    "authentication".  Moreover only the kinds [rate_limit] and [timeout]
    are ever marked for retry, and [authentication] and [invalid_response]
    never are. *)
Theorem authentication_failure_is_fatal
  client p prompt (e : string) (max_retries : Z) (w : World) :
  1 <= max_retries ->
  classify e = authentication ->
  client p prompt (calls w) = Raised e ->
  (exists msg,
      _call_ai_with_retry client p prompt max_retries w
      = (Raised msg, mkWorld (S (calls w)) (sleeps w))
      /\ contains "authentication" msg = true)
  /\ (forall e' n, should_retry (handle_ai_error e' n) = true ->
                   classify e' = rate_limit \/ classify e' = timeout)
  /\ (forall e' n, classify e' = authentication
                   \/ classify e' = invalid_response ->
                   should_retry (handle_ai_error e' n) = false).
Proof.
  intros Hbudget Hkind Hcall. split; [| split].
  - unfold _call_ai_with_retry. rewrite range_cons by assumption.
    rewrite (retry_loop_fatal _ _ _ _ _ _ e) by
      (try assumption; apply never_retried; now left).
    rewrite authentication_user_message by assumption.
    eexists; split; [reflexivity|].
    apply PyStrFacts.contains_append_l. reflexivity.
  - apply should_retry_kinds.
  - apply never_retried.
Qed.

Lemma authentication_failure_is_fatal_witness :
  exists msg,
    _call_ai_with_retry bad_key openai "prompt" 3 (mkWorld 0 [])
    = (Raised msg, mkWorld 1 [])
    /\ contains "authentication" msg = true.
Proof.
  apply (authentication_failure_is_fatal bad_key openai "prompt"
           "400 API key not valid. Please pass a valid API key." 3
           (mkWorld 0 []));
    [lia | reflexivity | reflexivity].
Defined.

(** C10.  The markers are tested in a fixed order: rate limit, then
    authentication, then timeout, then invalid response.  So a message that
    carries both a rate-limit marker and an authentication marker is
    classified [rate_limit], and is marked for retry whenever retries
    remain. *)
Theorem rate_limit_shadows_authentication (e : string) (retry_count : Z) :
  (contains "rate limit" (lower e) || contains "quota" (lower e))%bool
  = true ->
  (contains "api key" (lower e) || contains "authentication" (lower e))%bool
  = true ->
  error_type_of (handle_ai_error e retry_count) = rate_limit
  /\ (0 < retry_count -> should_retry (handle_ai_error e retry_count) = true)
  /\ (forall m n,
        let rate := (contains "rate limit" (lower m)
                     || contains "quota" (lower m))%bool in
        let auth := (contains "api key" (lower m)
                     || contains "authentication" (lower m))%bool in
        let time := contains "timeout" (lower m) in
        let json := (contains "json" (lower m)
                     || contains "parse" (lower m))%bool in
        error_type_of (handle_ai_error m n)
        = if rate then rate_limit
          else if auth then authentication
          else if time then timeout
          else if json then invalid_response
          else unknown).
Proof.
  intros Hr Ha. split; [| split].
  - unfold handle_ai_error. now rewrite Hr.
  - intros Hpos. unfold handle_ai_error. rewrite Hr.
    cbn [should_retry]. now apply Z.ltb_lt.
  - intros m n. classify_cases m; reflexivity.
Qed.

Lemma rate_limit_shadows_authentication_witness :
  error_type_of
    (handle_ai_error "Quota exceeded for this API key" 2) = rate_limit
  /\ should_retry
       (handle_ai_error "Quota exceeded for this API key" 2) = true.
Proof.
  destruct (rate_limit_shadows_authentication
              "Quota exceeded for this API key" 2 eq_refl eq_refl)
    as [Hkind [Hretry _]].
  split; [exact Hkind | apply Hretry; lia].
Defined.

End AIOptimizerFacts.

(** ** The dry-run wrapper *)

Module BigQueryFacts.

Import BigQuery Scenarios.
Local Open Scope Q_scope.

Lemma dry_run_query_returned provider_query query bytes (w : World) :
  provider_query query = Returned bytes ->
  dry_run_query provider_query query w
  = (Returned
       (mkDryRunResult bytes
          ((inject_Z bytes / inject_Z (1024 ^ 4)) * 5) true None),
     (w ++ [query])%list).
Proof.
  intros Hq. unfold dry_run_query, try_except, bind, query_job, ret.
  now rewrite Hq.
Qed.

Lemma dry_run_query_raised provider_query query e (w : World) :
  provider_query query = Raised e ->
  dry_run_query provider_query query w
  = (Returned (mkDryRunResult 0%Z 0 false (Some e)), (w ++ [query])%list).
Proof.
  intros Hq. unfold dry_run_query, try_except, bind, query_job, ret.
  now rewrite Hq.
Qed.

(** [dry_run_query] never raises, whatever the provider does. *)
Lemma dry_run_query_total provider_query query (w : World) :
  exists r, dry_run_query provider_query query w
            = (Returned r, (w ++ [query])%list)
            /\ (success r = false -> exists e, error r = Some e).
Proof.
  destruct (provider_query query) as [bytes | e] eqn:Hq.
  - eexists; split; [exact (dry_run_query_returned _ _ _ _ Hq) |].
    cbn [success]. discriminate.
  - eexists; split; [exact (dry_run_query_raised _ _ _ _ Hq) |].
    intros _. now exists e.
Qed.

(** C1, as the code has it.  When the provider's dry run succeeds with
    [bytes] bytes, [dry_run_query] returns a success record whose
    [estimated_cost_usd] is [bytes / 2^40] times 5, the rate written in the
    function itself. *)
Theorem dry_run_cost_is_five_per_tb provider_query query bytes (w : World) :
  provider_query query = Returned bytes ->
  exists r,
    dry_run_query provider_query query w = (Returned r, (w ++ [query])%list)
    /\ success r = true
    /\ total_bytes_processed r = bytes
    /\ estimated_cost_usd r == inject_Z bytes / inject_Z (2 ^ 40) * 5.
Proof.
  intros Hq. eexists. split; [exact (dry_run_query_returned _ _ _ _ Hq)|].
  cbn [success total_bytes_processed estimated_cost_usd].
  repeat split; reflexivity.
Qed.

Lemma dry_run_cost_is_five_per_tb_witness :
  exists r,
    dry_run_query one_tebibyte "SELECT * FROM t" []
    = (Returned r, ["SELECT * FROM t"%string])
    /\ success r = true
    /\ total_bytes_processed r = (2 ^ 40)%Z
    /\ estimated_cost_usd r == inject_Z (2 ^ 40) / inject_Z (2 ^ 40) * 5.
Proof.
  apply (dry_run_cost_is_five_per_tb one_tebibyte "SELECT * FROM t"
           (2 ^ 40)%Z []).
  reflexivity.
Defined.

(** C1, as the claim has it, fails: for a dry run of one tebibyte the
    estimate is 5 USD, not [Config.BIGQUERY_COST_PER_TB] = 50 USD. *)
Lemma dry_run_cost_is_not_config_rate :
  exists r,
    dry_run_query one_tebibyte "SELECT * FROM t" []
    = (Returned r, ["SELECT * FROM t"%string])
    /\ success r = true
    /\ estimated_cost_usd r == 5
    /\ ~ estimated_cost_usd r
         == inject_Z (2 ^ 40) / inject_Z (2 ^ 40)
            * Config.BIGQUERY_COST_PER_TB.
Proof.
  eexists. split; [reflexivity|].
  cbn [success estimated_cost_usd]. repeat split; try reflexivity.
  intros Habs. vm_compute in Habs. discriminate Habs.
Qed.

(** C6.  When the provider call raises, [dry_run_query] does not raise: it
    returns the failure record with [success = false], zero bytes, zero
    cost, and the exception text as [error]. *)
Theorem dry_run_failure_record provider_query query e (w : World) :
  provider_query query = Raised e ->
  exists r,
    dry_run_query provider_query query w = (Returned r, (w ++ [query])%list)
    /\ success r = false
    /\ total_bytes_processed r = 0%Z
    /\ estimated_cost_usd r = 0
    /\ error r = Some e.
Proof.
  intros Hq. eexists. split; [exact (dry_run_query_raised _ _ _ _ Hq)|].
  repeat split; reflexivity.
Qed.

Lemma dry_run_failure_record_witness :
  exists r,
    dry_run_query table_not_found "SELECT * FROM t" []
    = (Returned r, ["SELECT * FROM t"%string])
    /\ success r = false
    /\ total_bytes_processed r = 0%Z
    /\ estimated_cost_usd r = 0
    /\ error r = Some "404 Not found: Table t"%string.
Proof.
  apply (dry_run_failure_record table_not_found "SELECT * FROM t"
           "404 Not found: Table t" []).
  reflexivity.
Defined.

End BigQueryFacts.

(** ** The fan-out over query pairs *)

Module SqlOptimizationFacts.

Import PyStr BigQuery SqlOptimization BigQueryFacts Spec Scenarios.
Local Open Scope Q_scope.

Lemma drain_step_spec (l : Loop) item :
  results (drain_step l item) = (results l ++ item_results item)%list
  /\ page (drain_step l item) = (page l ++ item_page item)%list
  /\ completed (drain_step l item) = (completed l + 1)%Z.
Proof.
  destruct item as [q [[[|] [qid err | qid before after]] | e]];
    cbn; rewrite ?app_nil_r; auto.
Qed.

Lemma fold_drain_step finished : forall l,
  results (fold_left drain_step finished l)
  = (results l ++ flat_map item_results finished)%list
  /\ page (fold_left drain_step finished l)
     = (page l ++ flat_map item_page finished)%list
  /\ completed (fold_left drain_step finished l)
     = (completed l + Z.of_nat (List.length finished))%Z.
Proof.
  induction finished as [|item finished IH]; intros l.
  - cbn. rewrite !app_nil_r. repeat split; lia.
  - cbn [fold_left flat_map List.length].
    destruct (IH (drain_step l item)) as (Hr & Hp & Hc).
    destruct (drain_step_spec l item) as (Hr1 & Hp1 & Hc1).
    rewrite Hr, Hp, Hc, Hr1, Hp1, Hc1, <- !app_assoc.
    repeat split; lia.
Qed.

Lemma drain_spec finished :
  results (drain finished) = flat_map item_results finished
  /\ page (drain finished) = flat_map item_page finished
  /\ completed (drain finished) = Z.of_nat (List.length finished).
Proof. apply (fold_drain_step finished (mkLoop [] [] 0%Z)). Qed.

(** The work unit when the original query's dry run fails. *)
Lemma pair_original_failed provider_query query_id original optimized e w :
  provider_query original = Raised e ->
  _process_query_pair_parallel provider_query query_id original optimized w
  = (Returned
       (false,
        Failed query_id
          (if auth_markers e
           then "Authentication error - check credentials"
           else "Original query failed: " ++ take 150 e)%string),
     (w ++ [original])%list).
Proof.
  intros Hq. unfold _process_query_pair_parallel, try_except, bind.
  rewrite (dry_run_query_raised _ _ _ _ Hq).
  cbn [success negb error error_text ret].
  destruct (auth_markers e); reflexivity.
Qed.

(** The work unit when both dry runs succeed. *)
Lemma pair_measured provider_query query_id original optimized b a w :
  provider_query original = Returned b ->
  provider_query optimized = Returned a ->
  _process_query_pair_parallel provider_query query_id original optimized w
  = (Returned
       (true,
        Measured query_id
          (mkDryRunResult b ((inject_Z b / inject_Z (1024 ^ 4)) * 5)
             true None)
          (mkDryRunResult a ((inject_Z a / inject_Z (1024 ^ 4)) * 5)
             true None)),
     (w ++ [original] ++ [optimized])%list).
Proof.
  intros Hb Ha. unfold _process_query_pair_parallel, try_except, bind.
  rewrite (dry_run_query_returned _ _ _ _ Hb).
  cbn [success negb].
  rewrite (dry_run_query_returned _ _ _ _ Ha).
  cbn [success negb ret]. now rewrite <- app_assoc.
Qed.

(** A pair whose dry runs both succeed contributes one result. *)
Lemma item_results_measured provider_query q b a :
  provider_query (QueryData.original_query q) = Returned b ->
  provider_query (QueryData.optimized_query q) = Returned a ->
  exists r,
    item_results (q, fst (submit provider_query q)) = [r]
    /\ SQLOptimizationResult.query_id r = QueryData.query_id q
    /\ SQLOptimizationResult.bytes_before r = b
    /\ SQLOptimizationResult.bytes_after r = a.
Proof.
  intros Hb Ha. unfold submit.
  rewrite (pair_measured _ _ _ _ _ _ _ Hb Ha).
  eexists. split; [reflexivity|]. repeat split.
Qed.

(** C5.  If the dry run of the original query reports [success = false],
    the work unit returns a failure for the pair, having handed only the
    original query to the provider: an authentication failure when the
    error text carries '401', 'UNAUTHENTICATED' or 'authentication', a
    generic failure otherwise.  A failing pair does not abort the batch:
    with five pairs of which exactly the third one's original-query call
    fails, in whatever order the pairs complete, the four others yield
    results, the third is reported as failed, and its optimized query is
    never dry-run. *)
Theorem failing_pair_is_isolated provider_query
  (q1 q2 q3 q4 q5 : QueryData.t) (e : string) (b1 a1 b2 a2 b4 a4 b5 a5 : Z)
  (finished : list (QueryData.t * outcome (bool * PairData))) :
  provider_query (QueryData.original_query q3) = Raised e ->
  provider_query (QueryData.original_query q1) = Returned b1 ->
  provider_query (QueryData.optimized_query q1) = Returned a1 ->
  provider_query (QueryData.original_query q2) = Returned b2 ->
  provider_query (QueryData.optimized_query q2) = Returned a2 ->
  provider_query (QueryData.original_query q4) = Returned b4 ->
  provider_query (QueryData.optimized_query q4) = Returned a4 ->
  provider_query (QueryData.original_query q5) = Returned b5 ->
  provider_query (QueryData.optimized_query q5) = Returned a5 ->
  as_completed provider_query [q1; q2; q3; q4; q5] finished ->
  (forall query_id original optimized before w w',
      dry_run_query provider_query original w = (Returned before, w') ->
      success before = false ->
      exists error_msg,
        error before = Some error_msg
        /\ _process_query_pair_parallel provider_query
             query_id original optimized w
           = (Returned
                (false,
                 Failed query_id
                   (if (contains "401" error_msg
                        || contains "UNAUTHENTICATED" error_msg
                        || contains "authentication" (lower error_msg))%bool
                    then "Authentication error - check credentials"
                    else "Original query failed: "
                         ++ take 150 error_msg)%string),
              (w ++ [original])%list))
  /\ snd (submit provider_query q3) = [QueryData.original_query q3]
  /\ List.length (results (drain finished)) = 4%nat
  /\ Permutation
       (map SQLOptimizationResult.query_id (results (drain finished)))
       [QueryData.query_id q1; QueryData.query_id q2;
        QueryData.query_id q4; QueryData.query_id q5]
  /\ (exists error,
         fst (submit provider_query q3)
         = Returned (false, Failed (QueryData.query_id q3) error)
         /\ In (st_warning (QueryData.query_id q3) error)
               (page (drain finished)))
  /\ completed (drain finished) = 5%Z.
Proof.
  intros H3 Hb1 Ha1 Hb2 Ha2 Hb4 Ha4 Hb5 Ha5 Hdone.
  assert (Hfail3 := pair_original_failed provider_query
                      (QueryData.query_id q3) (QueryData.original_query q3)
                      (QueryData.optimized_query q3) e [] H3).
  destruct (drain_spec finished) as (Hres & Hpage & Hcount).
  destruct (item_results_measured _ q1 _ _ Hb1 Ha1) as (r1 & E1 & I1 & _).
  destruct (item_results_measured _ q2 _ _ Hb2 Ha2) as (r2 & E2 & I2 & _).
  destruct (item_results_measured _ q4 _ _ Hb4 Ha4) as (r4 & E4 & I4 & _).
  destruct (item_results_measured _ q5 _ _ Hb5 Ha5) as (r5 & E5 & I5 & _).
  assert (E3 : item_results (q3, fst (submit provider_query q3)) = []).
  { unfold submit. rewrite Hfail3. reflexivity. }
  assert (Hperm : Permutation [r1; r2; r4; r5] (results (drain finished))).
  { rewrite Hres. rewrite <- Hdone. unfold future_to_query.
    cbn [map flat_map]. rewrite E1, E2, E3, E4, E5. reflexivity. }
  split; [| split; [| split; [| split; [| split]]]].
  - intros query_id original optimized before w w' Hdry Hfalse.
    destruct (provider_query original) as [b | e'] eqn:Hq.
    + rewrite (dry_run_query_returned _ _ _ _ Hq) in Hdry.
      injection Hdry as <- _. discriminate Hfalse.
    + rewrite (dry_run_query_raised _ _ _ _ Hq) in Hdry.
      injection Hdry as <- _. exists e'. split; [reflexivity|].
      apply (pair_original_failed _ _ _ _ _ _ Hq).
  - unfold submit. now rewrite Hfail3.
  - now rewrite <- (Permutation_length Hperm).
  - rewrite <- Hperm. cbn [map]. rewrite I1, I2, I4, I5. reflexivity.
  - eexists. split; [unfold submit; rewrite Hfail3; reflexivity|].
    rewrite Hpage.
    apply (Permutation_in _ (Permutation_flat_map item_page Hdone)).
    apply in_flat_map.
    exists (q3, fst (submit provider_query q3)). split.
    + unfold future_to_query. cbn [map]. auto with datatypes.
    + unfold submit. rewrite Hfail3. left. reflexivity.
  - rewrite Hcount, <- (Permutation_length Hdone). reflexivity.
Qed.

Lemma failing_pair_is_isolated_witness :
  snd (submit broken_third (batch_pair "3" "SELECT * FROM missing"))
  = ["SELECT * FROM missing"%string]
  /\ List.length
       (results (drain (rev (future_to_query broken_third five_pairs))))
     = 4%nat.
Proof.
  destruct (failing_pair_is_isolated broken_third
              (batch_pair "1" "SELECT * FROM a")
              (batch_pair "2" "SELECT * FROM b")
              (batch_pair "3" "SELECT * FROM missing")
              (batch_pair "4" "SELECT * FROM d")
              (batch_pair "5" "SELECT * FROM e")
              "404 Not found: Table missing"
              15728640 25165824 15728640 25165824
              15728640 25165824 15728640 25165824
              (rev (future_to_query broken_third five_pairs))
              eq_refl eq_refl eq_refl eq_refl eq_refl eq_refl eq_refl
              eq_refl eq_refl (Permutation_rev _))
    as (_ & Hlog & Hlen & _).
  split; [exact Hlog | exact Hlen].
Defined.

(** C2.  Every result appended by the loop over the completed pairs has
    [savings_percent] equal to
    [(bytes_before - bytes_after) / bytes_before * 100] when
    [bytes_before > 0], and to 0 otherwise; when
    [bytes_after > bytes_before > 0] it is negative, not clamped to zero. *)
Theorem savings_percent_formula
  (finished : list (QueryData.t * outcome (bool * PairData)))
  (r : SQLOptimizationResult.t) :
  In r (results (drain finished)) ->
  ((0 < SQLOptimizationResult.bytes_before r)%Z ->
   SQLOptimizationResult.savings_percent r
   == inject_Z (SQLOptimizationResult.bytes_before r
                - SQLOptimizationResult.bytes_after r)
      / inject_Z (SQLOptimizationResult.bytes_before r) * 100)
  /\ ((SQLOptimizationResult.bytes_before r <= 0)%Z ->
      SQLOptimizationResult.savings_percent r == 0)
  /\ ((0 < SQLOptimizationResult.bytes_before r
       < SQLOptimizationResult.bytes_after r)%Z ->
      SQLOptimizationResult.savings_percent r < 0).
Proof.
  intros Hin. destruct (drain_spec finished) as (Hres & _).
  rewrite Hres in Hin. apply in_flat_map in Hin.
  destruct Hin as (item & _ & Hin).
  destruct item as [q [[[|] [qid err | qid before after]] | e]];
    cbn in Hin; try contradiction.
  destruct Hin as [<- | []].
  cbn [SQLOptimizationResult.bytes_before SQLOptimizationResult.bytes_after
       SQLOptimizationResult.savings_percent].
  set (b := total_bytes_processed before).
  set (a := total_bytes_processed after).
  split; [| split].
  - intros Hpos. apply Z.ltb_lt in Hpos. rewrite Hpos. reflexivity.
  - intros Hle. apply Z.ltb_ge in Hle. rewrite Hle. reflexivity.
  - intros [Hpos Hlt]. rewrite (proj2 (Z.ltb_lt 0 b) Hpos).
    destruct b as [|pb|pb]; try lia.
    unfold Qlt, Qdiv, Qmult, Qinv, inject_Z. cbn [Qnum Qden].
    nia.
Qed.

Lemma savings_percent_formula_witness :
  exists r,
    In r (results (drain [regressed_pair]))
    /\ SQLOptimizationResult.savings_percent r == - (50)
    /\ SQLOptimizationResult.savings_percent r < 0.
Proof.
  eexists. split; [left; reflexivity|].
  destruct (savings_percent_formula [regressed_pair] _
              (or_introl eq_refl)) as (Hformula & _ & Hneg).
  split.
  - rewrite Hformula by (cbn; lia). reflexivity.
  - apply Hneg. cbn. lia.
Defined.

(** The guard of the division at work: an original query that scans no
    byte gives a [savings_percent] of 0, also when the optimized query scans
    more. *)
Lemma savings_not_negative_from_zero_bytes :
  exists r,
    In r (results
            (drain
               (future_to_query free_original
                  [QueryData.mk "Query 1" "SELECT 1" "SELECT * FROM t" []])))
    /\ (SQLOptimizationResult.bytes_before r
        < SQLOptimizationResult.bytes_after r)%Z
    /\ SQLOptimizationResult.savings_percent r == 0
    /\ ~ SQLOptimizationResult.savings_percent r < 0.
Proof.
  eexists. split; [left; reflexivity|].
  cbn. repeat split; try reflexivity. intros Habs. discriminate Habs.
Qed.

End SqlOptimizationFacts.

(** ** The result aggregators *)

Module StorageOptimizationFacts.

Import StorageOptimization Scenarios.
Local Open Scope Q_scope.

Lemma process_suggestion_app bucket_metadata results s :
  process_suggestion bucket_metadata results s
  = (results ++ process_suggestion bucket_metadata [] s)%list.
Proof.
  unfold process_suggestion.
  destruct (bucket_info bucket_metadata (StorageSuggestion.bucket_name s));
    [reflexivity | now rewrite app_nil_r].
Qed.

Lemma fold_process_suggestion bucket_metadata suggestions : forall results,
  fold_left (process_suggestion bucket_metadata) suggestions results
  = (results
     ++ flat_map (process_suggestion bucket_metadata []) suggestions)%list.
Proof.
  induction suggestions as [|s sg IH]; intros results; cbn [fold_left flat_map].
  - now rewrite app_nil_r.
  - rewrite IH, process_suggestion_app, <- app_assoc. reflexivity.
Qed.

Lemma process_suggestions_flat_map bucket_metadata suggestions :
  process_suggestions bucket_metadata suggestions
  = flat_map (process_suggestion bucket_metadata []) suggestions.
Proof. apply (fold_process_suggestion bucket_metadata suggestions []). Qed.

(** Every result comes from one suggestion and the first bucket of that
    name. *)
Lemma result_origin bucket_metadata suggestions r :
  In r (process_suggestions bucket_metadata suggestions) ->
  exists s b,
    In s suggestions
    /\ bucket_info bucket_metadata (StorageSuggestion.bucket_name s) = Some b
    /\ process_suggestion bucket_metadata [] s = [r].
Proof.
  rewrite process_suggestions_flat_map. intros Hin.
  apply in_flat_map in Hin. destruct Hin as (s & Hs & Hr).
  unfold process_suggestion in *.
  destruct (bucket_info bucket_metadata (StorageSuggestion.bucket_name s))
    as [b|] eqn:Hb; [| contradiction].
  destruct Hr as [<- | []]. exists s, b.
  rewrite Hb. repeat split; assumption || reflexivity.
Qed.

(** C7.  Every storage result comes from a bucket of the metadata with the
    result's name, and its [estimated_savings_usd] is
    [current_monthly_cost * estimated_savings_percent / 100], where
    [current_monthly_cost] is the bucket's [size_gb] times the rate of its
    tier: STANDARD 0.020, NEARLINE 0.010, COLDLINE 0.004, ARCHIVE 0.0012. *)
Theorem storage_savings_formula
  (bucket_metadata : list Bucket.t)
  (suggestions : list StorageSuggestion.t)
  (r : StorageOptimizationResult.t) :
  In r (process_suggestions bucket_metadata suggestions) ->
  exists b,
    In b bucket_metadata
    /\ Bucket.name b = StorageOptimizationResult.bucket_name r
    /\ StorageOptimizationResult.current_size_gb r = Bucket.size_gb b
    /\ StorageOptimizationResult.current_storage_class r
       = Bucket.storage_class b
    /\ StorageOptimizationResult.estimated_savings_usd r
       == current_monthly_cost b
          * StorageOptimizationResult.estimated_savings_percent r / 100
    /\ (Bucket.storage_class b = "STANDARD"%string ->
        current_monthly_cost b == Bucket.size_gb b * 0.020)
    /\ (Bucket.storage_class b = "NEARLINE"%string ->
        current_monthly_cost b == Bucket.size_gb b * 0.010)
    /\ (Bucket.storage_class b = "COLDLINE"%string ->
        current_monthly_cost b == Bucket.size_gb b * 0.004)
    /\ (Bucket.storage_class b = "ARCHIVE"%string ->
        current_monthly_cost b == Bucket.size_gb b * 0.0012).
Proof.
  intros Hin. apply result_origin in Hin.
  destruct Hin as (s & b & _ & Hb & Hr).
  unfold process_suggestion in Hr. rewrite Hb in Hr.
  injection Hr as <-. exists b.
  apply find_some in Hb. destruct Hb as [Hmem Hname].
  apply String.eqb_eq in Hname.
  cbn [StorageOptimizationResult.bucket_name
       StorageOptimizationResult.current_size_gb
       StorageOptimizationResult.current_storage_class
       StorageOptimizationResult.estimated_savings_usd
       StorageOptimizationResult.estimated_savings_percent].
  repeat split; try assumption; try reflexivity.
  - unfold Qdiv. ring.
  - intros Hc. unfold current_monthly_cost. rewrite Hc. reflexivity.
  - intros Hc. unfold current_monthly_cost. rewrite Hc. reflexivity.
  - intros Hc. unfold current_monthly_cost. rewrite Hc. reflexivity.
  - intros Hc. unfold current_monthly_cost. rewrite Hc. reflexivity.
Qed.

Lemma storage_savings_formula_witness :
  exists r b,
    In r (process_suggestions three_buckets two_suggestions)
    /\ In b three_buckets
    /\ Bucket.name b = StorageOptimizationResult.bucket_name r
    /\ StorageOptimizationResult.estimated_savings_usd r
       == current_monthly_cost b
          * StorageOptimizationResult.estimated_savings_percent r / 100.
Proof.
  destruct (process_suggestions three_buckets two_suggestions)
    as [|r rest] eqn:E; [discriminate E|].
  assert (Hin : In r (process_suggestions three_buckets two_suggestions))
    by (rewrite E; now left).
  destruct (storage_savings_formula three_buckets two_suggestions r Hin)
    as (b & Hb & Hname & _ & _ & Husd & _).
  exists r, b. repeat split; try assumption. now left.
Defined.

End StorageOptimizationFacts.

(** The shared shape of the two aggregators. *)
Section Matching.

Import Spec.
Local Open Scope list_scope.

Context {M S R : Type}.
Variables (name_of : M -> string) (ref_of : S -> string)
          (key_of : R -> string) (build : M -> S -> R).
Hypothesis build_key : forall m s, key_of (build m s) = ref_of s.

Lemma lookup_known metadata n :
  lookup name_of metadata n = None <-> known name_of metadata n = false.
Proof.
  unfold lookup, known.
  induction metadata as [|m md IH]; cbn [find existsb]; [tauto|].
  destruct (name_of m =? n)%string; cbn [orb]; [| exact IH].
  split; discriminate.
Qed.

Lemma known_In metadata n :
  known name_of metadata n = true
  <-> exists m, In m metadata /\ name_of m = n.
Proof.
  unfold known. rewrite existsb_exists.
  split; intros (m & Hm & Hn); exists m; split; trivial;
    now apply String.eqb_eq.
Qed.

Lemma aggregate_flat_map metadata suggestions : forall results,
  fold_left (aggregate_step name_of ref_of build metadata) suggestions
    results
  = results
    ++ flat_map (aggregate_step name_of ref_of build metadata [])
         suggestions.
Proof.
  induction suggestions as [|s sg IH]; intros results;
    cbn [fold_left flat_map]; [now rewrite app_nil_r|].
  rewrite IH, app_assoc. f_equal.
  unfold aggregate_step.
  destruct (lookup name_of metadata (ref_of s));
    [reflexivity | now rewrite app_nil_r].
Qed.

Lemma aggregate_keys metadata suggestions :
  map key_of (aggregate name_of ref_of build metadata suggestions)
  = filter (known name_of metadata) (map ref_of suggestions).
Proof.
  unfold aggregate. rewrite aggregate_flat_map. cbn [app].
  induction suggestions as [|s sg IH]; [reflexivity|].
  cbn [flat_map map filter]. rewrite map_app, IH.
  unfold aggregate_step at 1.
  destruct (lookup name_of metadata (ref_of s)) as [m|] eqn:Hl.
  - destruct (known name_of metadata (ref_of s)) eqn:Hk.
    + cbn. now rewrite build_key.
    + apply lookup_known in Hk. congruence.
  - apply lookup_known in Hl. now rewrite Hl.
Qed.

Lemma aggregate_all_matched metadata suggestions :
  (forall s, In s suggestions ->
             exists m, In m metadata /\ name_of m = ref_of s) ->
  List.length (aggregate name_of ref_of build metadata suggestions)
  = List.length suggestions.
Proof.
  intros Hall.
  rewrite <- (length_map key_of), aggregate_keys.
  rewrite <- (length_map ref_of suggestions). f_equal.
  apply forallb_filter_id, forallb_forall. intros n Hn.
  apply in_map_iff in Hn. destruct Hn as (s & <- & Hs).
  apply known_In, Hall, Hs.
Qed.

Lemma aggregate_unmatched metadata suggestions m :
  (forall s, In s suggestions -> ref_of s <> name_of m) ->
  forall r, In r (aggregate name_of ref_of build metadata suggestions) ->
            key_of r <> name_of m.
Proof.
  intros Hno r Hr Heq.
  assert (Hk : In (key_of r)
                 (map key_of
                    (aggregate name_of ref_of build metadata suggestions)))
    by now apply in_map.
  rewrite aggregate_keys in Hk. apply filter_In in Hk.
  destruct Hk as [Hk _]. apply in_map_iff in Hk.
  destruct Hk as (s & Hs & Hin). apply (Hno s Hin). congruence.
Qed.

End Matching.

Module AggregationFacts.

Import Spec Scenarios.
Local Open Scope Q_scope.

Lemma storage_is_aggregate bucket_metadata suggestions :
  StorageOptimization.process_suggestions bucket_metadata suggestions
  = aggregate Bucket.name StorageSuggestion.bucket_name storage_result
      bucket_metadata suggestions.
Proof. reflexivity. Qed.

Lemma ml_is_aggregate ml_job_metadata ai_suggestions :
  MLAutoscaling.process_suggestions ml_job_metadata ai_suggestions
  = aggregate TrainingJob.job_name MLSuggestion.job_name ml_result
      ml_job_metadata ai_suggestions.
Proof. reflexivity. Qed.

(** C8.  Both aggregators produce exactly one result per suggestion whose
    name matches a metadata record, in the order of the suggestions, and
    drop the suggestions that match none.  So with 3 metadata records and 2
    suggestions that reference names of the metadata, exactly 2 results are
    produced, and a metadata record that no suggestion references gets no
    result. *)
Theorem aggregation_matching
  (bucket_metadata : list Bucket.t)
  (optimization_suggestions : list StorageSuggestion.t)
  (ml_job_metadata : list TrainingJob.t)
  (ai_suggestions : list MLSuggestion.t) :
  let storage_results :=
    StorageOptimization.process_suggestions bucket_metadata
      optimization_suggestions in
  let ml_results :=
    MLAutoscaling.process_suggestions ml_job_metadata ai_suggestions in
  map StorageOptimizationResult.bucket_name storage_results
  = filter (known Bucket.name bucket_metadata)
      (map StorageSuggestion.bucket_name optimization_suggestions)
  /\ map MLOptimizationResult.job_name ml_results
     = filter (known TrainingJob.job_name ml_job_metadata)
         (map MLSuggestion.job_name ai_suggestions)
  /\ (List.length bucket_metadata = 3%nat ->
      List.length optimization_suggestions = 2%nat ->
      (forall s, In s optimization_suggestions ->
                 exists b, In b bucket_metadata
                           /\ Bucket.name b = StorageSuggestion.bucket_name s) ->
      List.length storage_results = 2%nat
      /\ forall b, In b bucket_metadata ->
           (forall s, In s optimization_suggestions ->
                      StorageSuggestion.bucket_name s <> Bucket.name b) ->
           forall r, In r storage_results ->
                     StorageOptimizationResult.bucket_name r <> Bucket.name b)
  /\ (List.length ml_job_metadata = 3%nat ->
      List.length ai_suggestions = 2%nat ->
      (forall s, In s ai_suggestions ->
                 exists j, In j ml_job_metadata
                           /\ TrainingJob.job_name j = MLSuggestion.job_name s) ->
      List.length ml_results = 2%nat
      /\ forall j, In j ml_job_metadata ->
           (forall s, In s ai_suggestions ->
                      MLSuggestion.job_name s <> TrainingJob.job_name j) ->
           forall r, In r ml_results ->
                     MLOptimizationResult.job_name r <> TrainingJob.job_name j).
Proof.
  intros storage_results ml_results. subst storage_results ml_results.
  rewrite storage_is_aggregate, ml_is_aggregate.
  split; [| split; [| split]].
  - now apply aggregate_keys.
  - now apply aggregate_keys.
  - intros _ H2 Hall. split.
    + rewrite <- H2.
      now apply (aggregate_all_matched Bucket.name
                   StorageSuggestion.bucket_name
                   StorageOptimizationResult.bucket_name storage_result).
    + intros b _ Hno.
      now apply (aggregate_unmatched Bucket.name StorageSuggestion.bucket_name
                   StorageOptimizationResult.bucket_name storage_result).
  - intros _ H2 Hall. split.
    + rewrite <- H2.
      now apply (aggregate_all_matched TrainingJob.job_name
                   MLSuggestion.job_name MLOptimizationResult.job_name
                   ml_result).
    + intros j _ Hno.
      now apply (aggregate_unmatched TrainingJob.job_name
                   MLSuggestion.job_name MLOptimizationResult.job_name
                   ml_result).
Qed.

Lemma aggregation_matching_witness :
  List.length
    (StorageOptimization.process_suggestions
       three_buckets
       two_suggestions) = 2%nat
  /\ (forall r,
        In r (StorageOptimization.process_suggestions
                three_buckets
                two_suggestions) ->
        StorageOptimizationResult.bucket_name r <> "archive-3003"%string)
  /\ List.length
       (MLAutoscaling.process_suggestions three_jobs two_ml_suggestions)
     = 2%nat.
Proof.
  destruct (aggregation_matching three_buckets
              two_suggestions
              three_jobs two_ml_suggestions)
    as (_ & _ & Hstorage & Hml).
  destruct Hstorage as [Hlen Hnone]; [reflexivity | reflexivity | |].
  { intros s [<- | [<- | []]]; eexists;
      [split; [left; reflexivity | reflexivity]
      |split; [right; left; reflexivity | reflexivity]]. }
  destruct Hml as [Hlen' _]; [reflexivity | reflexivity | |].
  { intros s [<- | [<- | []]]; eexists;
      [split; [left; reflexivity | reflexivity]
      |split; [right; right; left; reflexivity | reflexivity]]. }
  split; [exact Hlen | split; [| exact Hlen']].
  apply (Hnone (Bucket.mk "archive-3003" 2000 1680000000000000 "us-east1"
                  "ARCHIVE")).
  - cbn; auto.
  - intros s [<- | [<- | []]]; discriminate.
Defined.

End AggregationFacts.

(** ** The bucket generator *)

Module StorageSimulatorFacts.

Import StorageSimulator Spec.
Local Open Scope Q_scope.

(** *** The seeded source satisfies the contracts *)

Lemma lcg_range (s : Z) : (0 <= lcg s < 2147483648)%Z.
Proof. unfold lcg. apply Z.mod_pos_bound. lia. Qed.

Lemma seeded_randbelow_range (n : Z) (w : Seeded) :
  (0 < n)%Z -> (0 <= fst (seeded_randbelow n w) < n)%Z.
Proof. intros Hn. cbn. now apply Z.mod_pos_bound. Qed.

Lemma seeded_random_range (w : Seeded) :
  0 <= fst (seeded_random w) /\ fst (seeded_random w) < 1.
Proof.
  pose proof (lcg_range (seed w)) as Hr.
  unfold Qle, Qlt. cbn. lia.
Qed.

Lemma seeded_now_clock (w : Seeded) :
  (wall w <= fst (seeded_now w)
   /\ fst (seeded_now w) <= wall (snd (seeded_now w)))%Z.
Proof. cbn. lia. Qed.

#[export] Instance seeded_env : Env Seeded := {|
  _randbelow := seeded_randbelow;
  random := seeded_random;
  datetime_now := seeded_now;
  clock := wall;
  _randbelow_range := seeded_randbelow_range;
  random_range := seeded_random_range;
  _randbelow_clock := fun n w => Z.le_refl (wall w);
  random_clock := fun w => Z.le_refl (wall w);
  datetime_now_clock := seeded_now_clock
|}.

(** *** Rounding *)

Lemma round_half_even_floor (x : Q) : (Qfloor x <= round_half_even x)%Z.
Proof.
  unfold round_half_even.
  destruct (Qcompare (x - inject_Z (Qfloor x)) (1 # 2)); [| lia | lia].
  destruct (Z.even (Qfloor x)); lia.
Qed.

Lemma round2_positive (x : Q) : 1 <= x -> 0 < round2 x.
Proof.
  intros Hx. unfold round2.
  assert (Hf : (100 <= round_half_even (x * 100))%Z).
  { apply Z.le_trans with (Qfloor (x * 100));
      [| apply round_half_even_floor].
    apply Z.le_trans with (Qfloor (inject_Z 100));
      [rewrite Qfloor_Z; lia |].
    apply Qfloor_resp_le. change (inject_Z 100) with 100. lra. }
  revert Hf. generalize (round_half_even (x * 100)). intros z Hz.
  unfold Qlt, Qdiv, Qmult, Qinv, inject_Z. cbn. lia.
Qed.

(** *** Running the generator *)

Section Runs.

Context {W : Type} `{Env W}.

Lemma returns_ret {A : Type} (a : A) (w : W) (P : A -> W -> Prop) :
  P a w -> returns (ret a) w P.
Proof. intros HP. exists a, w. repeat split; [lia | exact HP]. Qed.

Lemma returns_bind {A B : Type} (m : Eff W A) (k : A -> Eff W B) (w : W)
  (P : A -> W -> Prop) (Q : B -> W -> Prop) :
  returns m w P ->
  (forall a w1, (clock w <= clock w1)%Z -> P a w1 -> returns (k a) w1 Q) ->
  returns (bind m k) w Q.
Proof.
  intros (a & w1 & Hm & Hc & HP) Hk.
  destruct (Hk a w1 Hc HP) as (b & w2 & Hka & Hc2 & HQ).
  exists b, w2. unfold bind. rewrite Hm. repeat split; [exact Hka | lia | exact HQ].
Qed.

Lemma py_random_returns (w : W) :
  returns py_random w (fun x _ => 0 <= x /\ x < 1).
Proof.
  unfold returns, py_random.
  pose proof (random_range w) as Hr. pose proof (random_clock w) as Hc.
  destruct (random w) as [x w']. exists x, w'. auto.
Qed.

Lemma choice_returns {A : Type} (seq : list A) (w : W) :
  seq <> [] -> returns (choice seq) w (fun x _ => In x seq).
Proof.
  intros Hne. destruct seq as [|d seq]; [congruence|].
  unfold returns, choice.
  pose proof (_randbelow_range (Z.of_nat (List.length (d :: seq))) w) as Hr.
  pose proof (_randbelow_clock (Z.of_nat (List.length (d :: seq))) w) as Hc.
  destruct (_randbelow (Z.of_nat (List.length (d :: seq))) w) as [i w'].
  exists (nth (Z.to_nat i) (d :: seq) d), w'.
  repeat split; [exact Hc|].
  apply nth_In. cbn [fst] in Hr. cbn [List.length] in *. lia.
Qed.

Lemma randint_returns (a b : Z) (w : W) :
  (a <= b)%Z -> returns (randint a b) w (fun n _ => (a <= n <= b)%Z).
Proof.
  intros Hab. unfold returns, randint.
  rewrite (proj2 (Z.ltb_lt 0 (b + 1 - a))) by lia.
  pose proof (_randbelow_range (b + 1 - a) w) as Hr.
  pose proof (_randbelow_clock (b + 1 - a) w) as Hc.
  destruct (_randbelow (b + 1 - a)%Z w) as [i w'].
  exists (a + i)%Z, w'. cbn [fst snd] in *. repeat split; lia.
Qed.

Lemma uniform_returns (a b : Q) (w : W) :
  a <= b -> returns (uniform a b) w (fun x _ => a <= x /\ x <= b).
Proof.
  intros Hab. unfold uniform.
  apply (returns_bind _ _ _ _ _ (py_random_returns w)).
  intros x w1 _ [H0 H1]. apply returns_ret. split; nra.
Qed.

Lemma now_returns (w : W) :
  returns now w (fun t w' => (clock w <= t <= clock w')%Z).
Proof.
  unfold returns, now.
  pose proof (datetime_now_clock w) as Hc.
  destruct (datetime_now w) as [t w']. exists t, w'.
  cbn [fst snd] in Hc. repeat split; lia.
Qed.

Lemma stamped_widen (lo hi lo' hi' : Z) (b : Bucket.t) :
  (lo' <= lo)%Z -> (hi <= hi')%Z -> stamped lo hi b -> stamped lo' hi' b.
Proof.
  intros Hlo Hhi (Hs & Hc & t & d & Ht & Hd & Hl & H90).
  repeat split; try assumption. exists t, d. repeat split; try assumption; lia.
Qed.

Lemma size_gb_returns (size_distribution : Q) (w : W) :
  returns
    (if Qlt_le_dec size_distribution (5 # 10) then
       x <- uniform 1 100 ;; ret (round2 x)
     else if Qlt_le_dec size_distribution (8 # 10) then
       x <- uniform 100 1000 ;; ret (round2 x)
     else
       x <- uniform 1000 10000 ;; ret (round2 x))%eff
    w (fun size_gb _ => 0 < size_gb).
Proof.
  destruct (Qlt_le_dec size_distribution (5 # 10));
    [| destruct (Qlt_le_dec size_distribution (8 # 10))].
  - apply (returns_bind _ _ _ _ _ (uniform_returns 1 100 w ltac:(lra))).
    intros x w1 _ [Hx _]. apply returns_ret, round2_positive. lra.
  - apply (returns_bind _ _ _ _ _ (uniform_returns 100 1000 w ltac:(lra))).
    intros x w1 _ [Hx _]. apply returns_ret, round2_positive. lra.
  - apply (returns_bind _ _ _ _ _ (uniform_returns 1000 10000 w ltac:(lra))).
    intros x w1 _ [Hx _]. apply returns_ret, round2_positive. lra.
Qed.

Lemma storage_class_returns (days_ago : Z) (w : W) :
  returns
    (if (days_ago <? 30)%Z then
       choice ["STANDARD"; "NEARLINE"]
     else if (days_ago <? 90)%Z then
       choice ["STANDARD"; "NEARLINE"; "COLDLINE"]
     else
       choice ["NEARLINE"; "COLDLINE"; "ARCHIVE"])%string
    w (fun storage_class _ =>
         In storage_class STORAGE_CLASSES
         /\ ((90 <= days_ago)%Z -> storage_class <> "STANDARD"%string)).
Proof.
  destruct (Z.ltb_spec days_ago 30); [| destruct (Z.ltb_spec days_ago 90)].
  - destruct (choice_returns ["STANDARD"; "NEARLINE"]%string w ltac:(discriminate))
      as (c & w' & E & Hc & Hin).
    exists c, w'. repeat split; try assumption; [| lia].
    cbn in Hin |- *. intuition.
  - destruct (choice_returns ["STANDARD"; "NEARLINE"; "COLDLINE"]%string w
                ltac:(discriminate)) as (c & w' & E & Hc & Hin).
    exists c, w'. repeat split; try assumption; [| lia].
    cbn in Hin |- *. intuition.
  - destruct (choice_returns ["NEARLINE"; "COLDLINE"; "ARCHIVE"]%string w
                ltac:(discriminate)) as (c & w' & E & Hc & Hin).
    exists c, w'. repeat split; try assumption.
    + cbn in Hin |- *. intuition.
    + intros _ ->. cbn in Hin. intuition discriminate.
Qed.

Lemma generate_bucket_returns (w : W) :
  returns generate_bucket w (fun b w' => stamped (clock w) (clock w') b).
Proof.
  unfold generate_bucket.
  apply (returns_bind _ _ _ _ _
           (choice_returns BUCKET_PREFIXES w ltac:(discriminate))).
  intros prefix w1 C1 _.
  apply (returns_bind _ _ _ _ _ (randint_returns 1000 9999 w1 ltac:(lia))).
  intros suffix w2 C2 _.
  apply (returns_bind _ _ _ _ _ (py_random_returns w2)).
  intros size_distribution w3 C3 _.
  apply (returns_bind _ _ _ _ _ (size_gb_returns size_distribution w3)).
  intros size_gb w4 C4 Hsize.
  apply (returns_bind _ _ _ _ _ (randint_returns 1 365 w4 ltac:(lia))).
  intros days_ago w5 C5 Hdays.
  apply (returns_bind _ _ _ _ _ (now_returns w5)).
  intros t w6 C6 Ht.
  apply (returns_bind _ _ _ _ _ (storage_class_returns days_ago w6)).
  intros storage_class w7 C7 [Hclass H90].
  apply (returns_bind _ _ _ _ _
           (choice_returns REGIONS w7 ltac:(discriminate))).
  intros region w8 C8 _.
  apply returns_ret. unfold stamped. cbn [Bucket.size_gb Bucket.storage_class
                                            Bucket.last_accessed].
  repeat split; try assumption.
  exists t, days_ago. repeat split; try assumption; lia.
Qed.

Lemma generate_loop_returns (indices : list Z) :
  forall (buckets : list Bucket.t) (w : W),
    returns (generate_loop indices buckets) w
      (fun all w' =>
         exists fresh,
           all = (buckets ++ fresh)%list
           /\ List.length fresh = List.length indices
           /\ Forall (stamped (clock w) (clock w')) fresh).
Proof.
  induction indices as [|i rest IH]; intros buckets w; cbn [generate_loop].
  - apply returns_ret. exists []. rewrite app_nil_r. auto.
  - apply (returns_bind _ _ _ _ _ (generate_bucket_returns w)).
    intros b w1 C1 Hb.
    destruct (IH (buckets ++ [b])%list w1)
      as (all & w2 & E & C2 & fresh & -> & Hlen & Hall).
    exists ((buckets ++ [b]) ++ fresh)%list, w2.
    repeat split; [exact E | exact C2 |].
    exists (b :: fresh). rewrite <- app_assoc. repeat split.
    + cbn [List.length]. now rewrite Hlen.
    + constructor.
      * apply (stamped_widen (clock w) (clock w1)); [lia | lia | exact Hb].
      * apply (Forall_impl _ (fun b' => stamped_widen _ _ _ _ b' C1
                                          (Z.le_refl _)) Hall).
Qed.

End Runs.

(** C9.  For every [count >= 0] and every source of randomness and clock,
    [generate_bucket_metadata count] returns exactly [count] records.  Each
    has [size_gb > 0]; its [last_accessed] is a whole number of days, between
    1 and 365, before a reading of the clock taken during the call, hence at
    least one day before the clock at return; its [storage_class] is one of
    STANDARD, NEARLINE, COLDLINE, ARCHIVE; and when it was stamped 90 or
    more days old, it is not STANDARD. *)
Theorem generate_bucket_metadata_spec
  {W : Type} `{Env W} (count : Z) (w : W) :
  (0 <= count)%Z ->
  exists buckets w',
    generate_bucket_metadata count w = (Returned buckets, w')
    /\ Z.of_nat (List.length buckets) = count
    /\ Forall
         (fun b =>
            stamped (clock w) (clock w') b
            /\ (Bucket.last_accessed b + one_day <= clock w')%Z)
         buckets.
Proof.
  intros Hcount. unfold generate_bucket_metadata.
  destruct (generate_loop_returns (range count) [] w)
    as (all & w' & E & _ & fresh & -> & Hlen & Hall).
  exists fresh, w'. cbn [app] in *. repeat split; [exact E | |].
  - rewrite Hlen. now apply range_length.
  - apply (Forall_impl _ (P := stamped (clock w) (clock w'))); [| exact Hall].
    intros b Hb. split; [exact Hb|].
    destruct Hb as (_ & _ & t & d & Ht & Hd & -> & _).
    unfold one_day in *. nia.
Qed.

Lemma generate_bucket_metadata_spec_witness :
  exists buckets w',
    generate_bucket_metadata 10 (mkSeeded 2024 1730000000000000)
    = (Returned buckets, w')
    /\ Z.of_nat (List.length buckets) = 10%Z.
Proof.
  destruct (generate_bucket_metadata_spec 10
              (mkSeeded 2024 1730000000000000) ltac:(lia))
    as (buckets & w' & E & Hlen & _).
  exists buckets, w'. split; [exact E | exact Hlen].
Defined.

End StorageSimulatorFacts.

(* ================================================================== *)
(** * Further properties of the retry loop *)
(* ================================================================== *)

Module RetryFacts.

Import PyStr AIOptimizer AIOptimizerFacts Spec.

Lemma range_attempts (n : Z) : range n = attempts_from 0 (Z.to_nat n).
Proof. reflexivity. Qed.

Lemma not_retried_kinds (e : string) (n : Z) :
  classify e <> rate_limit -> classify e <> timeout ->
  should_retry (handle_ai_error e n) = false.
Proof.
  intros H1 H2. destruct (should_retry (handle_ai_error e n)) eqn:Hs;
    [| reflexivity].
  destruct (should_retry_kinds e n Hs); contradiction.
Qed.

Lemma retried_kinds (e : string) (n : Z) :
  classify e = rate_limit \/ classify e = timeout ->
  should_retry (handle_ai_error e n) = (0 <? n).
Proof.
  intros [Hk | Hk]; [now apply should_retry_rate_limit|].
  revert Hk. classify_cases e; intros; try discriminate; reflexivity.
Qed.

(** The trace of the loop from attempt [a] on, for any client: between 1
    and [d] calls, and a wait of [2 ^ i] seconds after each failed attempt
    [i] but the last one made. *)
Lemma retry_loop_trace client p prompt (max_retries : Z) (d : nat) :
  forall (a : nat) (w : World),
    (0 < d)%nat ->
    Z.of_nat (a + d) = max_retries ->
    exists k : nat,
      (1 <= k <= d)%nat
      /\ calls (snd (retry_loop client p prompt max_retries
                       (attempts_from a d) w))
         = (calls w + k)%nat
      /\ sleeps (snd (retry_loop client p prompt max_retries
                        (attempts_from a d) w))
         = (sleeps w ++ map (Z.pow 2) (attempts_from a (k - 1)))%list.
Proof.
  induction d as [|d IH]; intros a w Hd Hn; [lia|].
  unfold attempts_from. cbn [seq map]. fold (attempts_from (S a) d).
  destruct (client p prompt (calls w)) as [text | e] eqn:Hcall.
  - rewrite (retry_loop_success _ _ _ _ _ _ text _ Hcall).
    exists 1%nat. cbn. rewrite app_nil_r. repeat split; lia.
  - destruct (should_retry
                (handle_ai_error e (max_retries - Z.of_nat a - 1))) eqn:Hs.
    + destruct d as [|d'].
      * (* the last attempt is never retried *)
        assert (Hlast : max_retries - Z.of_nat a - 1 = 0) by lia.
        rewrite Hlast in Hs.
        destruct (should_retry_kinds e 0 Hs) as [Hk | Hk];
          rewrite (retried_kinds e 0) in Hs by auto; discriminate.
      * rewrite (retry_loop_backoff _ _ _ _ _ _ e _ Hcall Hs) by lia.
        destruct (IH (S a) (mkWorld (S (calls w))
                              (sleeps w ++ [2 ^ Z.of_nat a])))
          as (k & Hk & Hc & Hsl); [lia | lia |].
        exists (S k). rewrite Hc, Hsl. cbn [calls sleeps].
        repeat split; try lia.
        rewrite <- app_assoc. f_equal.
        replace (S k - 1)%nat with (S (k - 1)) by lia.
        reflexivity.
    + rewrite (retry_loop_fatal _ _ _ _ _ _ e _ Hcall Hs).
      exists 1%nat. cbn. rewrite app_nil_r. repeat split; lia.
Qed.

(** When every attempt fails with a retried kind, the loop runs all [d]
    attempts left, waits after each but the last, and raises the last
    failure. *)
Lemma retry_loop_exhausted client p prompt (max_retries : Z)
  (errors : nat -> string) (d : nat) :
  forall (a : nat) (w : World),
    Z.of_nat (a + S d) = max_retries ->
    (forall i, (i <= d)%nat ->
               client p prompt (calls w + i)%nat = Raised (errors (a + i)%nat)
               /\ (classify (errors (a + i)%nat) = rate_limit
                   \/ classify (errors (a + i)%nat) = timeout)) ->
    retry_loop client p prompt max_retries (attempts_from a (S d)) w
    = (Raised (user_message (handle_ai_error (errors (a + d)%nat) 0)
               ++ ": " ++ errors (a + d)%nat),
       mkWorld (calls w + S d)
         (sleeps w ++ map (Z.pow 2) (attempts_from a d))).
Proof.
  induction d as [|d IH]; intros a w Hn Hfail.
  - destruct (Hfail 0%nat (Nat.le_refl 0)) as [Hcall Hkind].
    replace (calls w + 0)%nat with (calls w) in Hcall by lia.
    replace (a + 0)%nat with a in * by lia.
    unfold attempts_from. cbn [seq map].
    rewrite (retry_loop_fatal _ _ _ _ _ _ (errors a) _ Hcall).
    + replace (max_retries - Z.of_nat a - 1) with 0 by lia.
      rewrite app_nil_r. do 2 f_equal. lia.
    + rewrite retried_kinds by assumption. apply Z.ltb_ge. lia.
  - destruct (Hfail 0%nat ltac:(lia)) as [Hcall Hkind].
    replace (calls w + 0)%nat with (calls w) in Hcall by lia.
    replace (a + 0)%nat with a in * by lia.
    unfold attempts_from. cbn [seq map].
    fold (attempts_from (S a) (S d)). fold (attempts_from (S a) d).
    rewrite (retry_loop_backoff _ _ _ _ _ _ (errors a) _ Hcall);
      [| rewrite retried_kinds by assumption; apply Z.ltb_lt; lia | lia].
    rewrite (IH (S a)); [| lia |].
    + cbn [calls sleeps]. rewrite <- app_assoc.
      replace (S a + d)%nat with (a + S d)%nat by lia.
      do 2 f_equal. lia.
    + intros i Hi. cbn [calls].
      replace (S (calls w) + i)%nat with (calls w + S i)%nat by lia.
      replace (S a + i)%nat with (a + S i)%nat by lia.
      apply Hfail. lia.
Qed.

(** X1.  When each of the [max_retries] attempts fails with an error
    classified [rate_limit] or [timeout], [_call_ai_with_retry] makes exactly
    [max_retries] provider calls, sleeps 1, 2, ..., [2 ^ (max_retries - 2)]
    seconds between them (no sleep follows the last failure), and raises the
    user message of the last failure followed by its text. *)
Theorem retry_budget_exhausted client p prompt (max_retries : Z)
  (errors : nat -> string) (w : World) :
  1 <= max_retries ->
  (forall i, (Z.of_nat i < max_retries) ->
             client p prompt (calls w + i)%nat = Raised (errors i)
             /\ (classify (errors i) = rate_limit
                 \/ classify (errors i) = timeout)) ->
  _call_ai_with_retry client p prompt max_retries w
  = (Raised (user_message
               (handle_ai_error (errors (Z.to_nat (max_retries - 1))) 0)
             ++ ": " ++ errors (Z.to_nat (max_retries - 1))),
     mkWorld (calls w + Z.to_nat max_retries)
       (sleeps w ++ map (Z.pow 2) (range (max_retries - 1)))).
Proof.
  intros Hn Hfail. unfold _call_ai_with_retry. rewrite !range_attempts.
  replace (Z.to_nat max_retries) with (S (Z.to_nat (max_retries - 1)))
    by lia.
  rewrite (retry_loop_exhausted client p prompt max_retries errors
             (Z.to_nat (max_retries - 1)) 0 w); [reflexivity | lia |].
  intros i Hi. cbn [Nat.add]. apply Hfail. lia.
Qed.

Lemma retry_budget_exhausted_witness :
  _call_ai_with_retry Scenarios.always_timeout gemini "prompt" 4
    (mkWorld 0 [])
  = (Raised "Request timed out. Retrying...: Deadline exceeded: timeout",
     mkWorld 4 [1; 2; 4]).
Proof.
  apply (retry_budget_exhausted Scenarios.always_timeout gemini "prompt" 4
           (fun _ => "Deadline exceeded: timeout") (mkWorld 0 []));
    [lia | intros i _; split; [reflexivity | right; reflexivity]].
Defined.

(** X2.  Whatever the provider does, with a budget of at least one attempt
    [_call_ai_with_retry] makes between 1 and [max_retries] provider calls,
    and after [k] calls it has slept exactly [k - 1] times, for 1, 2, 4, ...
    seconds in that order. *)
Theorem retry_calls_and_waits client p prompt (max_retries : Z) (w : World) :
  1 <= max_retries ->
  exists k : nat,
    (1 <= k)%nat /\ Z.of_nat k <= max_retries
    /\ calls (snd (_call_ai_with_retry client p prompt max_retries w))
       = (calls w + k)%nat
    /\ sleeps (snd (_call_ai_with_retry client p prompt max_retries w))
       = (sleeps w ++ map (Z.pow 2) (range (Z.of_nat k - 1)))%list.
Proof.
  intros Hn. unfold _call_ai_with_retry. rewrite range_attempts.
  destruct (retry_loop_trace client p prompt max_retries
              (Z.to_nat max_retries) 0 w) as (k & Hk & Hc & Hs);
    [lia | lia |].
  exists k. rewrite Hc, Hs, range_attempts.
  replace (Z.to_nat (Z.of_nat k - 1)) with (k - 1)%nat by lia.
  repeat split; lia.
Qed.

Lemma retry_calls_and_waits_witness :
  exists k : nat,
    (1 <= k)%nat /\ Z.of_nat k <= 3
    /\ calls (snd (_call_ai_with_retry Scenarios.rate_limited_twice openai
                     "prompt" 3 (mkWorld 0 [])))
       = (0 + k)%nat
    /\ sleeps (snd (_call_ai_with_retry Scenarios.rate_limited_twice openai
                      "prompt" 3 (mkWorld 0 [])))
       = ([] ++ map (Z.pow 2) (range (Z.of_nat k - 1)))%list.
Proof.
  apply (retry_calls_and_waits Scenarios.rate_limited_twice openai "prompt"
           3 (mkWorld 0 [])).
  lia.
Defined.

(** X3.  With a budget of zero or fewer attempts the provider is never
    called: [_call_ai_with_retry] raises "Failed to get AI response after
    all retries" and leaves the world as it was. *)
Theorem retry_without_budget client p prompt (max_retries : Z) (w : World) :
  max_retries <= 0 ->
  _call_ai_with_retry client p prompt max_retries w
  = (Raised "Failed to get AI response after all retries", w).
Proof.
  intros Hn. unfold _call_ai_with_retry, range.
  replace (Z.to_nat max_retries) with 0%nat by lia. reflexivity.
Qed.

Lemma retry_without_budget_witness :
  _call_ai_with_retry Scenarios.rate_limited_twice gemini "prompt" 0
    (mkWorld 0 [])
  = (Raised "Failed to get AI response after all retries", mkWorld 0 []).
Proof.
  apply (retry_without_budget Scenarios.rate_limited_twice gemini "prompt"
           0 (mkWorld 0 [])).
  lia.
Defined.

(** X4.  A first failure of any kind other than [rate_limit] and [timeout]
    (so also one that matches no marker at all) ends the call at once: one
    provider call, no sleep, and the raised message ends with the provider's
    error text. *)
Theorem other_kinds_fail_fast client p prompt (e : string) (max_retries : Z)
  (w : World) :
  1 <= max_retries ->
  classify e <> rate_limit ->
  classify e <> timeout ->
  client p prompt (calls w) = Raised e ->
  _call_ai_with_retry client p prompt max_retries w
  = (Raised (user_message (handle_ai_error e (max_retries - 1)) ++ ": " ++ e),
     mkWorld (S (calls w)) (sleeps w)).
Proof.
  intros Hn H1 H2 Hcall. unfold _call_ai_with_retry.
  rewrite range_cons by assumption.
  rewrite (retry_loop_fatal _ _ _ _ _ _ e _ Hcall)
    by now apply not_retried_kinds.
  replace (max_retries - 0 - 1) with (max_retries - 1) by lia.
  reflexivity.
Qed.

Lemma other_kinds_fail_fast_witness :
  _call_ai_with_retry Scenarios.server_error gemini "prompt" 3 (mkWorld 0 [])
  = (Raised "500 Internal error: 500 Internal error", mkWorld 1 []).
Proof.
  apply (other_kinds_fail_fast Scenarios.server_error gemini "prompt"
           "500 Internal error" 3 (mkWorld 0 []));
    [lia | discriminate | discriminate | reflexivity].
Defined.

End RetryFacts.

(* ================================================================== *)
(** * Further properties of the fan-out *)
(* ================================================================== *)

Module FanOutFacts.

Import PyStr BigQuery SqlOptimization BigQueryFacts SqlOptimizationFacts.
Import Spec Scenarios.
Local Open Scope Q_scope.

Lemma take_length (n : nat) (s : string) : (String.length (take n s) <= n)%nat.
Proof.
  unfold take. revert s. induction n as [|n IH]; intros [|c s]; cbn;
    try lia.
  specialize (IH s). lia.
Qed.

Lemma append_length (a b : string) :
  String.length (a ++ b) = (String.length a + String.length b)%nat.
Proof. induction a as [|c a IH]; cbn; [reflexivity | now rewrite IH]. Qed.

(** The work unit when the optimized query's dry run fails. *)
Lemma pair_optimized_failed provider_query query_id original optimized b e w :
  provider_query original = Returned b ->
  provider_query optimized = Raised e ->
  _process_query_pair_parallel provider_query query_id original optimized w
  = (Returned
       (false,
        Failed query_id
          (if auth_markers e
           then "Authentication error - check credentials"
           else "Optimized query failed: " ++ take 150 e)%string),
     (w ++ [original] ++ [optimized])%list).
Proof.
  intros Hb He. unfold _process_query_pair_parallel, try_except, bind.
  rewrite (dry_run_query_returned _ _ _ _ Hb).
  cbn [success negb].
  rewrite (dry_run_query_raised _ _ _ _ He).
  cbn [success negb error error_text ret]. rewrite <- app_assoc.
  destruct (auth_markers e); reflexivity.
Qed.

(** X5.  When the original query's dry run succeeds and the optimized
    query's fails, the work unit reports the pair as failed, as an
    authentication error when the text carries an auth marker and as
    "Optimized query failed: " followed by the first 150 characters of the
    text otherwise; both queries were handed to the provider, the original
    first, and the bytes measured for the original are not returned. *)
Theorem optimized_failure_fails_the_pair
  provider_query query_id original optimized (b : Z) (e : string)
  (w : World) :
  provider_query original = Returned b ->
  provider_query optimized = Raised e ->
  _process_query_pair_parallel provider_query query_id original optimized w
  = (Returned
       (false,
        Failed query_id
          (if (contains "401" e || contains "UNAUTHENTICATED" e
               || contains "authentication" (lower e))%bool
           then "Authentication error - check credentials"
           else "Optimized query failed: " ++ take 150 e)%string),
     (w ++ [original; optimized])%list).
Proof. intros Hb He. apply (pair_optimized_failed _ _ _ _ _ _ _ Hb He). Qed.

Lemma optimized_failure_fails_the_pair_witness :
  _process_query_pair_parallel rejects_optimized "Query 1"
    "SELECT * FROM t" "SELECT id FROM t LIMIT 10" []
  = (Returned (false,
               Failed "Query 1" "Authentication error - check credentials"),
     ["SELECT * FROM t"; "SELECT id FROM t LIMIT 10"]%string).
Proof.
  apply (optimized_failure_fails_the_pair rejects_optimized "Query 1"
           "SELECT * FROM t" "SELECT id FROM t LIMIT 10" 4096
           "401 Request had invalid credentials" []);
    reflexivity.
Defined.

(** The three ways a work unit can end. *)
Lemma pair_cases provider_query query_id original optimized w :
  (exists e,
      provider_query original = Raised e
      /\ _process_query_pair_parallel provider_query query_id original
           optimized w
         = (Returned
              (false,
               Failed query_id
                 (if auth_markers e
                  then "Authentication error - check credentials"
                  else "Original query failed: " ++ take 150 e)%string),
            (w ++ [original])%list))
  \/ (exists b e,
         provider_query original = Returned b
         /\ provider_query optimized = Raised e
         /\ _process_query_pair_parallel provider_query query_id original
              optimized w
            = (Returned
                 (false,
                  Failed query_id
                    (if auth_markers e
                     then "Authentication error - check credentials"
                     else "Optimized query failed: " ++ take 150 e)%string),
               (w ++ [original] ++ [optimized])%list))
  \/ (exists b a,
         provider_query original = Returned b
         /\ provider_query optimized = Returned a
         /\ _process_query_pair_parallel provider_query query_id original
              optimized w
            = (Returned
                 (true,
                  Measured query_id
                    (mkDryRunResult b
                       ((inject_Z b / inject_Z (1024 ^ 4)) * 5) true None)
                    (mkDryRunResult a
                       ((inject_Z a / inject_Z (1024 ^ 4)) * 5) true None)),
               (w ++ [original] ++ [optimized])%list)).
Proof.
  destruct (provider_query original) as [b | e] eqn:Ho.
  - destruct (provider_query optimized) as [a | e] eqn:Hp.
    + right; right. exists b, a. repeat split.
      apply (pair_measured _ _ _ _ _ _ _ Ho Hp).
    + right; left. exists b, e. repeat split.
      apply (pair_optimized_failed _ _ _ _ _ _ _ Ho Hp).
  - left. exists e. split; [reflexivity|].
    apply (pair_original_failed _ _ _ _ _ _ Ho).
Qed.

(** X6.  The work unit never raises, whatever the provider does: it returns
    either [(True, ...)] with both dry-run results or [(False, ...)] with the
    pair's own [query_id] and an error text of at most 174 characters, after
    handing the provider the original query and at most the optimized one
    after it. *)
Theorem work_unit_never_raises
  provider_query query_id original optimized (w : World) :
  exists flag data w',
    _process_query_pair_parallel provider_query query_id original optimized w
    = (Returned (flag, data), w')
    /\ (w' = (w ++ [original])%list
        \/ w' = (w ++ [original; optimized])%list)
    /\ match data with
       | Measured qid before after =>
           flag = true /\ qid = query_id
           /\ success before = true /\ success after = true
       | Failed qid error =>
           flag = false /\ qid = query_id
           /\ (String.length error <= 174)%nat
       end.
Proof.
  assert (Hlen : forall (prefix : string) e,
             (String.length prefix <= 24)%nat ->
             (String.length
                (if auth_markers e
                 then "Authentication error - check credentials"
                 else prefix ++ take 150 e)%string <= 174)%nat).
  { intros prefix e Hp. destruct (auth_markers e); [cbn; lia|].
    rewrite append_length. pose proof (take_length 150 e). lia. }
  destruct (pair_cases provider_query query_id original optimized w)
    as [(e & _ & E) | [(b & e & _ & _ & E) | (b & a & _ & _ & E)]];
    rewrite E; do 3 eexists; (split; [reflexivity|]); split; auto;
    repeat split; apply Hlen; cbn; lia.
Qed.





(** The results of a batch, traced back to the pairs. *)
Lemma pipeline_result_shape provider_query
  (optimized_queries : list QueryData.t) (r : SQLOptimizationResult.t) :
  In r (flat_map item_results
          (future_to_query provider_query optimized_queries)) ->
  exists q b a,
    In q optimized_queries
    /\ provider_query (QueryData.original_query q) = Returned b
    /\ provider_query (QueryData.optimized_query q) = Returned a
    /\ r = SQLOptimizationResult.mk
             (QueryData.query_id q) (QueryData.original_query q)
             (QueryData.optimized_query q) b a
             ((inject_Z b / inject_Z (1024 ^ 4)) * 5)
             ((inject_Z a / inject_Z (1024 ^ 4)) * 5)
             (if (0 <? b)%Z
              then (inject_Z (b - a) / inject_Z b) * 100 else 0)
             (QueryData.optimizations_applied q).
Proof.
  intros Hin. apply in_flat_map in Hin. destruct Hin as (item & Hitem & Hr).
  unfold future_to_query in Hitem. apply in_map_iff in Hitem.
  destruct Hitem as (q & <- & Hq). unfold submit in Hr.
  destruct (pair_cases provider_query (QueryData.query_id q)
              (QueryData.original_query q) (QueryData.optimized_query q) [])
    as [(e & Ho & E) | [(b & e & Ho & Hp & E) | (b & a & Ho & Hp & E)]];
    rewrite E in Hr; cbn in Hr; try contradiction.
  destruct Hr as [<- | []]. exists q, b, a. repeat split; assumption.
Qed.

Lemma as_completed_results provider_query optimized_queries finished r :
  as_completed provider_query optimized_queries finished ->
  In r (results (drain finished)) ->
  In r (flat_map item_results
          (future_to_query provider_query optimized_queries)).
Proof.
  intros Hdone Hin. destruct (drain_spec finished) as (Hres & _).
  rewrite Hres in Hin.
  apply (Permutation_in _
           (Permutation_sym (Permutation_flat_map item_results Hdone))).
  exact Hin.
Qed.

(** X8.  Whatever the order of completion, every result of a batch belongs
    to one submitted pair: its id, its two query texts and its list of
    optimizations are that pair's, its byte counts are what the provider
    reported for those two texts, and its two costs are those byte counts
    priced at 5 USD per tebibyte. *)
Theorem results_belong_to_their_pair provider_query
  (optimized_queries : list QueryData.t)
  (finished : list (QueryData.t * outcome (bool * PairData)))
  (r : SQLOptimizationResult.t) :
  as_completed provider_query optimized_queries finished ->
  In r (results (drain finished)) ->
  (exists q,
      In q optimized_queries
      /\ SQLOptimizationResult.query_id r = QueryData.query_id q
      /\ SQLOptimizationResult.original_query r = QueryData.original_query q
      /\ SQLOptimizationResult.optimized_query r
         = QueryData.optimized_query q
      /\ SQLOptimizationResult.optimizations_applied r
         = QueryData.optimizations_applied q)
  /\ provider_query (SQLOptimizationResult.original_query r)
     = Returned (SQLOptimizationResult.bytes_before r)
  /\ provider_query (SQLOptimizationResult.optimized_query r)
     = Returned (SQLOptimizationResult.bytes_after r)
  /\ SQLOptimizationResult.cost_before_usd r
     == inject_Z (SQLOptimizationResult.bytes_before r) / inject_Z (2 ^ 40)
        * 5
  /\ SQLOptimizationResult.cost_after_usd r
     == inject_Z (SQLOptimizationResult.bytes_after r) / inject_Z (2 ^ 40)
        * 5.
Proof.
  intros Hdone Hin.
  destruct (pipeline_result_shape provider_query optimized_queries r
              (as_completed_results _ _ _ _ Hdone Hin))
    as (q & b & a & Hq & Ho & Hp & ->).
  cbn [SQLOptimizationResult.query_id SQLOptimizationResult.original_query
       SQLOptimizationResult.optimized_query
       SQLOptimizationResult.optimizations_applied
       SQLOptimizationResult.bytes_before SQLOptimizationResult.bytes_after
       SQLOptimizationResult.cost_before_usd
       SQLOptimizationResult.cost_after_usd].
  split; [exists q; repeat split; assumption|].
  repeat split; try assumption; reflexivity.
Qed.

Lemma results_belong_to_their_pair_witness :
  exists r,
    In r (results (drain (rev (future_to_query broken_third five_pairs))))
    /\ broken_third (SQLOptimizationResult.original_query r)
       = Returned (SQLOptimizationResult.bytes_before r).
Proof.
  destruct (results (drain (rev (future_to_query broken_third five_pairs))))
    as [|r rest] eqn:E; [discriminate E|].
  assert (Hin : In r (results
                        (drain (rev (future_to_query broken_third
                                       five_pairs)))))
    by (rewrite E; now left).
  destruct (results_belong_to_their_pair broken_third five_pairs
              (rev (future_to_query broken_third five_pairs)) r
              (Permutation_rev _) Hin) as (_ & Hbytes & _).
  exists r. split; [now left | exact Hbytes].
Defined.

(** X9.  For every result of a batch whose original query scans at least
    one byte, the percentage saved in dollars,
    [(cost_before_usd - cost_after_usd) / cost_before_usd * 100], is the
    [savings_percent] computed from the byte counts. *)
Theorem dollar_savings_match_byte_savings provider_query
  (optimized_queries : list QueryData.t)
  (finished : list (QueryData.t * outcome (bool * PairData)))
  (r : SQLOptimizationResult.t) :
  as_completed provider_query optimized_queries finished ->
  In r (results (drain finished)) ->
  (0 < SQLOptimizationResult.bytes_before r)%Z ->
  (SQLOptimizationResult.cost_before_usd r
   - SQLOptimizationResult.cost_after_usd r)
  / SQLOptimizationResult.cost_before_usd r * 100
  == SQLOptimizationResult.savings_percent r.
Proof.
  intros Hdone Hin.
  destruct (pipeline_result_shape provider_query optimized_queries r
              (as_completed_results _ _ _ _ Hdone Hin))
    as (q & b & a & _ & _ & _ & ->).
  cbn [SQLOptimizationResult.bytes_before
       SQLOptimizationResult.cost_before_usd
       SQLOptimizationResult.cost_after_usd
       SQLOptimizationResult.savings_percent].
  intros Hpos. rewrite (proj2 (Z.ltb_lt 0 b) Hpos).
  assert (Hb : ~ inject_Z b == 0).
  { unfold Qeq, inject_Z. cbn. lia. }
  assert (Ht : ~ inject_Z (1024 ^ 4) == 0).
  { unfold Qeq, inject_Z. cbn. lia. }
  unfold Z.sub. rewrite inject_Z_plus, inject_Z_opp.
  revert Hb Ht. generalize (inject_Z b) (inject_Z a) (inject_Z (1024 ^ 4)).
  intros B A T Hb Ht. field. auto.
Qed.

Lemma dollar_savings_match_byte_savings_witness :
  exists r,
    In r (results (drain (future_to_query broken_third five_pairs)))
    /\ (SQLOptimizationResult.cost_before_usd r
        - SQLOptimizationResult.cost_after_usd r)
       / SQLOptimizationResult.cost_before_usd r * 100
       == SQLOptimizationResult.savings_percent r.
Proof.
  destruct (results (drain (future_to_query broken_third five_pairs)))
    as [|r rest] eqn:E; [discriminate E|].
  assert (Hin : In r (results
                        (drain (future_to_query broken_third five_pairs))))
    by (rewrite E; now left).
  exists r. split; [now left|].
  apply (dollar_savings_match_byte_savings broken_third five_pairs
           (future_to_query broken_third five_pairs) r
           (Permutation_refl _) Hin).
  vm_compute in E. injection E as <- _. reflexivity.
Defined.

End FanOutFacts.

(* ================================================================== *)
(** * Further properties of the aggregators *)
(* ================================================================== *)

Module AggregatorFacts.

Import PyStr Spec Scenarios.
Local Open Scope Q_scope.

Lemma find_first {A : Type} (f : A -> bool) (l : list A) (x : A) :
  find f l = Some x ->
  exists pre post,
    l = (pre ++ x :: post)%list
    /\ f x = true
    /\ forall y, In y pre -> f y = false.
Proof.
  induction l as [|a l IH]; cbn [find]; [discriminate|].
  destruct (f a) eqn:Ha.
  - intros [= ->]. exists [], l. repeat split; [assumption | intros y []].
  - intros Hx. destruct (IH Hx) as (pre & post & -> & Hfx & Hpre).
    exists (a :: pre), post. repeat split; [assumption|].
    intros y [<- | Hy]; [assumption | now apply Hpre].
Qed.

(** Every storage result is the record built from one suggestion and the
    bucket found for it. *)
Lemma storage_result_origin bucket_metadata suggestions r :
  In r (StorageOptimization.process_suggestions bucket_metadata suggestions)
  -> exists s b,
       In s suggestions
       /\ StorageOptimization.bucket_info bucket_metadata
            (StorageSuggestion.bucket_name s) = Some b
       /\ r = storage_result b s.
Proof.
  intros Hin.
  destruct (StorageOptimizationFacts.result_origin _ _ _ Hin)
    as (s & b & Hs & Hb & Hr).
  exists s, b. repeat split; try assumption.
  unfold StorageOptimization.process_suggestion in Hr. rewrite Hb in Hr.
  now injection Hr as <-.
Qed.

Lemma tier_rate_bounds (c : string) :
  0 <= PyDict.get StorageOptimization.storage_costs c
         Config.GCS_STANDARD_COST_PER_GB
  /\ PyDict.get StorageOptimization.storage_costs c
       Config.GCS_STANDARD_COST_PER_GB <= 0.020.
Proof.
  unfold StorageOptimization.storage_costs. cbn [PyDict.get].
  repeat match goal with
         | |- context [(?k =? c)%string] => destruct (k =? c)%string
         end; split; discriminate.
Qed.

(** X10.  A bucket whose [storage_class] is none of the four tiers is
    priced at the STANDARD rate: the result carries its unknown tier
    unchanged, and its savings are computed from [size_gb * 0.020]. *)
Theorem unknown_tier_priced_as_standard
  (bucket_metadata : list Bucket.t)
  (suggestions : list StorageSuggestion.t)
  (r : StorageOptimizationResult.t) :
  In r (StorageOptimization.process_suggestions bucket_metadata suggestions)
  -> ~ In (StorageOptimizationResult.current_storage_class r)
          StorageSimulator.STORAGE_CLASSES ->
  StorageOptimizationResult.estimated_savings_usd r
  == StorageOptimizationResult.current_size_gb r * 0.020
     * StorageOptimizationResult.estimated_savings_percent r / 100.
Proof.
  intros Hin Hnot.
  destruct (storage_result_origin _ _ _ Hin) as (s & b & _ & _ & ->).
  cbn [storage_result StorageOptimizationResult.current_storage_class
       StorageOptimizationResult.estimated_savings_usd
       StorageOptimizationResult.current_size_gb
       StorageOptimizationResult.estimated_savings_percent] in *.
  unfold StorageOptimization.current_monthly_cost,
    StorageOptimization.storage_costs. cbn [PyDict.get].
  cbn [StorageSimulator.STORAGE_CLASSES In] in Hnot.
  repeat match goal with
         | |- context [(?k =? ?c)%string] =>
             destruct (String.eqb_spec k c); [exfalso; tauto|]
         end.
  unfold Config.GCS_STANDARD_COST_PER_GB, Qdiv. ring.
Qed.

Lemma unknown_tier_priced_as_standard_witness :
  exists r,
    In r (StorageOptimization.process_suggestions odd_buckets
            odd_suggestions)
    /\ StorageOptimizationResult.current_storage_class r
       = "MULTI_REGIONAL"%string
    /\ StorageOptimizationResult.estimated_savings_usd r
       == StorageOptimizationResult.current_size_gb r * 0.020
          * StorageOptimizationResult.estimated_savings_percent r / 100.
Proof.
  destruct (StorageOptimization.process_suggestions odd_buckets
              odd_suggestions) as [|r rest] eqn:E; [discriminate E|].
  assert (Hin : In r (StorageOptimization.process_suggestions odd_buckets
                        odd_suggestions)) by (rewrite E; now left).
  vm_compute in E. injection E as <- _.
  eexists. split; [now left|]. split; [reflexivity|].
  apply (unknown_tier_priced_as_standard odd_buckets odd_suggestions _ Hin).
  cbn. intuition discriminate.
Defined.

(** X11.  When several buckets share a name, a suggestion for that name is
    matched with the first of them in the metadata: the result's size, tier
    and last access are those of the first bucket so named, whatever comes
    after it. *)
Theorem first_bucket_of_a_name_wins
  (bucket_metadata : list Bucket.t)
  (suggestions : list StorageSuggestion.t)
  (r : StorageOptimizationResult.t) :
  In r (StorageOptimization.process_suggestions bucket_metadata suggestions)
  -> exists pre b post,
       bucket_metadata = (pre ++ b :: post)%list
       /\ Bucket.name b = StorageOptimizationResult.bucket_name r
       /\ (forall b', In b' pre ->
                      Bucket.name b'
                      <> StorageOptimizationResult.bucket_name r)
       /\ StorageOptimizationResult.current_size_gb r = Bucket.size_gb b
       /\ StorageOptimizationResult.current_storage_class r
          = Bucket.storage_class b
       /\ StorageOptimizationResult.last_accessed r
          = Bucket.last_accessed b.
Proof.
  intros Hin.
  destruct (storage_result_origin _ _ _ Hin) as (s & b & _ & Hb & ->).
  apply find_first in Hb. destruct Hb as (pre & post & Hmd & Hname & Hpre).
  exists pre, b, post. cbn [storage_result
                             StorageOptimizationResult.bucket_name
                             StorageOptimizationResult.current_size_gb
                             StorageOptimizationResult.current_storage_class
                             StorageOptimizationResult.last_accessed].
  repeat split; try assumption.
  - now apply String.eqb_eq.
  - intros b' Hb'. apply String.eqb_neq. now apply Hpre.
Qed.

Lemma first_bucket_of_a_name_wins_witness :
  exists r pre b post,
    In r (StorageOptimization.process_suggestions odd_buckets
            odd_suggestions)
    /\ odd_buckets = (pre ++ b :: post)%list
    /\ Bucket.name b = StorageOptimizationResult.bucket_name r
    /\ StorageOptimizationResult.current_storage_class r
       = Bucket.storage_class b.
Proof.
  destruct (StorageOptimization.process_suggestions odd_buckets
              odd_suggestions) as [|r0 [|r rest]] eqn:E;
    [discriminate E | discriminate E |].
  assert (Hin : In r (StorageOptimization.process_suggestions odd_buckets
                        odd_suggestions))
    by (rewrite E; right; now left).
  destruct (first_bucket_of_a_name_wins odd_buckets odd_suggestions r Hin)
    as (pre & b & post & Hmd & Hname & Hpre & _ & Hclass & _).
  exists r, pre, b, post. repeat split; try assumption. right; now left.
Defined.

(** X12.  When the bucket's size is not negative and the suggested
    percentage lies between 0 and 100, the estimated savings of a result lie
    between 0 and the bucket's current monthly cost, which is its size at
    the rate of its own tier: at most [size_gb * 0.010] for a NEARLINE
    bucket, [size_gb * 0.004] for a COLDLINE one and [size_gb * 0.0012] for
    an ARCHIVE one, and never more than [size_gb * 0.020]. *)
Theorem storage_savings_bounded
  (bucket_metadata : list Bucket.t)
  (suggestions : list StorageSuggestion.t)
  (r : StorageOptimizationResult.t) :
  In r (StorageOptimization.process_suggestions bucket_metadata suggestions)
  -> 0 <= StorageOptimizationResult.current_size_gb r ->
  0 <= StorageOptimizationResult.estimated_savings_percent r ->
  StorageOptimizationResult.estimated_savings_percent r <= 100 ->
  exists b,
    StorageOptimization.bucket_info bucket_metadata
      (StorageOptimizationResult.bucket_name r) = Some b
    /\ 0 <= StorageOptimizationResult.estimated_savings_usd r
    /\ StorageOptimizationResult.estimated_savings_usd r
       <= StorageOptimization.current_monthly_cost b
    /\ StorageOptimization.current_monthly_cost b
       == StorageOptimizationResult.current_size_gb r
          * PyDict.get StorageOptimization.storage_costs
              (StorageOptimizationResult.current_storage_class r)
              Config.GCS_STANDARD_COST_PER_GB
    /\ StorageOptimization.current_monthly_cost b
       <= StorageOptimizationResult.current_size_gb r * 0.020
    /\ (StorageOptimizationResult.current_storage_class r
        = "NEARLINE"%string ->
        StorageOptimizationResult.estimated_savings_usd r
        <= StorageOptimizationResult.current_size_gb r * 0.010)
    /\ (StorageOptimizationResult.current_storage_class r
        = "COLDLINE"%string ->
        StorageOptimizationResult.estimated_savings_usd r
        <= StorageOptimizationResult.current_size_gb r * 0.004)
    /\ (StorageOptimizationResult.current_storage_class r
        = "ARCHIVE"%string ->
        StorageOptimizationResult.estimated_savings_usd r
        <= StorageOptimizationResult.current_size_gb r * 0.0012).
Proof.
  intros Hin.
  destruct (storage_result_origin _ _ _ Hin) as (s & b & _ & Hb & ->).
  cbn [storage_result StorageOptimizationResult.estimated_savings_usd
       StorageOptimizationResult.current_size_gb
       StorageOptimizationResult.current_storage_class
       StorageOptimizationResult.bucket_name
       StorageOptimizationResult.estimated_savings_percent].
  intros Hsize Hp0 Hp1. exists b. split; [exact Hb|].
  assert (H3 : 0 <= StorageSuggestion.estimated_savings_percent s / 100
               /\ StorageSuggestion.estimated_savings_percent s / 100 <= 1).
  { split; [apply Qle_shift_div_l | apply Qle_shift_div_r]; lra. }
  revert H3.
  generalize (StorageSuggestion.estimated_savings_percent s / 100).
  intros frac [Hf0 Hf1].
  assert (Hbound :
            forall rate,
              0 <= rate ->
              0 <= Bucket.size_gb b * rate * frac
              /\ Bucket.size_gb b * rate * frac <= Bucket.size_gb b * rate).
  { intros rate Hrate.
    assert (0 <= Bucket.size_gb b * rate) by nra. split; nra. }
  unfold StorageOptimization.current_monthly_cost.
  destruct (tier_rate_bounds (Bucket.storage_class b)) as [Hlo Hhi].
  destruct (Hbound _ Hlo) as [Hu0 Hu1].
  split; [exact Hu0|]. split; [exact Hu1|]. split; [reflexivity|].
  split; [nra|].
  repeat split; intros ->; apply (Hbound _); discriminate.
Qed.

Lemma storage_savings_bounded_witness :
  exists r,
    In r (StorageOptimization.process_suggestions three_buckets
            two_suggestions)
    /\ StorageOptimizationResult.current_storage_class r
       = "NEARLINE"%string
    /\ 0 <= StorageOptimizationResult.estimated_savings_usd r
    /\ StorageOptimizationResult.estimated_savings_usd r
       <= StorageOptimizationResult.current_size_gb r * 0.010.
Proof.
  destruct (StorageOptimization.process_suggestions three_buckets
              two_suggestions) as [|r0 [|r rest]] eqn:E;
    [discriminate E | discriminate E |].
  assert (Hin : In r (StorageOptimization.process_suggestions three_buckets
                        two_suggestions))
    by (rewrite E; right; now left).
  vm_compute in E. injection E as _ <- _.
  eexists. split; [right; now left|]. split; [reflexivity|].
  destruct (storage_savings_bounded three_buckets two_suggestions _ Hin)
    as (b & _ & Hlow & _ & _ & _ & Hnear & _); try (cbn; discriminate).
  split; [exact Hlow | apply Hnear; reflexivity].
Defined.

End AggregatorFacts.

Module ActionTypeFacts.

Import PyStr Spec Scenarios AggregatorFacts.



End ActionTypeFacts.

Module MLAutoscalingFacts.

Import PyStr Spec Scenarios.
Local Open Scope Q_scope.

Lemma ml_process_suggestion_app ml_job_metadata results s :
  MLAutoscaling.process_suggestion ml_job_metadata results s
  = (results ++ MLAutoscaling.process_suggestion ml_job_metadata [] s)%list.
Proof.
  unfold MLAutoscaling.process_suggestion.
  destruct (MLAutoscaling.job_info ml_job_metadata (MLSuggestion.job_name s));
    [reflexivity | now rewrite app_nil_r].
Qed.

Lemma ml_fold_process_suggestion ml_job_metadata ai_suggestions :
  forall results,
    fold_left (MLAutoscaling.process_suggestion ml_job_metadata)
      ai_suggestions results
    = (results
       ++ flat_map (MLAutoscaling.process_suggestion ml_job_metadata [])
            ai_suggestions)%list.
Proof.
  induction ai_suggestions as [|s sg IH]; intros results;
    cbn [fold_left flat_map]; [now rewrite app_nil_r|].
  rewrite IH, ml_process_suggestion_app, <- app_assoc. reflexivity.
Qed.

(** Every ML result is the record built from one suggestion and the job
    found for it. *)
Lemma ml_result_origin ml_job_metadata ai_suggestions r :
  In r (MLAutoscaling.process_suggestions ml_job_metadata ai_suggestions) ->
  exists s j,
    In s ai_suggestions
    /\ MLAutoscaling.job_info ml_job_metadata (MLSuggestion.job_name s)
       = Some j
    /\ r = ml_result j s.
Proof.
  unfold MLAutoscaling.process_suggestions.
  rewrite ml_fold_process_suggestion. cbn [app]. intros Hin.
  apply in_flat_map in Hin. destruct Hin as (s & Hs & Hr).
  unfold MLAutoscaling.process_suggestion in Hr.
  destruct (MLAutoscaling.job_info ml_job_metadata (MLSuggestion.job_name s))
    as [j|] eqn:Hj; [| contradiction].
  destruct Hr as [<- | []]. now exists s, j.
Qed.

(** X14.  The [suggested_cost] of every ML result is
    [current_cost * (1 - estimated_savings_percent / 100)], so the cost
    removed is [current_cost * estimated_savings_percent / 100].  With a
    current cost that is not negative and a percentage between 0 and 100 it
    lies between 0 and the current cost; a percentage above 100 on a
    positive current cost gives a negative suggested cost, which is kept as
    it is. *)
Theorem ml_suggested_cost
  (ml_job_metadata : list TrainingJob.t)
  (ai_suggestions : list MLSuggestion.t)
  (r : MLOptimizationResult.t) :
  In r (MLAutoscaling.process_suggestions ml_job_metadata ai_suggestions) ->
  MLOptimizationResult.current_cost r - MLOptimizationResult.suggested_cost r
  == MLOptimizationResult.current_cost r
     * MLOptimizationResult.estimated_savings_percent r / 100
  /\ (0 <= MLOptimizationResult.current_cost r ->
      0 <= MLOptimizationResult.estimated_savings_percent r ->
      MLOptimizationResult.estimated_savings_percent r <= 100 ->
      0 <= MLOptimizationResult.suggested_cost r
      /\ MLOptimizationResult.suggested_cost r
         <= MLOptimizationResult.current_cost r)
  /\ (0 < MLOptimizationResult.current_cost r ->
      100 < MLOptimizationResult.estimated_savings_percent r ->
      MLOptimizationResult.suggested_cost r < 0).
Proof.
  intros Hin.
  destruct (ml_result_origin _ _ _ Hin) as (s & j & _ & _ & ->).
  cbn [ml_result MLOptimizationResult.current_cost
       MLOptimizationResult.suggested_cost
       MLOptimizationResult.estimated_savings_percent].
  generalize (TrainingJob.estimated_cost j)
             (MLSuggestion.estimated_savings_percent s).
  intros cost pct. split; [unfold Qdiv; ring | split].
  - intros Hc Hp0 Hp1.
    assert (H3 : 0 <= pct / 100 /\ pct / 100 <= 1).
    { split; [apply Qle_shift_div_l | apply Qle_shift_div_r]; lra. }
    split; nra.
  - intros Hc Hp.
    assert (H3 : 1 < pct / 100) by (apply Qlt_shift_div_l; lra).
    nra.
Qed.

Lemma ml_suggested_cost_witness :
  exists r,
    In r (MLAutoscaling.process_suggestions three_jobs overpromised)
    /\ MLOptimizationResult.estimated_savings_percent r == 150
    /\ MLOptimizationResult.suggested_cost r < 0.
Proof.
  destruct (MLAutoscaling.process_suggestions three_jobs overpromised)
    as [|r rest] eqn:E; [discriminate E|].
  assert (Hin : In r (MLAutoscaling.process_suggestions three_jobs
                        overpromised)) by (rewrite E; now left).
  destruct (ml_suggested_cost three_jobs overpromised r Hin)
    as (_ & _ & Hneg).
  vm_compute in E. injection E as <- _.
  eexists. split; [now left|]. split; [reflexivity|].
  apply Hneg; reflexivity.
Defined.

(** X15.  [_generate_implementation_notes] never returns an empty text, and
    it returns the fallback "Review AI suggestions and implement recommended
    changes" exactly when the lower-cased optimization type contains none of
    "spot", "downgrade", "machine_type", "autoscaling" and "caching". *)
Theorem implementation_notes_fallback (optimization_type : string)
  (current_config suggested_config : list (string * string)) :
  MLAutoscaling._generate_implementation_notes optimization_type
    current_config suggested_config <> ""%string
  /\ (MLAutoscaling._generate_implementation_notes optimization_type
        current_config suggested_config
      = "Review AI suggestions and implement recommended changes"%string
      <-> (contains "spot" (lower optimization_type)
           || contains "downgrade" (lower optimization_type)
           || contains "machine_type" (lower optimization_type)
           || contains "autoscaling" (lower optimization_type)
           || contains "caching" (lower optimization_type))%bool = false).
Proof.
  unfold MLAutoscaling._generate_implementation_notes.
  destruct (contains "spot" (lower optimization_type));
    destruct (contains "downgrade" (lower optimization_type));
    destruct (contains "machine_type" (lower optimization_type));
    destruct (contains "autoscaling" (lower optimization_type));
    destruct (contains "caching" (lower optimization_type));
    cbn; (split; [discriminate|]);
    split; intros Hx; try reflexivity; discriminate Hx.
Qed.

End MLAutoscalingFacts.

(* ================================================================== *)
(** * Further properties of the bucket generator *)
(* ================================================================== *)

Module GeneratorFacts.

Import StorageSimulator Spec StorageSimulatorFacts.
Local Open Scope Q_scope.

Lemma round_half_even_le (x : Q) (m : Z) :
  x <= inject_Z m -> (round_half_even x <= m)%Z.
Proof.
  intros Hx.
  assert (Hf : (Qfloor x <= m)%Z).
  { rewrite <- (Qfloor_Z m). now apply Qfloor_resp_le. }
  assert (Hup : inject_Z (Qfloor x) < x -> (Qfloor x + 1 <= m)%Z).
  { intros Hlt. assert (Hz : inject_Z (Qfloor x) < inject_Z m) by lra.
    rewrite <- Zlt_Qlt in Hz. lia. }
  unfold round_half_even.
  destruct (Qcompare_spec (x - inject_Z (Qfloor x)) (1 # 2)) as [He | Hl | Hg].
  - destruct (Z.even (Qfloor x)); [exact Hf | apply Hup; lra].
  - exact Hf.
  - apply Hup. lra.
Qed.

Lemma round2_bounds (x : Q) (lo hi : Z) :
  inject_Z lo <= x -> x <= inject_Z hi ->
  inject_Z lo <= round2 x /\ round2 x <= inject_Z hi
  /\ exists hundredths : Z, round2 x = inject_Z hundredths / 100.
Proof.
  intros Hlo Hhi. unfold round2.
  assert (H1 : (lo * 100 <= round_half_even (x * 100))%Z).
  { apply Z.le_trans with (Qfloor (x * 100));
      [| apply round_half_even_floor].
    rewrite <- (Qfloor_Z (lo * 100)). apply Qfloor_resp_le.
    rewrite inject_Z_mult. change (inject_Z 100) with 100. lra. }
  assert (H2 : (round_half_even (x * 100) <= hi * 100)%Z).
  { apply round_half_even_le. rewrite inject_Z_mult.
    change (inject_Z 100) with 100. lra. }
  revert H1 H2. generalize (round_half_even (x * 100)). intros r H1 H2.
  rewrite Zle_Qle, inject_Z_mult in H1, H2.
  change (inject_Z 100) with 100 in H1, H2.
  split; [| split; [| now exists r]].
  - apply Qle_shift_div_l; lra.
  - apply Qle_shift_div_r; lra.
Qed.

Section Runs.

Context {W : Type} `{Env W}.

Lemma size_gb_in_range (size_distribution : Q) (w : W) :
  returns
    (if Qlt_le_dec size_distribution (5 # 10) then
       x <- uniform 1 100 ;; ret (round2 x)
     else if Qlt_le_dec size_distribution (8 # 10) then
       x <- uniform 100 1000 ;; ret (round2 x)
     else
       x <- uniform 1000 10000 ;; ret (round2 x))%eff
    w (fun size_gb _ =>
         1 <= size_gb /\ size_gb <= 10000
         /\ exists hundredths : Z, size_gb = inject_Z hundredths / 100).
Proof.
  destruct (Qlt_le_dec size_distribution (5 # 10));
    [| destruct (Qlt_le_dec size_distribution (8 # 10))].
  - apply (returns_bind _ _ _ _ _ (uniform_returns 1 100 w ltac:(lra))).
    intros x w1 _ [Hlo Hhi]. apply returns_ret.
    destruct (round2_bounds x 1 100 Hlo Hhi) as (A & B & C).
    change (inject_Z 1) with 1 in A. change (inject_Z 100) with 100 in B.
    repeat split; try assumption; lra.
  - apply (returns_bind _ _ _ _ _ (uniform_returns 100 1000 w ltac:(lra))).
    intros x w1 _ [Hlo Hhi]. apply returns_ret.
    destruct (round2_bounds x 100 1000 Hlo Hhi) as (A & B & C).
    change (inject_Z 100) with 100 in A.
    change (inject_Z 1000) with 1000 in B.
    repeat split; try assumption; lra.
  - apply (returns_bind _ _ _ _ _
             (uniform_returns 1000 10000 w ltac:(lra))).
    intros x w1 _ [Hlo Hhi]. apply returns_ret.
    destruct (round2_bounds x 1000 10000 Hlo Hhi) as (A & B & C).
    change (inject_Z 1000) with 1000 in A.
    change (inject_Z 10000) with 10000 in B.
    repeat split; try assumption; lra.
Qed.

Lemma storage_class_by_age (days_ago : Z) (w : W) :
  returns
    (if (days_ago <? 30)%Z then
       choice ["STANDARD"; "NEARLINE"]
     else if (days_ago <? 90)%Z then
       choice ["STANDARD"; "NEARLINE"; "COLDLINE"]
     else
       choice ["NEARLINE"; "COLDLINE"; "ARCHIVE"])%string
    w (fun storage_class _ =>
         ((days_ago < 30)%Z ->
          In storage_class ["STANDARD"; "NEARLINE"]%string)
         /\ ((30 <= days_ago < 90)%Z ->
             In storage_class ["STANDARD"; "NEARLINE"; "COLDLINE"]%string)
         /\ ((90 <= days_ago)%Z ->
             In storage_class ["NEARLINE"; "COLDLINE"; "ARCHIVE"]%string)).
Proof.
  destruct (Z.ltb_spec days_ago 30); [| destruct (Z.ltb_spec days_ago 90)].
  - destruct (choice_returns ["STANDARD"; "NEARLINE"]%string w
                ltac:(discriminate)) as (c & w' & E & Hc & Hin).
    exists c, w'. split; [exact E | split; [exact Hc |]].
    repeat split; intros; try assumption; exfalso; lia.
  - destruct (choice_returns ["STANDARD"; "NEARLINE"; "COLDLINE"]%string w
                ltac:(discriminate)) as (c & w' & E & Hc & Hin).
    exists c, w'. split; [exact E | split; [exact Hc |]].
    repeat split; intros; try assumption; exfalso; lia.
  - destruct (choice_returns ["NEARLINE"; "COLDLINE"; "ARCHIVE"]%string w
                ltac:(discriminate)) as (c & w' & E & Hc & Hin).
    exists c, w'. split; [exact E | split; [exact Hc |]].
    repeat split; intros; try assumption; exfalso; lia.
Qed.

Lemma aged_widen (lo hi lo' hi' : Z) (b : Bucket.t) :
  (lo' <= lo)%Z -> (hi <= hi')%Z -> aged lo hi b -> aged lo' hi' b.
Proof.
  intros Hlo Hhi (t & d & Ht & Hrest). exists t, d. split; [lia | exact Hrest].
Qed.

Lemma generate_bucket_drawn (w : W) :
  returns generate_bucket w
    (fun b w' => in_range b /\ aged (clock w) (clock w') b).
Proof.
  unfold generate_bucket.
  apply (returns_bind _ _ _ _ _
           (choice_returns BUCKET_PREFIXES w ltac:(discriminate))).
  intros prefix w1 C1 Hprefix.
  apply (returns_bind _ _ _ _ _ (randint_returns 1000 9999 w1 ltac:(lia))).
  intros suffix w2 C2 Hsuffix.
  apply (returns_bind _ _ _ _ _ (py_random_returns w2)).
  intros size_distribution w3 C3 _.
  apply (returns_bind _ _ _ _ _ (size_gb_in_range size_distribution w3)).
  intros size_gb w4 C4 (Hs1 & Hs2 & Hs3).
  apply (returns_bind _ _ _ _ _ (randint_returns 1 365 w4 ltac:(lia))).
  intros days_ago w5 C5 Hdays.
  apply (returns_bind _ _ _ _ _ (now_returns w5)).
  intros t w6 C6 Ht.
  apply (returns_bind _ _ _ _ _ (storage_class_by_age days_ago w6)).
  intros storage_class w7 C7 Htable.
  apply (returns_bind _ _ _ _ _
           (choice_returns REGIONS w7 ltac:(discriminate))).
  intros region w8 C8 Hregion.
  apply returns_ret. split.
  - unfold in_range. cbn [Bucket.name Bucket.region Bucket.size_gb].
    repeat split; try assumption. now exists prefix, suffix.
  - exists t, days_ago. cbn [Bucket.last_accessed Bucket.storage_class].
    repeat split; try apply Htable; lia.
Qed.

Lemma generate_loop_drawn (indices : list Z) :
  forall (buckets : list Bucket.t) (w : W),
    returns (generate_loop indices buckets) w
      (fun all w' =>
         exists fresh,
           all = (buckets ++ fresh)%list
           /\ Forall (fun b => in_range b /\ aged (clock w) (clock w') b)
                fresh).
Proof.
  induction indices as [|i rest IH]; intros buckets w; cbn [generate_loop].
  - apply returns_ret. exists []. rewrite app_nil_r. auto.
  - apply (returns_bind _ _ _ _ _ (generate_bucket_drawn w)).
    intros b w1 C1 [Hr Ha].
    destruct (IH (buckets ++ [b])%list w1)
      as (all & w2 & E & C2 & fresh & -> & Hall).
    exists ((buckets ++ [b]) ++ fresh)%list, w2.
    repeat split; [exact E | exact C2 |].
    exists (b :: fresh). rewrite <- app_assoc. split; [reflexivity|].
    constructor.
    + split; [exact Hr|].
      apply (aged_widen (clock w) (clock w1)); [lia | lia | exact Ha].
    + apply (Forall_impl _ (P := fun b' => in_range b'
                                  /\ aged (clock w1) (clock w2) b'));
        [| exact Hall].
      intros b' [Hr' Ha']. split; [exact Hr'|].
      apply (aged_widen (clock w1) (clock w2)); [lia | lia | exact Ha'].
Qed.

End Runs.

(** X16.  Every generated bucket has a name made of one of the ten listed
    prefixes, a dash and a number between 1000 and 9999, a region of the
    listed eight, and a size between 1 and 10000 GB that is a whole number
    of hundredths. *)
Theorem generated_fields_in_range
  {W : Type} `{Env W} (count : Z) (w : W) :
  exists buckets w',
    generate_bucket_metadata count w = (Returned buckets, w')
    /\ Forall in_range buckets.
Proof.
  unfold generate_bucket_metadata.
  destruct (generate_loop_drawn (range count) [] w)
    as (all & w' & E & _ & fresh & -> & Hall).
  exists fresh, w'. split; [exact E|].
  apply (Forall_impl _ (P := fun b => in_range b
                              /\ aged (clock w) (clock w') b));
    [now intros b [Hr _] | exact Hall].
Qed.

(** X17.  The tier of every generated bucket follows the age it was stamped
    with: under 30 days it is STANDARD or NEARLINE, from 30 to 89 days it
    is STANDARD, NEARLINE or COLDLINE, and from 90 days on it is NEARLINE,
    COLDLINE or ARCHIVE.  So a bucket stamped less than 90 days old is never
    in ARCHIVE, and one stamped less than 30 days old is never in COLDLINE
    either. *)
Theorem tier_follows_age
  {W : Type} `{Env W} (count : Z) (w : W) :
  exists buckets w',
    generate_bucket_metadata count w = (Returned buckets, w')
    /\ Forall (aged (clock w) (clock w')) buckets.
Proof.
  unfold generate_bucket_metadata.
  destruct (generate_loop_drawn (range count) [] w)
    as (all & w' & E & _ & fresh & -> & Hall).
  exists fresh, w'. split; [exact E|].
  apply (Forall_impl _ (P := fun b => in_range b
                              /\ aged (clock w) (clock w') b));
    [now intros b [_ Ha] | exact Hall].
Qed.

(** X18.  For a count of zero or less the generator returns the empty list
    without drawing a random number or reading the clock: no error is
    raised for a negative count. *)
Theorem no_buckets_without_count
  {W : Type} `{Env W} (count : Z) (w : W) :
  (count <= 0)%Z ->
  generate_bucket_metadata count w = (Returned [], w).
Proof.
  intros Hc. unfold generate_bucket_metadata, range.
  replace (Z.to_nat count) with 0%nat by lia. reflexivity.
Qed.

Lemma no_buckets_without_count_witness :
  generate_bucket_metadata (-3) (mkSeeded 2024 1730000000000000)
  = (Returned [], mkSeeded 2024 1730000000000000).
Proof.
  apply (no_buckets_without_count (-3) (mkSeeded 2024 1730000000000000)).
  lia.
Defined.

End GeneratorFacts.

(* ================================================================== *)
(** * Properties of the configuration *)
(* ================================================================== *)

Module ConfigFacts.

Import PyStr Config Scenarios.

Lemma validate_nil (cls : Settings) :
  validate cls = []
  <-> unset (BIGQUERY_PROJECT_ID cls) = false
      /\ ((AI_PROVIDER cls = "gemini"%string
           /\ unset (GEMINI_API_KEY cls) = false)
          \/ (AI_PROVIDER cls = "openai"%string
              /\ unset (OPENAI_API_KEY cls) = false)).
Proof.
  unfold validate.
  destruct (unset (BIGQUERY_PROJECT_ID cls));
    destruct (String.eqb_spec (AI_PROVIDER cls) "gemini") as [Hg | Hg];
    destruct (String.eqb_spec (AI_PROVIDER cls) "openai") as [Ho | Ho];
    destruct (unset (GEMINI_API_KEY cls));
    destruct (unset (OPENAI_API_KEY cls));
    cbn; split; try discriminate; try reflexivity;
    try (intros [Hp _]; discriminate Hp);
    try (intros [_ [[_ Hk] | [Hk _]]]; congruence);
    try (intros [_ [[Hk _] | [_ Hk]]]; congruence);
    try (intros [_ [[Hk _] | [Hk _]]]; congruence);
    intros _; split; auto.
Qed.

(** X19.  [Config.validate] reports no error exactly when the project id is
    set and the provider is "gemini" with its key set or "openai" with its
    key set. *)
Theorem validate_passes_iff (cls : Settings) :
  validate cls = []
  <-> unset (BIGQUERY_PROJECT_ID cls) = false
      /\ ((AI_PROVIDER cls = "gemini"%string
           /\ unset (GEMINI_API_KEY cls) = false)
          \/ (AI_PROVIDER cls = "openai"%string
              /\ unset (OPENAI_API_KEY cls) = false)).
Proof. apply validate_nil. Qed.

Lemma validate_passes_iff_witness :
  validate good_settings = [].
Proof.
  apply (validate_passes_iff good_settings).
  split; [reflexivity | right; split; reflexivity].
Defined.

(** X20.  With settings that pass [Config.validate], the key the workflows
    hand to the constructor is the configured provider's own key and it is
    set, and the constructor never raises its [ValueError]: it builds the
    configured provider's client with that key and returns or raises as
    that client library does.  Validation is stricter than the constructor
    about the name: it compares the provider name as it is written while
    the constructor lower-cases it, so a name such as "GEMINI" is reported
    by [validate] although the constructor would go on to build the gemini
    client with whatever key it is given. *)
Theorem valid_settings_build_the_service
  (GenerativeModel OpenAI : option string -> outcome unit)
  (cls : Settings) :
  (validate cls = [] ->
   let api_key :=
     if (AI_PROVIDER cls =? "gemini")%string
     then GEMINI_API_KEY cls else OPENAI_API_KEY cls in
   unset api_key = false
   /\ ((AI_PROVIDER cls = "gemini"%string
        /\ api_key = GEMINI_API_KEY cls
        /\ AIOptimizer.__init__ GenerativeModel OpenAI api_key
             (AI_PROVIDER cls)
           = match GenerativeModel (GEMINI_API_KEY cls) with
             | Returned _ => Returned AIOptimizer.gemini
             | Raised e => Raised e
             end)
       \/ (AI_PROVIDER cls = "openai"%string
           /\ api_key = OPENAI_API_KEY cls
           /\ AIOptimizer.__init__ GenerativeModel OpenAI api_key
                (AI_PROVIDER cls)
              = match OpenAI (OPENAI_API_KEY cls) with
                | Returned _ => Returned AIOptimizer.openai
                | Raised e => Raised e
                end)))
  /\ (AI_PROVIDER cls <> "gemini"%string ->
      lower (AI_PROVIDER cls) = "gemini"%string ->
      In "AI_PROVIDER must be either 'gemini' or 'openai'"%string
         (validate cls)
      /\ forall api_key,
           AIOptimizer.__init__ GenerativeModel OpenAI api_key
             (AI_PROVIDER cls)
           = match GenerativeModel api_key with
             | Returned _ => Returned AIOptimizer.gemini
             | Raised e => Raised e
             end).
Proof.
  split.
  - intros Hv. apply validate_nil in Hv.
    destruct Hv as [_ [[Hp Hk] | [Hp Hk]]]; rewrite Hp;
      cbn [String.eqb Ascii.eqb Bool.eqb]; (split; [exact Hk|]);
      [left | right]; repeat split; reflexivity.
  - intros Hg Hl. split.
    + unfold validate.
      assert (Ho : AI_PROVIDER cls <> "openai"%string).
      { intros Ho. rewrite Ho in Hl. discriminate Hl. }
      apply String.eqb_neq in Hg, Ho. rewrite Hg, Ho. cbn [andb orb negb].
      apply in_or_app. right. now left.
    + intros api_key. unfold AIOptimizer.__init__. rewrite Hl. reflexivity.
Qed.

Lemma valid_settings_build_the_service_witness :
  AIOptimizer.__init__ needs_key needs_key (Some "key-2"%string) "openai"
  = Returned AIOptimizer.openai
  /\ In "AI_PROVIDER must be either 'gemini' or 'openai'"%string
        (validate capital_settings)
  /\ AIOptimizer.__init__ needs_key needs_key None "GEMINI"
     = Raised "The api_key client option must be set"%string.
Proof.
  destruct (valid_settings_build_the_service needs_key needs_key
              good_settings) as [Hgood _].
  destruct (valid_settings_build_the_service needs_key needs_key
              capital_settings) as [_ Hcap].
  destruct (Hgood eq_refl) as [_ [(Hp & _) | (_ & _ & Hbuilt)]];
    [discriminate Hp|].
  destruct (Hcap ltac:(discriminate) eq_refl) as [Hrep Hany].
  split; [exact Hbuilt|]. split; [exact Hrep | exact (Hany None)].
Defined.

End ConfigFacts.

(* ================================================================== *)
(** * Properties of the dry-run error classifier *)
(* ================================================================== *)

Module DryRunErrorFacts.

Import PyStr BigQuery.

Lemma prefix_lower (needle s : string) :
  prefix needle s = true -> prefix (lower needle) (lower s) = true.
Proof.
  revert s; induction needle as [|c needle IH]; intros [|d s]; cbn;
    try discriminate; try reflexivity.
  destruct (ascii_dec c d) as [-> | Hne]; [| discriminate].
  intros Hp. destruct (ascii_dec (lower_ascii d) (lower_ascii d));
    [now apply IH | congruence].
Qed.

Lemma contains_lower (needle s : string) :
  contains needle s = true -> contains (lower needle) (lower s) = true.
Proof.
  induction s as [|d s IH].
  - destruct needle; [reflexivity | discriminate].
  - cbn [contains lower]. intros Hc. apply orb_true_iff in Hc.
    apply orb_true_iff. destruct Hc as [Hp | Hc].
    + left. apply (prefix_lower needle (String d s) Hp).
    + right. now apply IH.
Qed.

Lemma prefix_shorter (a b s : string) :
  prefix (a ++ b) s = true -> prefix a s = true.
Proof.
  revert s; induction a as [|c a IH]; intros s;
    [destruct s; reflexivity|].
  destruct s as [|d s]; cbn; [discriminate|].
  destruct (ascii_dec c d); [apply IH | discriminate].
Qed.

Lemma contains_shorter (a b s : string) :
  contains (a ++ b) s = true -> contains a s = true.
Proof.
  induction s as [|d s IH].
  - destruct a; [reflexivity | discriminate].
  - cbn [contains]. intros Hc. apply orb_true_iff in Hc.
    apply orb_true_iff. destruct Hc as [Hp | Hc].
    + left. apply (prefix_shorter a b _ Hp).
    + right. now apply IH.
Qed.

(** The first test of each pair implies the second. *)
Lemma capitalised_marker_redundant (marker lowered rest m : string) :
  lower marker = (lowered ++ rest)%string ->
  (contains marker m || contains lowered (lower m))%bool
  = contains lowered (lower m).
Proof.
  intros Hl. destruct (contains marker m) eqn:Hm; [| reflexivity].
  apply contains_lower in Hm. rewrite Hl in Hm.
  now rewrite (contains_shorter _ _ _ Hm).
Qed.

(** X21.  [handle_dry_run_error] looks for its markers in the order syntax,
    not found, permission, quota, and the kind it returns depends on the
    lower-cased text only: the capitalised test of each pair adds nothing.
    So two texts that differ in letter case only get the same kind, and a
    text that mentions both a syntax error and a quota is a syntax error. *)
Theorem dry_run_error_kind_by_lower_case (m : string) :
  error_type (handle_dry_run_error m)
  = (if contains "syntax" (lower m) then syntax
     else if contains "not found" (lower m) then not_found
     else if contains "permission" (lower m) then permission
     else if contains "quota" (lower m) then quota
     else unknown_error)
  /\ (forall m', lower m' = lower m ->
                 error_type (handle_dry_run_error m')
                 = error_type (handle_dry_run_error m)).
Proof.
  assert (Hkind : forall x,
             error_type (handle_dry_run_error x)
             = (if contains "syntax" (lower x) then syntax
                else if contains "not found" (lower x) then not_found
                else if contains "permission" (lower x) then permission
                else if contains "quota" (lower x) then quota
                else unknown_error)).
  { intros x. unfold handle_dry_run_error.
    rewrite (capitalised_marker_redundant "Syntax error" "syntax" " error" x)
      by reflexivity.
    rewrite (capitalised_marker_redundant "Not found" "not found" "" x)
      by reflexivity.
    rewrite (capitalised_marker_redundant "Permission denied" "permission"
               " denied" x) by reflexivity.
    rewrite (capitalised_marker_redundant "Quota exceeded" "quota"
               " exceeded" x) by reflexivity.
    destruct (contains "syntax" (lower x)); [reflexivity|].
    destruct (contains "not found" (lower x)); [reflexivity|].
    destruct (contains "permission" (lower x)); [reflexivity|].
    destruct (contains "quota" (lower x)); reflexivity. }
  split; [apply Hkind|].
  intros m' Hl. rewrite !Hkind, Hl. reflexivity.
Qed.

Lemma dry_run_error_kind_by_lower_case_witness :
  error_type (handle_dry_run_error "SYNTAX ERROR: QUOTA is not a column")
  = error_type (handle_dry_run_error "Syntax error: quota is not a column").
Proof.
  destruct (dry_run_error_kind_by_lower_case
              "Syntax error: quota is not a column") as [_ Hsame].
  apply Hsame. reflexivity.
Defined.

End DryRunErrorFacts.

(* ================================================================== *)
(** * Properties of reply parsing and validation *)
(* ================================================================== *)

Module FenceFacts.

Import PyStr AIResponses Scenarios.

Lemma app_assoc (a b c : string) : ((a ++ b) ++ c = a ++ (b ++ c))%string.
Proof. induction a as [|x a IH]; cbn; [reflexivity | now rewrite IH]. Qed.

Lemma app_empty (a b : string) :
  (a ++ b)%string = EmptyString -> a = EmptyString /\ b = EmptyString.
Proof. destruct a; cbn; [auto | discriminate]. Qed.

Lemma lstrip_length (s : string) :
  (String.length (lstrip s) <= String.length s)%nat.
Proof.
  induction s as [|c s IH]; cbn; [lia|].
  destruct (isspace c); cbn; lia.
Qed.

Lemma rstrip_length (s : string) :
  (String.length (rstrip s) <= String.length s)%nat.
Proof.
  induction s as [|c s IH]; cbn; [lia|].
  destruct (rstrip s); [destruct (isspace c) |]; cbn in *; lia.
Qed.

Lemma lstrip_same_length (s : string) :
  String.length (lstrip s) = String.length s -> lstrip s = s.
Proof.
  destruct s as [|c s]; cbn; [reflexivity|].
  destruct (isspace c); [| reflexivity].
  pose proof (lstrip_length s). lia.
Qed.

(** A text that [strip] leaves alone has no white space at either end. *)
Lemma strip_fixed (p : string) :
  strip p = p -> lstrip p = p /\ rstrip p = p.
Proof.
  unfold strip. intros Hs.
  assert (Hl : lstrip p = p).
  { apply lstrip_same_length.
    pose proof (lstrip_length p). pose proof (rstrip_length (lstrip p)).
    rewrite Hs in *. lia. }
  split; [exact Hl | now rewrite Hl in Hs].
Qed.

Lemma rstrip_spaces_after (s ws : string) :
  rstrip ws = EmptyString -> rstrip (s ++ ws) = rstrip s.
Proof.
  intros Hws. induction s as [|c s IH]; [exact Hws|].
  cbn [append rstrip]. now rewrite IH.
Qed.

Lemma rstrip_fixed_after (s t : string) :
  t <> EmptyString -> rstrip t = t -> rstrip (s ++ t) = (s ++ t)%string.
Proof.
  intros Hne Ht. induction s as [|c s IH]; [exact Ht|].
  cbn [append rstrip]. rewrite IH.
  destruct (s ++ t)%string eqn:E; [| reflexivity].
  apply app_empty in E. tauto.
Qed.

Lemma lstrip_fixed_before (p t : string) :
  p <> EmptyString -> lstrip p = p -> lstrip (p ++ t) = (p ++ t)%string.
Proof.
  intros Hne Hp. destruct p as [|c p]; [congruence|].
  cbn in *. destruct (isspace c); [| reflexivity].
  pose proof (lstrip_length p). rewrite Hp in *. cbn in *. lia.
Qed.

Lemma endswith_append (q suffix : string) :
  endswith suffix (q ++ suffix) = true.
Proof.
  induction q as [|c q IH].
  - destruct suffix; cbn [append endswith]; rewrite String.eqb_refl;
      reflexivity.
  - cbn [append endswith]. rewrite IH. apply orb_true_r.
Qed.

Lemma endswith_tail (suffix s : string) :
  endswith suffix s = true -> exists q, s = (q ++ suffix)%string.
Proof.
  induction s as [|c s IH]; cbn [endswith]; intros He;
    apply orb_true_iff in He; destruct He as [He | He].
  - apply String.eqb_eq in He. exists EmptyString. now rewrite <- He.
  - discriminate.
  - apply String.eqb_eq in He. exists EmptyString. now rewrite <- He.
  - destruct (IH He) as [q ->]. now exists (String c q).
Qed.

Lemma take_append (q t : string) : take (String.length q) (q ++ t) = q.
Proof.
  unfold take. induction q as [|c q IH]; cbn.
  - destruct t; reflexivity.
  - now rewrite IH.
Qed.

Lemma length_append (q t : string) :
  String.length (q ++ t) = (String.length q + String.length t)%nat.
Proof. induction q as [|c q IH]; cbn; [reflexivity | now rewrite IH]. Qed.

Lemma drop_last_append (q suffix : string) :
  drop_last (String.length suffix) (q ++ suffix) = q.
Proof.
  unfold drop_last. rewrite length_append.
  replace (String.length q + String.length suffix - String.length suffix)%nat
    with (String.length q) by lia.
  apply take_append.
Qed.

(** What is left of a reply once the opening fence is gone. *)
Lemma closing_fence_removed (p : string) :
  strip p = p ->
  let text := (newline ++ p ++ newline ++ "```")%string in
  strip (if endswith "```" text then drop_last 3 text else text) = p.
Proof.
  intros Hs text. subst text. destruct (strip_fixed p Hs) as [Hl Hr].
  rewrite <- !app_assoc. rewrite endswith_append.
  rewrite (drop_last_append _ "```"). rewrite app_assoc.
  assert (Hnl : forall s, lstrip (newline ++ s) = lstrip s)
    by reflexivity.
  unfold strip. rewrite Hnl.
  destruct p as [|c p]; [reflexivity|].
  rewrite (lstrip_fixed_before (String c p)) by (assumption || discriminate).
  rewrite rstrip_spaces_after by reflexivity. exact Hr.
Qed.

(** X22.  A reply with no white space around it comes back unchanged from
    the fence stripping of [_parse_json_response] when it is wrapped in a
    json fence or in a plain fence on lines of their own, and also when it
    has no fence at all. *)
Theorem fences_are_removed (payload : string) :
  strip payload = payload ->
  strip_fences ("```json" ++ newline ++ payload ++ newline ++ "```")
  = payload
  /\ strip_fences ("```" ++ newline ++ payload ++ newline ++ "```")
     = payload
  /\ (startswith "```" payload = false ->
      endswith "```" payload = false ->
      strip_fences payload = payload).
Proof.
  intros Hs. split; [| split].
  - unfold strip_fences.
    assert (Hstrip :
              strip ("```json" ++ newline ++ payload ++ newline ++ "```")
              = ("```json" ++ newline ++ payload ++ newline ++ "```")%string).
    { unfold strip. cbn [append lstrip isspace].
      change (String "`" (String "`" (String "`" (String "j" (String "s"
               (String "o" (String "n"
                  (newline ++ payload ++ newline ++ "```"))))))))
        with ("```json" ++ newline ++ payload ++ newline ++ "```")%string.
      rewrite <- !app_assoc.
      apply rstrip_fixed_after; [discriminate | reflexivity]. }
    rewrite Hstrip.
    assert (Hopen : forall rest,
               startswith "```json" ("```json" ++ newline ++ rest) = true)
      by reflexivity.
    assert (Hskip : forall rest, skip 7 ("```json" ++ rest) = rest)
      by reflexivity.
    rewrite Hopen, Hskip. apply (closing_fence_removed payload Hs).
  - unfold strip_fences.
    assert (Hstrip :
              strip ("```" ++ newline ++ payload ++ newline ++ "```")
              = ("```" ++ newline ++ payload ++ newline ++ "```")%string).
    { unfold strip. cbn [append lstrip isspace].
      change (String "`" (String "`" (String "`"
                (newline ++ payload ++ newline ++ "```"))))
        with ("```" ++ newline ++ payload ++ newline ++ "```")%string.
      rewrite <- !app_assoc.
      apply rstrip_fixed_after; [discriminate | reflexivity]. }
    rewrite Hstrip.
    assert (Hjson : forall rest,
               startswith "```json" ("```" ++ newline ++ rest) = false)
      by reflexivity.
    assert (Hopen : forall rest,
               startswith "```" ("```" ++ newline ++ rest) = true)
      by reflexivity.
    assert (Hskip : forall rest, skip 3 ("```" ++ rest) = rest)
      by reflexivity.
    rewrite Hjson, Hopen, Hskip. apply (closing_fence_removed payload Hs).
  - intros Hopen Hclose. unfold strip_fences. rewrite Hs.
    destruct (startswith "```json" payload) eqn:Hj.
    + apply (DryRunErrorFacts.prefix_shorter "```" "json") in Hj.
      unfold startswith in Hopen. congruence.
    + now rewrite Hopen, Hclose.
Qed.

Lemma fences_are_removed_witness :
  strip_fences (fenced "[{...}, {...}]") = "[{...}, {...}]"%string
  /\ strip_fences "{...}" = "{...}"%string.
Proof.
  split.
  - destruct (fences_are_removed "[{...}, {...}]" eq_refl) as (H1 & _ & _).
    exact H1.
  - destruct (fences_are_removed "{...}" eq_refl) as (_ & _ & H3).
    apply H3; reflexivity.
Defined.

End FenceFacts.

Module ResponseFacts.

Import PyStr AIOptimizer Json AIResponses Spec Scenarios.

Lemma prefix_self (a b : string) : prefix a (a ++ b) = true.
Proof.
  induction a as [|c a IH]; cbn; [destruct b; reflexivity|].
  destruct (ascii_dec c c); [exact IH | congruence].
Qed.

(** A reply on the first call ends the retry loop at once. *)
Lemma first_reply client p prompt (text : string) (w : World) :
  client p prompt (calls w) = Returned text ->
  _call_ai_with_retry client p prompt 3 w
  = (Returned text, mkWorld (S (calls w)) (sleeps w)).
Proof.
  intros Hc. unfold _call_ai_with_retry. change (range 3) with [0; 1; 2].
  apply (AIOptimizerFacts.retry_loop_success _ _ _ _ _ _ text _ Hc).
Qed.

Lemma parse_returned json_loads (text : string) (v : value) (w : World) :
  json_loads (strip_fences text) = Returned v ->
  _parse_json_response json_loads text w = (Returned v, w).
Proof.
  intros Hj. unfold _parse_json_response, try_except. now rewrite Hj.
Qed.

Lemma parse_raised json_loads (text e : string) (w : World) :
  json_loads (strip_fences text) = Raised e ->
  _parse_json_response json_loads text w
  = (Raised ("Failed to parse JSON response: " ++ e ++ ". Response: "
             ++ take 200 (strip_fences text)), w).
Proof.
  intros Hj. unfold _parse_json_response, try_except. now rewrite Hj.
Qed.

Lemma require_keys_present missing (keys : list string) (v : value)
  (w : World) :
  (forall key, In key keys -> contains_key key v = Returned true) ->
  require_keys missing keys v w = (Returned tt, w).
Proof.
  induction keys as [|k keys IH]; intros Hall; [reflexivity|].
  cbn [require_keys]. rewrite (Hall k) by now left.
  apply IH. intros key Hk. apply Hall. now right.
Qed.

Lemma require_keys_absent missing (before after : list string)
  (key : string) (v : value) (w : World) :
  (forall k, In k before -> contains_key k v = Returned true) ->
  contains_key key v = Returned false ->
  require_keys missing (before ++ key :: after) v w
  = (Raised (missing key), w).
Proof.
  induction before as [|k before IH]; intros Hall Hkey.
  - cbn [app require_keys]. now rewrite Hkey.
  - cbn [app require_keys]. rewrite (Hall k) by now left.
    apply IH; [| exact Hkey]. intros k' Hk'. apply Hall. now right.
Qed.

Lemma require_keys_each_present missing (keys : list string)
  (items : list value) (w : World) :
  (forall item key, In item items -> In key keys ->
                    contains_key key item = Returned true) ->
  require_keys_each missing keys items w = (Returned tt, w).
Proof.
  induction items as [|item items IH]; intros Hall; [reflexivity|].
  cbn [require_keys_each]. unfold bind.
  rewrite require_keys_present by (intros key Hk; apply Hall; auto; now left).
  apply IH. intros item' key Hi Hk. apply Hall; [now right | exact Hk].
Qed.

Lemma require_keys_each_absent missing (before after : list string)
  (key : string) (good rest : list value) (bad : value) (w : World) :
  (forall item k, In item good -> In k (before ++ key :: after) ->
                  contains_key k item = Returned true) ->
  (forall k, In k before -> contains_key k bad = Returned true) ->
  contains_key key bad = Returned false ->
  require_keys_each missing (before ++ key :: after) (good ++ bad :: rest) w
  = (Raised (missing key), w).
Proof.
  induction good as [|item good IH]; intros Hgood Hbefore Hkey.
  - cbn [app require_keys_each]. unfold bind.
    now rewrite require_keys_absent.
  - cbn [app require_keys_each]. unfold bind.
    rewrite require_keys_present
      by (intros k Hk; apply Hgood; [now left | exact Hk]).
    apply IH; try assumption.
    intros item' k Hi Hk. apply Hgood; [now right | exact Hk].
Qed.

(** X23.  A reply that does not parse is not asked for again: when the
    first reply fails in [json.loads], [analyze_storage] raises after that
    one provider call, without a wait, and the message names the parse
    failure and quotes the first 200 characters of the text that was
    parsed. *)
Theorem parse_failure_is_not_retried client json_loads p prompt
  (text e : string) (w : World) :
  client p prompt (calls w) = Returned text ->
  json_loads (strip_fences text) = Raised e ->
  analyze_storage client json_loads p prompt w
  = (Raised ("Failed to analyze storage: Failed to parse JSON response: "
             ++ e ++ ". Response: " ++ take 200 (strip_fences text)),
     mkWorld (S (calls w)) (sleeps w)).
Proof.
  intros Hc Hj. unfold analyze_storage, try_except, bind.
  rewrite (first_reply _ _ _ _ _ Hc), (parse_raised _ _ _ _ Hj).
  reflexivity.
Qed.

Lemma parse_failure_is_not_retried_witness :
  analyze_storage (replies "Sorry, I cannot help with that.") two_replies
    gemini "prompt" (mkWorld 0 [])
  = (Raised ("Failed to analyze storage: Failed to parse JSON response: "
             ++ "Expecting value: line 1 column 1 (char 0)"
             ++ ". Response: " ++ "Sorry, I cannot help with that."),
     mkWorld 1 []).
Proof.
  apply (parse_failure_is_not_retried
           (replies "Sorry, I cannot help with that.") two_replies gemini
           "prompt" "Sorry, I cannot help with that."
           "Expecting value: line 1 column 1 (char 0)" (mkWorld 0 []));
    reflexivity.
Defined.

(** X24.  [analyze_storage] returns the parsed list unchanged, after one
    provider call, when each of the four key names is [in] each element of
    the list.  For an element that is an object this means it has the four
    keys; an element that is a text passes as well when the four names
    occur in it, since [in] is then a substring test. *)
Theorem suggestions_with_all_keys_accepted client json_loads p prompt
  (text : string) (items : list value) (w : World) :
  client p prompt (calls w) = Returned text ->
  json_loads (strip_fences text) = Returned (JList items) ->
  (forall item key, In item items -> In key storage_keys ->
                    match item with
                    | JObject members =>
                        existsb (fun kv => (fst kv =? key)%string) members
                        = true
                    | JString s => contains key s = true
                    | _ => False
                    end) ->
  analyze_storage client json_loads p prompt w
  = (Returned (JList items), mkWorld (S (calls w)) (sleeps w)).
Proof.
  intros Hc Hj Hall. unfold analyze_storage, try_except, bind.
  rewrite (first_reply _ _ _ _ _ Hc), (parse_returned _ _ _ _ Hj).
  rewrite require_keys_each_present; [reflexivity|].
  intros item key Hi Hk. specialize (Hall item key Hi Hk).
  destruct item; try contradiction; cbn; now rewrite Hall.
Qed.

Lemma suggestions_with_all_keys_accepted_witness :
  analyze_storage (replies (fenced "[...]")) two_replies openai "prompt"
    (mkWorld 0 [])
  = (Returned
       (JList
          [JString
             "bucket_name, issue, suggestion, estimated_savings_percent"]),
     mkWorld 1 []).
Proof.
  apply (suggestions_with_all_keys_accepted (replies (fenced "[...]"))
           two_replies openai "prompt" (fenced "[...]")
           [JString
              "bucket_name, issue, suggestion, estimated_savings_percent"]
           (mkWorld 0 []));
    [reflexivity | reflexivity |].
  intros item key [<- | []] Hk.
  cbn in Hk. destruct Hk as [<- | [<- | [<- | [<- | []]]]]; reflexivity.
Defined.

(** X25.  When an object of the list lacks a required key, while the
    elements before it have all four, [analyze_storage] raises
    "Failed to analyze storage: Missing required key in suggestion: " and
    the first of the four keys, in their fixed order, that the object
    lacks; nothing of the list is returned. *)
Theorem first_missing_key_is_reported client json_loads p prompt
  (text : string) (good rest : list value)
  (members : list (string * value)) (before after : list string)
  (key : string) (w : World) :
  client p prompt (calls w) = Returned text ->
  json_loads (strip_fences text)
  = Returned (JList (good ++ JObject members :: rest)) ->
  storage_keys = (before ++ key :: after)%list ->
  (forall item k, In item good -> In k storage_keys ->
                  contains_key k item = Returned true) ->
  (forall k, In k before ->
             existsb (fun kv => (fst kv =? k)%string) members = true) ->
  existsb (fun kv => (fst kv =? key)%string) members = false ->
  analyze_storage client json_loads p prompt w
  = (Raised ("Failed to analyze storage: "
             ++ "Missing required key in suggestion: " ++ key),
     mkWorld (S (calls w)) (sleeps w)).
Proof.
  intros Hc Hj Hkeys Hgood Hbefore Hkey.
  unfold analyze_storage, try_except, bind.
  rewrite (first_reply _ _ _ _ _ Hc), (parse_returned _ _ _ _ Hj).
  change ["bucket_name"; "issue"; "suggestion"; "estimated_savings_percent"]
    with storage_keys.
  rewrite Hkeys in *.
  rewrite (require_keys_each_absent _ before after key good rest
             (JObject members)); try assumption; [reflexivity | |].
  - intros k Hk. cbn. now rewrite Hbefore.
  - cbn. now rewrite Hkey.
Qed.

Lemma first_missing_key_is_reported_witness :
  analyze_storage (replies (fenced "[{...}, {...}]")) two_replies gemini
    "prompt" (mkWorld 0 [])
  = (Raised ("Failed to analyze storage: "
             ++ "Missing required key in suggestion: "
             ++ "estimated_savings_percent"),
     mkWorld 1 []).
Proof.
  apply (first_missing_key_is_reported
           (replies (fenced "[{...}, {...}]")) two_replies gemini "prompt"
           (fenced "[{...}, {...}]")
           [ JObject
               [ ("bucket_name", JString "prod-data-1001");
                 ("issue", JString "rarely read");
                 ("suggestion", JString "Move to NEARLINE");
                 ("estimated_savings_percent", JFloat 50) ] ]
           []
           [ ("bucket_name", JString "dev-logs-2002");
             ("issue", JString "old logs");
             ("suggestion", JString "Delete old logs") ]
           ["bucket_name"; "issue"; "suggestion"] []
           "estimated_savings_percent" (mkWorld 0 []));
    try reflexivity.
  - intros item k [<- | []] Hk.
    cbn in Hk. destruct Hk as [<- | [<- | [<- | [<- | []]]]]; reflexivity.
  - intros k Hk. cbn in Hk.
    destruct Hk as [<- | [<- | [<- | []]]]; reflexivity.
Defined.

(** X26.  A reply that parses to anything but a list, an object that wraps
    the list included, is rejected by [analyze_storage] with
    "AI response must be a list of optimization suggestions", after one
    provider call. *)
Theorem reply_that_is_no_list_rejected client json_loads p prompt
  (text : string) (v : value) (w : World) :
  client p prompt (calls w) = Returned text ->
  json_loads (strip_fences text) = Returned v ->
  (forall items, v <> JList items) ->
  analyze_storage client json_loads p prompt w
  = (Raised ("Failed to analyze storage: "
             ++ "AI response must be a list of optimization suggestions"),
     mkWorld (S (calls w)) (sleeps w)).
Proof.
  intros Hc Hj Hv. unfold analyze_storage, try_except, bind.
  rewrite (first_reply _ _ _ _ _ Hc), (parse_returned _ _ _ _ Hj).
  destruct v; try reflexivity. now destruct (Hv items).
Qed.

Lemma reply_that_is_no_list_rejected_witness :
  analyze_storage (replies "{...}") two_replies gemini "prompt"
    (mkWorld 0 [])
  = (Raised ("Failed to analyze storage: "
             ++ "AI response must be a list of optimization suggestions"),
     mkWorld 1 []).
Proof.
  apply (reply_that_is_no_list_rejected (replies "{...}") two_replies gemini
           "prompt" "{...}" (JObject [("suggestions", JList [])])
           (mkWorld 0 []));
    [reflexivity | reflexivity | discriminate].
Defined.

(** X27.  Whatever the provider and the parser do, an error that leaves one
    of the four optimizer methods carries the method's own prefix:
    "Failed to optimize SQL query: ", "Failed to analyze storage: ",
    "Failed to optimize schedules: " or "Failed to optimize ML jobs: ". *)
Theorem method_errors_are_prefixed client json_loads p prompt (w : World) :
  (forall msg w', optimize_sql_query client json_loads p prompt w
                  = (Raised msg, w') ->
                  prefix "Failed to optimize SQL query: " msg = true)
  /\ (forall msg w', analyze_storage client json_loads p prompt w
                     = (Raised msg, w') ->
                     prefix "Failed to analyze storage: " msg = true)
  /\ (forall msg w', optimize_schedule client json_loads p prompt w
                     = (Raised msg, w') ->
                     prefix "Failed to optimize schedules: " msg = true)
  /\ (forall msg w', optimize_ml_jobs client json_loads p prompt w
                     = (Raised msg, w') ->
                     prefix "Failed to optimize ML jobs: " msg = true).
Proof.
  assert (Hwrap : forall (A : Type) (body : Eff World A) (label msg : string)
                         (w' : World),
             try_except body (fun e => raise (label ++ e)) w = (Raised msg, w')
             -> prefix label msg = true).
  { intros A body label msg w'. unfold try_except, raise.
    destruct (body w) as [[a | e] w1]; [discriminate|].
    intros [= <- _]. apply prefix_self. }
  repeat split; intros msg w'; apply Hwrap.
Qed.

Lemma method_errors_are_prefixed_witness :
  prefix "Failed to optimize ML jobs: "
    ("Failed to optimize ML jobs: "
     ++ "Invalid API key or authentication failed: "
     ++ "400 API key not valid. Please pass a valid API key.")
  = true.
Proof.
  destruct (method_errors_are_prefixed bad_key two_replies openai "prompt"
              (mkWorld 0 [])) as (_ & _ & _ & Hml).
  apply (Hml _ (mkWorld 1 [])). reflexivity.
Defined.

End ResponseFacts.

(* ================================================================== *)
(** * Properties of the schedule aggregator *)
(* ================================================================== *)

Module QuerySchedulingFacts.

Import QueryScheduling Spec Scenarios.
Local Open Scope Q_scope.

Lemma fold_left_appending {A B : Type} (f : list B -> A -> list B) :
  (forall acc a, f acc a = (acc ++ f [] a)%list) ->
  forall l acc, fold_left f l acc = (acc ++ flat_map (f []) l)%list.
Proof.
  intros Hf. induction l as [|a l IH]; intros acc; cbn [fold_left flat_map].
  - now rewrite app_nil_r.
  - rewrite IH, (Hf acc a), <- app_assoc. reflexivity.
Qed.

Lemma process_adjustment_appends md acc a :
  process_adjustment md acc a = (acc ++ process_adjustment md [] a)%list.
Proof.
  unfold process_adjustment.
  destruct (schedule_info md (FrequencyAdjustment.query_name a));
    [reflexivity | now rewrite app_nil_r].
Qed.

Lemma process_merge_appends md acc m :
  process_merge md acc m = (acc ++ process_merge md [] m)%list.
Proof.
  unfold process_merge.
  destruct (2 <=? _)%Z; [reflexivity | now rewrite app_nil_r].
Qed.

Lemma process_candidate_appends md acc c :
  process_candidate md acc c = (acc ++ process_candidate md [] c)%list.
Proof.
  unfold process_candidate.
  destruct (schedule_info md c); [reflexivity | now rewrite app_nil_r].
Qed.

(** The results are those of the three loops, one after the other. *)
Lemma process_analysis_blocks md analysis :
  process_analysis md analysis
  = (flat_map (process_adjustment md [])
       (ScheduleAnalysis.frequency_adjustments analysis)
     ++ flat_map (process_merge md [])
          (ScheduleAnalysis.merge_opportunities analysis)
     ++ flat_map (process_candidate md [])
          (ScheduleAnalysis.materialized_view_candidates analysis))%list.
Proof.
  unfold process_analysis.
  rewrite (fold_left_appending _ (process_candidate_appends md)).
  rewrite (fold_left_appending _ (process_merge_appends md)).
  rewrite (fold_left_appending _ (process_adjustment_appends md)).
  cbn [app]. now rewrite <- app_assoc.
Qed.












(** X30.  The results come in three blocks, in this order: one
    [reduce_frequency] result per adjustment whose query is in the
    metadata, one [merge] result per merge opportunity that names at least
    two queries, whether or not those are in the metadata, and one
    [materialized_view] result per candidate that is in the metadata. *)
Theorem schedule_results_in_three_blocks
  (schedule_metadata : list Schedule.t) (ai_analysis : ScheduleAnalysis.t) :
  map ScheduleOptimizationResult.optimization_type
    (process_analysis schedule_metadata ai_analysis)
  = (map (fun _ => "reduce_frequency"%string)
       (filter (fun a => scheduled schedule_metadata
                           (FrequencyAdjustment.query_name a))
          (ScheduleAnalysis.frequency_adjustments ai_analysis))
     ++ map (fun _ => "merge"%string)
          (filter mergeable (ScheduleAnalysis.merge_opportunities ai_analysis))
     ++ map (fun _ => "materialized_view"%string)
          (filter (scheduled schedule_metadata)
             (ScheduleAnalysis.materialized_view_candidates ai_analysis)))%list.
Proof.
  rewrite process_analysis_blocks, !map_app. f_equal; [| f_equal].
  - induction (ScheduleAnalysis.frequency_adjustments ai_analysis)
      as [|a l IH]; [reflexivity|].
    cbn [flat_map filter]. rewrite map_app, IH.
    unfold process_adjustment at 1, scheduled.
    destruct (schedule_info schedule_metadata
                (FrequencyAdjustment.query_name a)); reflexivity.
  - induction (ScheduleAnalysis.merge_opportunities ai_analysis)
      as [|m l IH]; [reflexivity|].
    cbn [flat_map filter]. rewrite map_app, IH.
    unfold process_merge at 1, mergeable.
    destruct (MergeOpportunity.queries m) as [qs|];
      [destruct (2 <=? Z.of_nat (List.length qs))%Z |]; reflexivity.
  - induction (ScheduleAnalysis.materialized_view_candidates ai_analysis)
      as [|c l IH]; [reflexivity|].
    cbn [flat_map filter]. rewrite map_app, IH.
    unfold process_candidate at 1, scheduled.
    destruct (schedule_info schedule_metadata c); reflexivity.
Qed.

End QuerySchedulingFacts.
